(** * nlup.perceptron: perceptron-like classifiers

    A shallow embedding of [nlup/perceptron.py] and the properties its
    specification states about it.

    Conventions of the embedding.
    - A method that can raise returns a [result]; the exception is the
      [Raise] branch and is propagated by [bind].
    - A method that mutates [self] takes the object and returns the new one.
    - A Python [dict] keeps insertion order, and [max] breaks ties by
      iteration order, so dictionaries are association lists with unique
      keys; a [defaultdict] is a dictionary with a default value that is
      stored on the first read of a missing key.
    - A Python [int] is a [Z].  A Python [float] is idealised as the exact
      rational it denotes, kept in lowest terms; rounding is not modelled.
    - The iteration order of a Python [set] is not fixed by the language: it
      is the parameter [set_iter] of every method that iterates [classes]. *)

From Stdlib Require Import ZArith QArith Qreduction Qround List String Bool Lia Permutation.
Import ListNotations.
Open Scope string_scope.
Open Scope list_scope.
Open Scope Z_scope.

Set Implicit Arguments.

(** ** Exceptions and the error monad *)

Inductive exn : Type :=
| NameError (name : string)
| AttributeError (name : string)
| KeyError
| ValueError (msg : string)
| TypeError (msg : string)
| ZeroDivisionError.

Inductive result (A : Type) : Type :=
| Ok (a : A)
| Raise (e : exn).

Arguments Ok {A} a.
Arguments Raise {A} e.

Definition bind {A B : Type} (r : result A) (k : A -> result B) : result B :=
  match r with
  | Ok a => k a
  | Raise e => Raise e
  end.

Notation "x <- r ;; k" := (bind r (fun x => k))
  (at level 61, r at next level, right associativity).
Notation "' p <- r ;; k" := (bind r (fun x => let p := x in k))
  (at level 61, p pattern, r at next level, right associativity).

Definition fmap {A B : Type} (f : A -> B) (r : result A) : result B :=
  x <- r ;; Ok (f x).

(** [for a in l: s = body(s, a)], stopping at the first exception. *)
Fixpoint for_each {A S : Type} (body : S -> A -> result S) (l : list A) (s : S)
  : result S :=
  match l with
  | [] => Ok s
  | a :: l' => s' <- body s a ;; for_each body l' s'
  end.

(** Name resolution: [bound] lists the names bound in the scope of the
    expression together with their values; [perceptron.py] defines no
    module-level name outside [module_globals]. *)
Definition module_globals : list string :=
  ["logging"; "time"; "Random"; "partial"; "itemgetter"; "defaultdict";
   "namedtuple"; "Accuracy"; "JSONable"; "listify"; "reversify"; "INF";
   "ORDER"; "EPOCHS"; "Classifier"; "BinaryPerceptron"; "Perceptron";
   "TrellisCell"; "SequencePerceptron"; "LazyWeight";
   "BinaryAveragedPerceptron"; "AveragedPerceptron";
   "SequenceAveragedPerceptron"].

Fixpoint load_name {A : Type} (bound : list (string * A)) (name : string)
  : result A :=
  match bound with
  | [] => Raise (NameError name)
  | (n, v) :: rest => if String.eqb n name then Ok v else load_name rest name
  end.

(** ** Hashable keys *)

Class Hashable (K : Type) : Type := {
  key_eqb : K -> K -> bool;
  key_eqb_spec : forall a b : K, reflect (a = b) (key_eqb a b)
}.

#[export] Instance Hashable_string : Hashable string :=
  {| key_eqb := String.eqb; key_eqb_spec := String.eqb_spec |}.

Definition option_eqb {K : Type} `{Hashable K} (a b : option K) : bool :=
  match a, b with
  | None, None => true
  | Some x, Some y => key_eqb x y
  | _, _ => false
  end.

Definition option_eqb_spec {K : Type} `{Hashable K} (a b : option K) :
  reflect (a = b) (option_eqb a b).
Proof.
  destruct a as [x|], b as [y|]; simpl; try (constructor; congruence).
  destruct (key_eqb_spec x y); constructor; congruence.
Defined.

(** A label that is either Python's [None] or a hashable value. *)
#[export] Instance Hashable_option {K : Type} `{Hashable K} : Hashable (option K) :=
  {| key_eqb := option_eqb; key_eqb_spec := option_eqb_spec |}.

(** ** Numbers: [int] and [float] *)

Inductive num : Type :=
| PyInt (z : Z)
| PyFloat (q : Q).

Definition num_to_Q (a : num) : Q :=
  match a with
  | PyInt z => inject_Z z
  | PyFloat q => q
  end.

Definition num_add (a b : num) : num :=
  match a, b with
  | PyInt x, PyInt y => PyInt (x + y)
  | _, _ => PyFloat (Qred (num_to_Q a + num_to_Q b))
  end.

Definition num_mul (a b : num) : num :=
  match a, b with
  | PyInt x, PyInt y => PyInt (x * y)
  | _, _ => PyFloat (Qred (num_to_Q a * num_to_Q b))
  end.

Definition num_is_zero (a : num) : bool :=
  match a with
  | PyInt z => z =? 0
  | PyFloat q => Qnum q =? 0
  end.

(** [a / b]: true division, always a float. *)
Definition num_truediv (a b : num) : result num :=
  if num_is_zero b then Raise ZeroDivisionError
  else Ok (PyFloat (Qred (num_to_Q a / num_to_Q b))).

(** [a > b] *)
Definition num_gt (a b : num) : bool :=
  negb (Qle_bool (num_to_Q a) (num_to_Q b)).

(** [a >= b] *)
Definition num_ge (a b : num) : bool :=
  Qle_bool (num_to_Q b) (num_to_Q a).

(** What [max] needs of a score: the comparison [a > b]. *)
Class Scalar (V : Type) : Type := { s_gt : V -> V -> bool }.

#[export] Instance Scalar_Z : Scalar Z := {| s_gt := Z.gtb |}.

#[export] Instance Scalar_num : Scalar num := {| s_gt := num_gt |}.

(** ** Dictionaries *)

Record dict (K V : Type) : Type := {
  items : list (K * V);
  defaulting : bool
}.

(** The value a [defaultdict] stores for a missing key: what its factory
    returns.  The module uses one factory per type of value: [int],
    [LazyWeight], and [partial(defaultdict, ...)] for the nested
    dictionaries. *)
Class Factory (V : Type) : Type := { factory : V }.

#[export] Instance Factory_Z : Factory Z := {| factory := 0 |}.

(** Tables of scores with [float] entries are plain dictionaries; [int]
    is the factory a [defaultdict] of numbers would have. *)
#[export] Instance Factory_num : Factory num := {| factory := PyInt 0 |}.

#[export] Instance Factory_dict {K V : Type} : Factory (dict K V) :=
  {| factory := {| items := []; defaulting := true |} |}.

Section Dict.
Context {K V : Type} `{Hashable K} `{Factory V}.

Fixpoint assoc (k : K) (l : list (K * V)) : option V :=
  match l with
  | [] => None
  | (k', v) :: l' => if key_eqb k k' then Some v else assoc k l'
  end.

(** Overwrite in place, or append a new key at the end. *)
Fixpoint assoc_set (k : K) (v : V) (l : list (K * V)) : list (K * V) :=
  match l with
  | [] => [(k, v)]
  | (k', v') :: l' =>
      if key_eqb k k' then (k', v) :: l' else (k', v') :: assoc_set k v l'
  end.

Fixpoint assoc_del (k : K) (l : list (K * V)) : list (K * V) :=
  match l with
  | [] => []
  | (k', v') :: l' => if key_eqb k k' then l' else (k', v') :: assoc_del k l'
  end.

(** [{}] *)
Definition plain_dict : dict K V :=
  {| items := []; defaulting := false |}.

(** [defaultdict(factory)] *)
Definition defaultdict : dict K V :=
  {| items := []; defaulting := true |}.

(** [d[k] = v] *)
Definition setitem (d : dict K V) (k : K) (v : V) : dict K V :=
  {| items := assoc_set k v (items d); defaulting := defaulting d |}.

(** [d[k]]: a missing key of a [defaultdict] is stored with the default. *)
Definition getitem (d : dict K V) (k : K) : result (V * dict K V) :=
  match assoc k (items d) with
  | Some v => Ok (v, d)
  | None =>
      if defaulting d then Ok (factory, setitem d k factory)
      else Raise KeyError
  end.

(** [del d[k]] *)
Definition delitem (d : dict K V) (k : K) : result (dict K V) :=
  match assoc k (items d) with
  | Some _ =>
      Ok {| items := assoc_del k (items d); defaulting := defaulting d |}
  | None => Raise KeyError
  end.

(** [dict.fromkeys(keys, v)] *)
Definition fromkeys (keys : list K) (v : V) : dict K V :=
  fold_left (fun d k => setitem d k v) keys plain_dict.

(** What a read of [d[k]] yields when [d] is a [defaultdict]. *)
Definition peek (d : dict K V) (k : K) : V :=
  match assoc k (items d) with
  | Some v => v
  | None => factory
  end.

End Dict.

(** [max(d.items(), key=itemgetter(1))]: the first item, in iteration
    order, whose value no later item exceeds. *)
Fixpoint max_from {K V : Type} `{Scalar V} (best : K * V) (rest : list (K * V))
  : K * V :=
  match rest with
  | [] => best
  | kv :: rest' =>
      max_from (if s_gt (snd kv) (snd best) then kv else best) rest'
  end.

Definition max_by_value {K V : Type} `{Scalar V} (l : list (K * V))
  : result (K * V) :=
  match l with
  | [] => Raise (ValueError "max() arg is an empty sequence")
  | kv :: rest => Ok (max_from kv rest)
  end.

(** ** Sets of classes

    The content of a [set] is the list of its elements in the order they
    were first added; how it is iterated is up to [set_iter]. *)

Section PySet.
Context {K : Type} `{Hashable K}.

Definition set_mem (k : K) (s : list K) : bool := existsb (key_eqb k) s.

(** [s.add(k)] *)
Definition set_add (s : list K) (k : K) : list K :=
  if set_mem k s then s else s ++ [k].

(** [s.update(ks)] *)
Definition set_update (s : list K) (ks : list K) : list K :=
  fold_left set_add ks s.

End PySet.

(** An iteration order is admissible when it visits every element once. *)
Definition iter_ok {K : Type} (set_iter : list K -> list K) : Prop :=
  forall s, Permutation (set_iter s) s.

(** ** Python objects met as gold labels of a binary model *)

Inductive pyobj : Type :=
| PyNone
| PyBool (b : bool)
| PyNumber (z : Z)
| PyStr (s : string).

(** [a == b]; [True == 1] and [False == 0] hold in Python. *)
Definition py_eq (a b : pyobj) : bool :=
  match a, b with
  | PyNone, PyNone => true
  | PyBool x, PyBool y => Bool.eqb x y
  | PyBool x, PyNumber z | PyNumber z, PyBool x => z =? (if x then 1 else 0)
  | PyNumber x, PyNumber y => x =? y
  | PyStr x, PyStr y => String.eqb x y
  | _, _ => false
  end.

(** [y is False] and [y is True]: identity with the two singletons. *)
Definition is_False (y : pyobj) : bool :=
  match y with PyBool false => true | _ => false end.

Definition is_True (y : pyobj) : bool :=
  match y with PyBool true => true | _ => false end.

(** ** The random source

    [Random(seed)] with an explicit seed is a function of the seed; with
    [seed=None] the generator is seeded from the operating system.  The
    generator's internals are not part of the module: [shuffle] is used
    through its call contract only. *)

Record random_source (Rng : Type) : Type := {
  seeded : Z -> Rng;
  os_seeded : Rng;
  shuffle : forall A : Type, Rng -> list A -> list A * Rng
}.

Definition Random {Rng : Type} (src : random_source Rng) (seed : option Z) : Rng :=
  match seed with
  | Some s => seeded src s
  | None => os_seeded src
  end.

(** ** Training

    What [fit] uses of its collaborators: the accuracy bookkeeping of
    [nlup/confusion.py], the wall clock [time()] and [logging]. *)

Record accuracy_api (Acc G P : Type) : Type := {
  Accuracy : Acc;
  acc_update : Acc -> G -> P -> Acc;
  acc_accuracy : Acc -> Q
}.

Inductive log_record : Type :=
| Info_starting (epochs : Z)
| Info_epoch (epoch : Z)
| Debug_accuracy (epoch : Z) (accuracy : Q)
| Debug_elapsed (epoch : Z) (seconds : Z).

(** The world outside the model: how often [time()] was read, and the
    records emitted so far. *)
Record world : Type := {
  clock_reads : nat;
  emitted : list log_record
}.

Definition emit (w : world) (r : log_record) : world :=
  {| clock_reads := clock_reads w; emitted := emitted w ++ [r] |}.

Definition read_clock (clock : nat -> Q) (w : world) : Q * world :=
  (clock (clock_reads w),
   {| clock_reads := S (clock_reads w); emitted := emitted w |}).

(** [int(q)] *)
Definition Qtruncate (q : Q) : Z :=
  if Qle_bool 0 q then Qfloor q else Qceiling q.

(** [range(a, b)] *)
Definition py_range (a b : Z) : list Z :=
  map (fun i => a + Z.of_nat i) (seq 0 (Z.to_nat (b - a))).

(** The part of the state of [fit] that is not the world. *)
Definition model_and_data {T D W : Type} (st : T * D * W) : T * D := fst st.

Module Classifier.
Section Fit.
Context {T X G P Rng Acc : Type}.
Variable src : random_source Rng.
Variable clock : nat -> Q.
(** [Accuracy()] and [accuracy.accuracy] *)
Variable new_accuracy : Acc.
Variable ratio : Acc -> Q.
(** [self.random] *)
Variable get_random : T -> Rng.
Variable set_random : T -> Rng -> T.
(** [self.fit_one] and [self.finalize] *)
Variable self_fit_one : T -> X -> G -> result (P * T).
Variable self_finalize : T -> result T.
(** How the outcome of one instance enters the accuracy. *)
Variable tally : Acc -> G -> P -> Acc.

Definition epoch_pass (st : T * list (X * G) * world) (epoch : Z)
  : result (T * list (X * G) * world) :=
  let '(self, data, w) := st in
  let w := emit w (Info_epoch epoch) in
  let (tic, w) := read_clock clock w in
  let accuracy := new_accuracy in
  let (data, rng) := shuffle src (get_random self) data in
  let self := set_random self rng in
  '(self, accuracy) <-
    for_each
      (fun (st : T * Acc) (instance : X * G) =>
         let (self, accuracy) := st in
         let (x, y) := instance in
         '(yhat, self) <- self_fit_one self x y ;;
         Ok (self, tally accuracy y yhat))
      data (self, accuracy) ;;
  let w := emit w (Debug_accuracy epoch (ratio accuracy)) in
  let (toc, w) := read_clock clock w in
  let w := emit w (Debug_elapsed epoch (Qtruncate (toc - tic))) in
  Ok (self, data, w).

(** The epochs of [fit], before [self.finalize()]. *)
Definition run_epochs (self : T) (data : list (X * G)) (epochs : Z) (w : world)
  : result (T * list (X * G) * world) :=
  for_each epoch_pass (py_range 1 (1 + epochs)) (self, data, w).

Definition fit_with (self : T) (Xs : list X) (Ys : list G) (epochs : Z) (w : world)
  : result (T * world) :=
  let data := combine Xs Ys in
  let w := emit w (Info_starting epochs) in
  '(self, _, w) <- run_epochs self data epochs w ;;
  self <- self_finalize self ;;
  Ok (self, w).

End Fit.

(** [Classifier.fit]: one accuracy update per instance. *)
Definition fit {T X G P Rng Acc : Type} (src : random_source Rng)
  (clock : nat -> Q) (acc : accuracy_api Acc G P)
  (get_random : T -> Rng) (set_random : T -> Rng -> T)
  (self_fit_one : T -> X -> G -> result (P * T))
  (self_finalize : T -> result T) :=
  fit_with src clock (Accuracy acc) (acc_accuracy acc)
           get_random set_random self_fit_one self_finalize (acc_update acc).

End Classifier.

(** ** Binary models

    The attributes of a binary model.  [BinaryPerceptron] has no [time];
    the field is carried along and never read or written by its methods. *)

Record binary (F Rng W : Type) : Type := {
  b_random : Rng;
  b_weights : dict F W;
  b_time : Z
}.

Definition b_with_weights {F Rng W W' : Type} (self : binary F Rng W)
  (ws : dict F W') : binary F Rng W' :=
  {| b_random := b_random self; b_weights := ws; b_time := b_time self |}.

Module BinaryPerceptron.
Section Methods.
Context {F Rng : Type} `{Hashable F}.

Definition t : Type := binary F Rng Z.

Definition __init__ (src : random_source Rng) (seed : option Z) : t :=
  {| b_random := Random src seed; b_weights := defaultdict; b_time := 0 |}.

(** [sum(self.weights[feature] for feature in x)] *)
Definition score (self : t) (x : list F) : result (Z * t) :=
  for_each
    (fun (acc : Z * t) feature =>
       let (total, self) := acc in
       '(w, ws) <- getitem (b_weights self) feature ;;
       Ok (total + w, b_with_weights self ws))
    x (0, self).

Definition predict (self : t) (x : list F) : result (bool * t) :=
  '(s, self) <- score self x ;;
  Ok (s >=? 0, self).

(** [update(x, y, tau)]; nothing looks at [y] beyond [y is False]. *)
Definition update (self : t) (x : list F) (y : pyobj) (tau : Z) : result t :=
  let tau := if is_False y then tau * -1 else tau in
  for_each
    (fun self feature =>
       '(w, ws) <- getitem (b_weights self) feature ;;
       Ok (b_with_weights self (setitem ws feature (w + tau))))
    x self.

(** The dictionary comprehension first evaluates its iterable, the name
    [weight], which [finalize] does not bind (its only local is [self]) and
    the module does not define: the lookup raises, the comprehension is
    never built and [self.weights] is not assigned. *)
Definition finalize (self : t) : result t :=
  _ <- load_name [("self", self)] "weight" ;;
  Ok self.

End Methods.

(** [fit_one], which the averaged variant inherits: [self_predict] and
    [self_update] are the methods the call [self.predict] and
    [self.update] dispatch to. *)
Section Inherited.
Context {T F : Type}.
Variable self_predict : T -> list F -> result (bool * T).
Variable self_update : T -> list F -> pyobj -> Z -> result T.

Definition fit_one (self : T) (x : list F) (y : pyobj) : result (bool * T) :=
  '(yhat, self) <- self_predict self x ;;
  if negb (py_eq y (PyBool yhat))
  then self <- self_update self x y 1 ;; Ok (yhat, self)
  else Ok (yhat, self).

End Inherited.
End BinaryPerceptron.

(** ** Multiclass models

    The attributes of a multiclass model.  [classes] is a [set]; [time]
    exists in the averaged variants only, [tfeats_fnc] and [order] in the
    sequence variants only: the other variants carry them untouched. *)

Record multiclass (F C Rng W : Type) : Type := {
  classes : list C;
  random : Rng;
  weights : dict F (dict C W);
  time : Z;
  tfeats_fnc : option (list C -> list F);
  order : Z
}.

Section Attributes.
Context {F C Rng W : Type}.

Definition with_weights (self : multiclass F C Rng W) (ws : dict F (dict C W))
  : multiclass F C Rng W :=
  {| classes := classes self; random := random self; weights := ws;
     time := time self; tfeats_fnc := tfeats_fnc self; order := order self |}.

Definition with_classes (self : multiclass F C Rng W) (cs : list C)
  : multiclass F C Rng W :=
  {| classes := cs; random := random self; weights := weights self;
     time := time self; tfeats_fnc := tfeats_fnc self; order := order self |}.

Definition with_time (self : multiclass F C Rng W) (now : Z)
  : multiclass F C Rng W :=
  {| classes := classes self; random := random self; weights := weights self;
     time := now; tfeats_fnc := tfeats_fnc self; order := order self |}.

Definition with_random (self : multiclass F C Rng W) (rng : Rng)
  : multiclass F C Rng W :=
  {| classes := classes self; random := rng; weights := weights self;
     time := time self; tfeats_fnc := tfeats_fnc self; order := order self |}.

Definition with_decoder (self : multiclass F C Rng W)
  (fnc : option (list C -> list F)) (k : Z) : multiclass F C Rng W :=
  {| classes := classes self; random := random self; weights := weights self;
     time := time self; tfeats_fnc := fnc; order := k |}.

End Attributes.

Module Perceptron.
Section Methods.
Context {F C Rng : Type} `{Hashable F} `{Hashable C}.
Variable set_iter : list C -> list C.

Definition t : Type := multiclass F C Rng Z.

Definition __init__ (src : random_source Rng) (default : C) (seed : option Z) : t :=
  {| classes := [default];
     random := Random src seed;
     weights := defaultdict;
     time := 0; tfeats_fnc := None; order := 0 |}.

(** [sum(self.weights[feature][y] for feature in x)] *)
Definition score (self : t) (x : list F) (y : C) : result (Z * t) :=
  for_each
    (fun (acc : Z * t) feature =>
       let (total, self) := acc in
       '(clsweight, ws) <- getitem (weights self) feature ;;
       '(w, clsweight) <- getitem clsweight y ;;
       Ok (total + w, with_weights self (setitem ws feature clsweight)))
    x (0, self).

Definition scores (self : t) (x : list F) : result (dict C Z * t) :=
  for_each
    (fun (acc : dict C Z * t) feature =>
       let (scores, self) := acc in
       '(clsweight, ws) <- getitem (weights self) feature ;;
       scores <-
         for_each
           (fun scores (item : C * Z) =>
              let (cls, weight) := item in
              '(old, scores) <- getitem scores cls ;;
              Ok (setitem scores cls (old + weight)))
           (items clsweight) scores ;;
       Ok (scores, with_weights self ws))
    x (fromkeys (set_iter (classes self)) 0, self).

Definition update (self : t) (x : list F) (y yhat : C) (tau : Z) : result t :=
  for_each
    (fun self feature =>
       '(feature_ptr, ws) <- getitem (weights self) feature ;;
       '(w, feature_ptr) <- getitem feature_ptr y ;;
       let feature_ptr := setitem feature_ptr y (w + tau) in
       '(w, feature_ptr) <- getitem feature_ptr yhat ;;
       let feature_ptr := setitem feature_ptr yhat (w - tau) in
       Ok (with_weights self (setitem ws feature feature_ptr)))
    x self.

(** The two comprehensions build plain dictionaries. *)
Definition finalize (self : t) : result t :=
  Ok (with_weights self
        {| items :=
             map (fun item : F * dict C Z =>
                    let (feature, clsweight) := item in
                    (feature,
                     {| items := filter (fun cw : C * Z => negb (snd cw =? 0))
                                        (items clsweight);
                        defaulting := false |}))
                 (items (weights self));
           defaulting := false |}).

End Methods.

(** [predict] and [fit_one], as inherited by the averaged variant:
    [self_scores], [self_predict] and [self_update] are the methods the
    calls on [self] dispatch to. *)
Section Inherited.
Context {F C Rng W V : Type} `{Hashable C} `{Scalar V}.
Variable self_scores :
  multiclass F C Rng W -> list F -> result (dict C V * multiclass F C Rng W).
Variable self_predict :
  multiclass F C Rng W -> list F -> result (C * multiclass F C Rng W).
Variable self_update :
  multiclass F C Rng W -> list F -> C -> C -> Z -> result (multiclass F C Rng W).

Definition predict (self : multiclass F C Rng W) (x : list F)
  : result (C * multiclass F C Rng W) :=
  '(scores, self) <- self_scores self x ;;
  '(argmax_score, _) <- max_by_value (items scores) ;;
  Ok (argmax_score, self).

Definition fit_one (self : multiclass F C Rng W) (x : list F) (y : C)
  : result (C * multiclass F C Rng W) :=
  let self := with_classes self (set_add (classes self) y) in
  '(yhat, self) <- self_predict self x ;;
  if negb (key_eqb y yhat)
  then self <- self_update self x y yhat 1 ;; Ok (yhat, self)
  else Ok (yhat, self).

End Inherited.
End Perceptron.

(** [TrellisCell = namedtuple("TrellisCell", ["score", "pointer"])]: the
    pointer of a cell is a state or [None], a value of the type of the
    classes. *)
Module TrellisCell.

Record t (S C : Type) : Type := {
  score : S;
  pointer : C
}.

End TrellisCell.

Module SequencePerceptron.
Section Methods.
Context {F C Rng W V : Type} `{Hashable C} `{Scalar V}.
Variable self_scores :
  multiclass F C Rng W -> list F -> result (dict C V * multiclass F C Rng W).
Variable self_update :
  multiclass F C Rng W -> list F -> C -> C -> Z -> result (multiclass F C Rng W).

(** [seq[-k:]] *)
Definition last_window {A : Type} (k : Z) (seq : list A) : list A :=
  let n := Z.of_nat (List.length seq) in
  let start := if 0 <? k then Z.max 0 (n - k) else Z.min n (- k) in
  skipn (Z.to_nat start) seq.

(** [self.tfeats_fnc(window)] *)
Definition call_tfeats (fnc : option (list C -> list F)) (window : list C)
  : result (list F) :=
  match fnc with
  | Some f => Ok (f window)
  | None => Raise (TypeError "'NoneType' object is not callable")
  end.

(** Modelled from the spec: the decorator [listify] of [nlup/decorators.py]
    is not part of this file.  By section 4.3, order-0 decoding returns the
    sequence of the labels chosen token by token, so the decorated
    generator is taken to return the list of the labels it yields. *)
Definition _markov0_predict (self : multiclass F C Rng W) (xx : list (list F))
  : result (list C * multiclass F C Rng W) :=
  for_each
    (fun (acc : list C * multiclass F C Rng W) x =>
       let (yyhat, self) := acc in
       '(scores, self) <- self_scores self x ;;
       '(yhat, _) <- max_by_value (items scores) ;;
       Ok (yyhat ++ [yhat], self))
    xx ([], self).

(** The loop body reads the name [sequence].  Of the names the method
    binds ([self], [xx], [xxt], [yyhat], [x], then [xt] and [yhat]) the
    only list of labels is [yyhat]; the module defines no [sequence]. *)
Definition _greedy_predict (self : multiclass F C Rng W) (xx : list (list F))
  : result ((list (list F) * list C) * multiclass F C Rng W) :=
  for_each
    (fun (acc : (list (list F) * list C) * multiclass F C Rng W) x =>
       let '((xxt, yyhat), self) := acc in
       sequence <- load_name [("yyhat", yyhat)] "sequence" ;;
       tfeats <- call_tfeats (tfeats_fnc self) (last_window (order self) sequence) ;;
       let xt := x ++ tfeats in
       let xxt := xxt ++ [xt] in
       '(scores, self) <- self_scores self xt ;;
       '(yhat, _) <- max_by_value (items scores) ;;
       Ok ((xxt, yyhat ++ [yhat]), self))
    xx (([], []), self).

Definition predict (self : multiclass F C Rng W) (xx : list (list F))
  : result (list C * multiclass F C Rng W) :=
  if order self <=? 0 then _markov0_predict self xx
  else '((_, yyhat), self) <- _greedy_predict self xx ;; Ok (yyhat, self).

(** No class of the module defines [_greedy_predict_with_transitions]. *)
Definition predict_with_transitions (self : multiclass F C Rng W)
  (xx : list (list F))
  : result ((list (list F) * list C) * multiclass F C Rng W) :=
  if order self <=? 0
  then '(yyhat, self) <- _markov0_predict self xx ;; Ok ((xx, yyhat), self)
  else Raise (AttributeError "_greedy_predict_with_transitions").

(** [print(xt)] writes to the standard output, which is not modelled. *)
Definition fit_one (self : multiclass F C Rng W) (xx : list (list F))
  (yy : list C) : result (list C * multiclass F C Rng W) :=
  let self := with_classes self (set_update (classes self) yy) in
  '((xxt, yyhat), self) <- predict_with_transitions self xx ;;
  self <-
    for_each
      (fun self (row : list F * (C * C)) =>
         let '(xt, (y, yhat)) := row in
         if negb (key_eqb y yhat) then self_update self xt y yhat 1
         else Ok self)
      (combine xxt (combine yy yyhat)) self ;;
  Ok (yyhat, self).

End Methods.

Definition __init__ {F C Rng : Type} (src : random_source Rng)
  (tfeats : list C -> list F) (k : Z) (default : C) (seed : option Z)
  : multiclass F C Rng Z :=
  with_decoder (Perceptron.__init__ src default seed) (Some tfeats) k.

(** [SequencePerceptron.fit]: one accuracy update per token. *)
Definition fit {T X G P Rng Acc : Type}
  (src : random_source Rng) (clock : nat -> Q) (acc : accuracy_api Acc G P)
  (get_random : T -> Rng) (set_random : T -> Rng -> T)
  (self_fit_one : T -> X -> list G -> result (list P * T))
  (self_finalize : T -> result T) :=
  Classifier.fit_with src clock (Accuracy acc) (acc_accuracy acc)
    get_random set_random self_fit_one self_finalize
    (fun accuracy yy yyhat =>
       fold_left (fun a (p : G * P) => acc_update acc a (fst p) (snd p))
                 (combine yy yyhat) accuracy).

Section Traceback.
Context {S C : Type} `{Hashable C}.

(** Modelled from the spec: the decorator [reversify] of
    [nlup/decorators.py] is not part of this file.  By sections 4.3 and 8
    (backtrace walks the pointers from the last column to the first, then
    reverses, and returns the labels in forward time order), the decorated
    generator is taken to return the list of the states it yields, the
    last one first.  A column is a plain dictionary, as [_trellis] builds
    them, given by its items; [state] is yielded before it is looked up. *)
Definition _traceback (trellis : list (list (C * TrellisCell.t S C))) (state : C)
  : result (list C) :=
  '(yielded, _) <-
    for_each
      (fun (acc : list C * C) column =>
         let (yielded, state) := acc in
         let yielded := yielded ++ [state] in
         match assoc state column with
         | Some cell => Ok (yielded, TrellisCell.pointer cell)
         | None => Raise KeyError
         end)
      (rev trellis) ([], state) ;;
  Ok (rev yielded).

End Traceback.

End SequencePerceptron.

(** ** LazyWeight *)

Module LazyWeight.

Record t : Type := {
  timestamp : Z;
  weight : num;
  summed_weight : num
}.

(** [LazyWeight(default_factory=int, t=t0)] *)
Definition __init__ (t0 : Z) : t :=
  {| timestamp := t0; weight := PyInt 0; summed_weight := PyInt 0 |}.

(** [LazyWeight()] *)
Definition fresh : t := __init__ 0.

Definition get (self : t) : num := weight self.

Definition _freshen (self : t) (now : Z) : t :=
  {| timestamp := now;
     weight := weight self;
     summed_weight :=
       num_add (summed_weight self)
               (num_mul (PyInt (now - timestamp self)) (weight self)) |}.

Definition update (self : t) (value : num) (now : Z) : t :=
  let self := _freshen self now in
  {| timestamp := timestamp self;
     weight := num_add (weight self) value;
     summed_weight := summed_weight self |}.

Definition average (self : t) (now : Z) : result t :=
  let self := _freshen self now in
  w <- num_truediv (summed_weight self) (PyInt now) ;;
  Ok {| timestamp := timestamp self;
        weight := w;
        summed_weight := summed_weight self |}.

(** [lw == 0.]: the class defines no [__eq__], so the comparison falls back
    to object identity, and a [LazyWeight] is never the float it is
    compared with. *)
Definition eq_float (self : t) (x : Q) : bool := false.

End LazyWeight.

#[export] Instance Factory_LazyWeight : Factory LazyWeight.t :=
  {| factory := LazyWeight.fresh |}.

Module BinaryAveragedPerceptron.
Section Methods.
Context {F Rng : Type} `{Hashable F}.

Definition t : Type := binary F Rng LazyWeight.t.

Definition __init__ (src : random_source Rng) (seed : option Z) : t :=
  {| b_random := Random src seed;
     b_weights := defaultdict;
     b_time := 0 |}.

(** [sum(self.weights[feature].get() for feature in x) >= 0] *)
Definition predict (self : t) (x : list F) : result (bool * t) :=
  '(score, self) <-
    for_each
      (fun (acc : num * t) feature =>
         let (total, self) := acc in
         '(w, ws) <- getitem (b_weights self) feature ;;
         Ok (num_add total (LazyWeight.get w), b_with_weights self ws))
      x (PyInt 0, self) ;;
  Ok (num_ge score (PyInt 0), self).

(** The guard of [update]: the sign of [tau], or the [ValueError]. *)
Definition signed_tau (y : pyobj) (tau : Z) : result Z :=
  if is_False y then Ok (tau * -1)
  else if negb (is_True y) then Raise (ValueError "y is not boolean")
  else Ok tau.

Definition update (self : t) (x : list F) (y : pyobj) (tau : Z) : result t :=
  tau <- signed_tau y tau ;;
  for_each
    (fun self feature =>
       '(w, ws) <- getitem (b_weights self) feature ;;
       Ok (b_with_weights self
             (setitem ws feature (LazyWeight.update w (PyInt tau) (b_time self)))))
    x self.

Definition fit_one (self : t) (x : list F) (y : pyobj) : result (bool * t) :=
  '(retval, self) <- BinaryPerceptron.fit_one predict update self x y ;;
  Ok (retval,
      {| b_random := b_random self;
         b_weights := b_weights self;
         b_time := b_time self + 1 |}).

(** The first loop walks [self.weights.items()]; [weight.average] mutates
    the object held by the dictionary, so the averaged weight is stored
    back under its key. *)
Definition finalize (self : t) : result t :=
  '(ready2die, ws) <-
    for_each
      (fun (acc : list F * dict F LazyWeight.t) (item : F * LazyWeight.t) =>
         let (ready2die, ws) := acc in
         let (feature, weight) := item in
         if LazyWeight.eq_float weight 0
         then Ok (ready2die ++ [feature], ws)
         else weight <- LazyWeight.average weight (b_time self) ;;
              Ok (ready2die, setitem ws feature weight))
      (items (b_weights self)) ([], b_weights self) ;;
  ws <- for_each (fun ws feature => delitem ws feature) ready2die ws ;;
  Ok (b_with_weights self ws).

End Methods.
End BinaryAveragedPerceptron.

Module AveragedPerceptron.
Section Methods.
Context {F C Rng : Type} `{Hashable F} `{Hashable C}.
Variable set_iter : list C -> list C.

Definition t : Type := multiclass F C Rng LazyWeight.t.

Definition __init__ (src : random_source Rng) (default : C) (seed : option Z) : t :=
  {| classes := [default];
     random := Random src seed;
     weights := defaultdict;
     time := 0; tfeats_fnc := None; order := 0 |}.

(** [sum(self.weights[feature][y].get() for feature in x)] *)
Definition score (self : t) (x : list F) (y : C) : result (num * t) :=
  for_each
    (fun (acc : num * t) feature =>
       let (total, self) := acc in
       '(clsweight, ws) <- getitem (weights self) feature ;;
       '(w, clsweight) <- getitem clsweight y ;;
       Ok (num_add total (LazyWeight.get w),
           with_weights self (setitem ws feature clsweight)))
    x (PyInt 0, self).

Definition scores (self : t) (x : list F) : result (dict C num * t) :=
  for_each
    (fun (acc : dict C num * t) feature =>
       let (scores, self) := acc in
       '(clsweight, ws) <- getitem (weights self) feature ;;
       scores <-
         for_each
           (fun scores (item : C * LazyWeight.t) =>
              let (cls, weight) := item in
              '(old, scores) <- getitem scores cls ;;
              Ok (setitem scores cls (num_add old (LazyWeight.get weight))))
           (items clsweight) scores ;;
       Ok (scores, with_weights self ws))
    x (fromkeys (set_iter (classes self)) (PyInt 0), self).

Definition update (self : t) (x : list F) (y yhat : C) (tau : Z) : result t :=
  for_each
    (fun self feature =>
       '(feature_ptr, ws) <- getitem (weights self) feature ;;
       '(w, feature_ptr) <- getitem feature_ptr y ;;
       let feature_ptr :=
         setitem feature_ptr y (LazyWeight.update w (PyInt tau) (time self)) in
       '(w, feature_ptr) <- getitem feature_ptr yhat ;;
       let feature_ptr :=
         setitem feature_ptr yhat (LazyWeight.update w (PyInt (- tau)) (time self)) in
       Ok (with_weights self (setitem ws feature feature_ptr)))
    x self.

(** [super().fit_one(x, y)] is [inherited_fit_one]: [Perceptron.fit_one]
    for [AveragedPerceptron], [SequencePerceptron.fit_one] for
    [SequenceAveragedPerceptron], whose [x] and [y] are sequences. *)
Definition fit_one {X G P : Type}
  (inherited_fit_one : t -> X -> G -> result (P * t))
  (self : t) (x : X) (y : G) : result (P * t) :=
  '(retval, self) <- inherited_fit_one self x y ;;
  Ok (retval, with_time self (time self + 1)).

(** The first two loops walk the items of the dictionaries;
    [weight.average] mutates the object they hold, so the averaged weight
    is stored back under its key. *)
Definition finalize (self : t) : result t :=
  '(ready2die, ws) <-
    for_each
      (fun (acc : list (F * C) * dict F (dict C LazyWeight.t))
           (entry : F * dict C LazyWeight.t) =>
         let (feature, clsweights) := entry in
         for_each
           (fun (acc : list (F * C) * dict F (dict C LazyWeight.t))
                (item : C * LazyWeight.t) =>
              let (ready2die, ws) := acc in
              let (cls, weight) := item in
              if LazyWeight.eq_float weight 0
              then Ok (ready2die ++ [(feature, cls)], ws)
              else
                weight <- LazyWeight.average weight (time self) ;;
                '(held, ws) <- getitem ws feature ;;
                Ok (ready2die, setitem ws feature (setitem held cls weight)))
           (items clsweights) acc)
      (items (weights self)) ([], weights self) ;;
  ws <-
    for_each
      (fun ws (dead : F * C) =>
         let (feature, cls) := dead in
         '(held, ws) <- getitem ws feature ;;
         held <- delitem held cls ;;
         Ok (setitem ws feature held))
      ready2die ws ;;
  Ok (with_weights self ws).

End Methods.
End AveragedPerceptron.

Module SequenceAveragedPerceptron.

Definition __init__ {F C Rng : Type} (src : random_source Rng)
  (tfeats : option (list C -> list F)) (k : Z) (default : C) (seed : option Z)
  : multiclass F C Rng LazyWeight.t :=
  with_decoder (AveragedPerceptron.__init__ src default seed) tfeats k.

End SequenceAveragedPerceptron.

(** ** The classes, with their methods resolved *)

Section Classes.
Context {F C Rng Acc : Type} `{Hashable F} `{Hashable C}.
Variable set_iter : list C -> list C.
Variable src : random_source Rng.
Variable clock : nat -> Q.

Definition Perceptron_predict :=
  Perceptron.predict (Perceptron.scores (Rng := Rng) (F := F) set_iter).

Definition Perceptron_fit_one :=
  Perceptron.fit_one Perceptron_predict Perceptron.update.

Definition Perceptron_fit (acc : accuracy_api Acc C C) :=
  Classifier.fit src clock acc (@random F C Rng Z) with_random
    Perceptron_fit_one Perceptron.finalize.

Definition AveragedPerceptron_predict :=
  Perceptron.predict (AveragedPerceptron.scores (Rng := Rng) (F := F) set_iter).

Definition AveragedPerceptron_fit_one :=
  AveragedPerceptron.fit_one
    (Perceptron.fit_one AveragedPerceptron_predict AveragedPerceptron.update).

Definition AveragedPerceptron_fit (acc : accuracy_api Acc C C) :=
  Classifier.fit src clock acc (@random F C Rng LazyWeight.t) with_random
    AveragedPerceptron_fit_one AveragedPerceptron.finalize.

Definition SequencePerceptron_fit_one :=
  SequencePerceptron.fit_one
    (Perceptron.scores (Rng := Rng) (F := F) set_iter) Perceptron.update.

Definition SequencePerceptron_predict :=
  SequencePerceptron.predict (Perceptron.scores (Rng := Rng) (F := F) set_iter).

Definition SequencePerceptron_fit (acc : accuracy_api Acc C C) :=
  SequencePerceptron.fit src clock acc (@random F C Rng Z) with_random
    SequencePerceptron_fit_one Perceptron.finalize.

Definition SequenceAveragedPerceptron_fit_one :=
  AveragedPerceptron.fit_one
    (SequencePerceptron.fit_one
       (AveragedPerceptron.scores (Rng := Rng) (F := F) set_iter)
       AveragedPerceptron.update).

Definition SequenceAveragedPerceptron_fit (acc : accuracy_api Acc C C) :=
  SequencePerceptron.fit src clock acc (@random F C Rng LazyWeight.t) with_random
    SequenceAveragedPerceptron_fit_one AveragedPerceptron.finalize.

Definition BinaryPerceptron_fit_one :=
  BinaryPerceptron.fit_one
    (BinaryPerceptron.predict (F := F) (Rng := Rng)) BinaryPerceptron.update.

Definition b_with_random {W : Type} (self : binary F Rng W) (rng : Rng)
  : binary F Rng W :=
  {| b_random := rng; b_weights := b_weights self; b_time := b_time self |}.

Definition BinaryPerceptron_fit (acc : accuracy_api Acc pyobj bool) :=
  Classifier.fit src clock acc (@b_random F Rng Z) b_with_random
    BinaryPerceptron_fit_one BinaryPerceptron.finalize.

Definition BinaryAveragedPerceptron_fit (acc : accuracy_api Acc pyobj bool) :=
  Classifier.fit src clock acc (@b_random F Rng LazyWeight.t) b_with_random
    BinaryAveragedPerceptron.fit_one BinaryAveragedPerceptron.finalize.

End Classes.

(** * Vocabulary of the properties *)

(** ** The naive simulator of lazy averaging *)

Module LazyWeightSpec.

(** A run of [update(delta, t)] calls with integer deltas. *)
Definition updates (self : LazyWeight.t) (calls : list (Z * Z)) : LazyWeight.t :=
  fold_left (fun lw c => LazyWeight.update lw (PyInt (fst c)) (snd c)) calls self.

(** The step trajectory of the weight: at time [k] it is the sum of the
    deltas of the updates made at a time at most [k]. *)
Definition trajectory (calls : list (Z * Z)) (k : Z) : Z :=
  fold_right (fun c acc => if snd c <=? k then fst c + acc else acc) 0 calls.

(** The trajectory summed over [ticks] unit steps from [tick] on, and its
    mean over [[0, T)]. *)
Fixpoint integral (calls : list (Z * Z)) (tick : Z) (ticks : nat) : Z :=
  match ticks with
  | O => 0
  | S n => trajectory calls tick + integral calls (tick + 1) n
  end.

Definition trajectory_mean (calls : list (Z * Z)) (T : Z) : result num :=
  num_truediv (PyInt (integral calls 0 (Z.to_nat T))) (PyInt T).

(** The naive simulator of the specification.  At each tick it applies the
    pending updates that are due, records the current weight, and moves on
    with the updates that were not due; [simulate] is the total of the
    weights recorded, which the simulator divides by [T]. *)
Definition due (tick : Z) (c : Z * Z) : bool := snd c <=? tick.

Definition sum_deltas (calls : list (Z * Z)) : Z :=
  fold_right (fun c acc => fst c + acc) 0 calls.

Fixpoint simulate (ticks : nat) (tick current : Z) (pending : list (Z * Z)) : Z :=
  match ticks with
  | O => 0
  | S n =>
      let current := current + sum_deltas (filter (due tick) pending) in
      current
      + simulate n (tick + 1) current
          (filter (fun c => negb (due tick c)) pending)
  end.

Definition naive_average (calls : list (Z * Z)) (T : Z) : result num :=
  num_truediv (PyInt (simulate (Z.to_nat T) 0 0 calls)) (PyInt T).

(** Timestamps never run backwards, starting from the weight's own. *)
Fixpoint nondecreasing (from : Z) (calls : list (Z * Z)) : Prop :=
  match calls with
  | [] => True
  | c :: rest => from <= snd c /\ nondecreasing (snd c) rest
  end.

End LazyWeightSpec.

(** ** Counting over feature vectors *)

Section Counting.
Context {F : Type} `{Hashable F}.

Definition sum_over (g : F -> Z) (x : list F) : Z :=
  fold_right (fun f acc => g f + acc) 0 x.

Definition occurrences (f : F) (x : list F) : Z :=
  Z.of_nat (List.length (filter (key_eqb f) x)).

End Counting.

(** ** What [scores] reads

    [scores] depends on the stored weights only through what a read of
    [self.weights[feature]] yields; the entries such reads create do not
    change it. *)

Section ScoresReading.
Context {F C : Type} `{Hashable F} `{Hashable C}.

(** What [ws[f]] yields, or [None] when it raises [KeyError]. *)
Definition held (ws : dict F (dict C Z)) (f : F) : option (dict C Z) :=
  match assoc f (items ws) with
  | Some d => Some d
  | None => if defaulting ws then Some factory else None
  end.

(** The inner loop of [scores]. *)
Definition add_all (scores : dict C Z) (clsweight : list (C * Z))
  : result (dict C Z) :=
  for_each
    (fun scores (item : C * Z) =>
       let (cls, weight) := item in
       '(old, scores) <- getitem scores cls ;;
       Ok (setitem scores cls (old + weight)))
    clsweight scores.

Definition scores_of (ws : dict F (dict C Z)) (x : list F) (scores : dict C Z)
  : result (dict C Z) :=
  for_each
    (fun scores feature =>
       match held ws feature with
       | Some d => add_all scores (items d)
       | None => Raise KeyError
       end)
    x scores.

(** Two dictionaries of class weights that add the same amounts to every
    score table in which [y] has an entry. *)
Definition same_sums (y : C) (d d' : dict C Z) : Prop :=
  forall scores,
    assoc y (items scores) <> None ->
    add_all scores (items d') = add_all scores (items d).

Definition touched (y : C) (ws ws' : dict F (dict C Z)) : Prop :=
  forall f,
    match held ws f, held ws' f with
    | Some d, Some d' => same_sums y d d'
    | None, None => True
    | _, _ => False
    end.

End ScoresReading.

(** A model under training: every dictionary of weights is a
    [defaultdict], as the constructors make them. *)
Definition trainable {F C Rng W : Type} `{Hashable F}
  (self : multiclass F C Rng W) : Prop :=
  defaulting (weights self) = true
  /\ forall f d, assoc f (items (weights self)) = Some d -> defaulting d = true.

(** The call contract of [random.shuffle]: the list is permuted. *)
Definition shuffle_ok {Rng : Type} (src : random_source Rng) : Prop :=
  forall (A : Type) (rng : Rng) (l : list A),
    Permutation (fst (shuffle src rng l)) l.

(** The same generator with another seeding from the operating system. *)
Definition reseed_os {Rng : Type} (src : random_source Rng) (rng : Rng)
  : random_source Rng :=
  {| seeded := seeded src; os_seeded := rng; shuffle := shuffle src |}.

(** A model as the constructor and [fit_one] leave it: under training,
    with a class set that is not empty, and with weights stored under
    registered classes only. *)
Definition consistent {F C Rng W : Type} `{Hashable F}
  (self : multiclass F C Rng W) : Prop :=
  trainable self
  /\ classes self <> []
  /\ forall f d c w,
       In (f, d) (items (weights self)) -> In (c, w) (items d) ->
       In c (classes self).

(** The weight of feature [f] for class [c] in a model under training:
    what [self.weights[f][c]] reads, 0 when nothing is stored. *)
Definition weight_of {F C : Type} `{Hashable F} `{Hashable C}
  (ws : dict F (dict C Z)) (f : F) (c : C) : Z :=
  peek (peek ws f) c.

(** A dictionary holds a key once; [rows_well_keyed] says so of the rows of
    a table of weights. *)
Definition well_keyed {K V : Type} (d : dict K V) : Prop :=
  NoDup (map fst (items d)).

Definition rows_well_keyed {F C W : Type} (ws : dict F (dict C W)) : Prop :=
  forall f d, In (f, d) (items ws) -> well_keyed d.

(** [1] when the two classes are the same, else [0]. *)
Definition indicator {C : Type} `{Hashable C} (c c' : C) : Z :=
  if key_eqb c c' then 1 else 0.

(** A list of labels that runs through a trellis along its pointers:
    one label per column, each a state of its column, and the cell of
    every label but the first points to the label before it. *)
Definition backlinked {S C : Type} `{Hashable C}
  (trellis : list (list (C * TrellisCell.t S C))) (labels : list C) : Prop :=
  List.length labels = List.length trellis
  /\ forall i column,
       nth_error trellis i = Some column ->
       exists label cell,
         nth_error labels i = Some label
         /\ assoc label column = Some cell
         /\ forall j, i = Datatypes.S j ->
                      nth_error labels j = Some (TrellisCell.pointer cell).

(** An averaged binary model and a plain one at the same point of
    training: both under training, and every weight of the averaged model
    reads, through [get], the integer the plain model holds. *)
Definition binary_mirrors {F Rng : Type} `{Hashable F}
  (averaged : binary F Rng LazyWeight.t) (plain : binary F Rng Z) : Prop :=
  defaulting (b_weights averaged) = true
  /\ defaulting (b_weights plain) = true
  /\ forall f, LazyWeight.get (peek (b_weights averaged) f)
               = PyInt (peek (b_weights plain) f).

(** A gold label that is [True] or [False]. *)
Definition boolean (y : pyobj) : Prop := exists b, y = PyBool b.

(** Two runs with the same outcome: both return, with results related by
    [R], or both raise the same exception. *)
Definition result_rel {A B : Type} (R : A -> B -> Prop)
  (r : result A) (r' : result B) : Prop :=
  match r, r' with
  | Ok a, Ok b => R a b
  | Raise e, Raise e' => e = e'
  | _, _ => False
  end.

(** Two dictionaries of the same kind that hold the same keys in the same
    order, with values related by [R]. *)
Definition mirrored {K V V' : Type} (R : V -> V' -> Prop)
  (d : dict K V) (d' : dict K V') : Prop :=
  defaulting d = defaulting d'
  /\ Forall2 (fun kv kv' => fst kv = fst kv' /\ R (snd kv) (snd kv'))
             (items d) (items d').

(** A number that is the integer [z]; a lazy weight whose current value
    is the integer [z]. *)
Definition is_int (n : num) (z : Z) : Prop := n = PyInt z.

Definition reads_int (lw : LazyWeight.t) (z : Z) : Prop :=
  LazyWeight.get lw = PyInt z.

(** An averaged multiclass model and a plain one at the same point of
    training: the same classes, and the same rows of weights, each
    averaged weight reading the integer the plain model holds. *)
Definition mirrors {F C Rng : Type}
  (averaged : multiclass F C Rng LazyWeight.t) (plain : multiclass F C Rng Z)
  : Prop :=
  classes averaged = classes plain
  /\ mirrored (mirrored reads_int) (weights averaged) (weights plain).

(** ** A concrete runtime for running examples *)

Definition rotate {A : Type} (l : list A) : list A :=
  match l with
  | [] => []
  | a :: l' => l' ++ [a]
  end.

(** A stand-in generator: its state counts the shuffles, and a shuffle
    rotates the list by one place. *)
Definition example_source : random_source Z :=
  {| seeded := fun s => s;
     os_seeded := 0;
     shuffle := fun A rng l => (rotate l, rng + 1) |}.

Definition example_clock (n : nat) : Q := inject_Z (Z.of_nat n).

(** Accuracy as the pair of the hits and the trials. *)
Definition example_accuracy {G P : Type} (same : G -> P -> bool)
  : accuracy_api (Z * Z) G P :=
  {| Accuracy := (0, 0);
     acc_update := fun a y yhat =>
       ((if same y yhat then fst a + 1 else fst a), snd a + 1);
     acc_accuracy := fun a => Qdiv (inject_Z (fst a)) (inject_Z (snd a)) |}.

(** Two admissible iteration orders of a set. *)
Definition insertion_order {K : Type} (s : list K) : list K := s.

Definition reverse_order {K : Type} (s : list K) : list K := rev s.

(** A model with one update behind it: default class ["B"], after
    [fit_one(["f"], "A")] with the class set iterated in insertion order. *)
Definition example_model : multiclass string string Z Z :=
  with_weights
    (with_classes (Perceptron.__init__ example_source "B" (Some 0)) ["B"; "A"])
    {| items := [("f", {| items := [("A", 1); ("B", -1)]; defaulting := true |})];
       defaulting := true |}.

(** * Properties *)

Unset Implicit Arguments.

(** ** LazyWeight *)

(** C3: [update(value, t)] folds the elapsed time into the running sum
    using the weight in force before the call, sets the timestamp to [t],
    and only then adds [value] to the weight; the sum is folded once. *)
Theorem lazy_update_folds_then_adds (lw : LazyWeight.t) (value : num) (now : Z) :
  LazyWeight.update lw value now =
    {| LazyWeight.timestamp := now;
       LazyWeight.weight := num_add (LazyWeight.weight lw) value;
       LazyWeight.summed_weight :=
         num_add (LazyWeight.summed_weight lw)
                 (num_mul (PyInt (now - LazyWeight.timestamp lw))
                          (LazyWeight.weight lw)) |}
  /\ LazyWeight.update lw value now =
       (let folded := LazyWeight._freshen lw now in
        {| LazyWeight.timestamp := LazyWeight.timestamp folded;
           LazyWeight.weight := num_add (LazyWeight.weight folded) value;
           LazyWeight.summed_weight := LazyWeight.summed_weight folded |}).
Proof.
  split; reflexivity.
Qed.

(** Supporting facts about the trajectory. *)

Lemma integral_app (calls : list (Z * Z)) (n1 n2 : nat) (tick : Z) :
  LazyWeightSpec.integral calls tick (n1 + n2) =
  LazyWeightSpec.integral calls tick n1
  + LazyWeightSpec.integral calls (tick + Z.of_nat n1) n2.
Proof.
  revert tick. induction n1 as [|n1 IH]; intro tick.
  - simpl. now rewrite Z.add_0_r.
  - cbn [Nat.add LazyWeightSpec.integral]. rewrite IH.
    replace (tick + 1 + Z.of_nat n1) with (tick + Z.of_nat (S n1)) by lia.
    lia.
Qed.

Lemma trajectory_before (calls : list (Z * Z)) (k : Z) :
  (forall c, In c calls -> k < snd c) ->
  LazyWeightSpec.trajectory calls k = 0.
Proof.
  induction calls as [|c rest IH]; intro Hlate; simpl.
  - reflexivity.
  - destruct (Z.leb_spec (snd c) k) as [Hle|_].
    + specialize (Hlate c (or_introl eq_refl)). lia.
    + apply IH. intros c' Hin. apply Hlate. now right.
Qed.

Lemma integral_before (calls : list (Z * Z)) (n : nat) (tick bound : Z) :
  (forall c, In c calls -> bound <= snd c) ->
  tick + Z.of_nat n <= bound ->
  LazyWeightSpec.integral calls tick n = 0.
Proof.
  intro Hlate. revert tick. induction n as [|n IH]; intros tick Hfit.
  - reflexivity.
  - cbn [LazyWeightSpec.integral].
    rewrite trajectory_before, IH; try lia.
    intros c Hin. specialize (Hlate c Hin). lia.
Qed.

Lemma integral_cons_after (d t : Z) (rest : list (Z * Z)) (n : nat) (tick : Z) :
  t <= tick ->
  LazyWeightSpec.integral ((d, t) :: rest) tick n =
  Z.of_nat n * d + LazyWeightSpec.integral rest tick n.
Proof.
  revert tick. induction n as [|n IH]; intros tick Hle.
  - reflexivity.
  - cbn [LazyWeightSpec.integral]. rewrite IH by lia.
    cbn [LazyWeightSpec.trajectory fold_right fst snd].
    destruct (Z.leb_spec t tick); [|lia].
    fold (LazyWeightSpec.trajectory rest tick). lia.
Qed.

Lemma nondecreasing_bound (from : Z) (calls : list (Z * Z)) :
  LazyWeightSpec.nondecreasing from calls ->
  forall c, In c calls -> from <= snd c.
Proof.
  revert from. induction calls as [|c0 rest IH]; intros from Hmono c Hin.
  - destruct Hin.
  - destruct Hmono as [Hle Hrest]. destruct Hin as [->|Hin]; [exact Hle|].
    specialize (IH _ Hrest c Hin). lia.
Qed.

(** The invariant of lazy folding: once the pending time up to [T] is
    folded in, the running sum has grown by the per-tick total. *)
Lemma lazy_sum_is_tick_total (calls : list (Z * Z)) (T ts w s : Z) :
  LazyWeightSpec.nondecreasing ts calls ->
  (forall c, In c calls -> snd c <= T) ->
  LazyWeight.summed_weight
    (LazyWeight._freshen
       (LazyWeightSpec.updates
          {| LazyWeight.timestamp := ts;
             LazyWeight.weight := PyInt w;
             LazyWeight.summed_weight := PyInt s |} calls) T)
  = PyInt (s + (T - ts) * w
           + LazyWeightSpec.integral calls ts (Z.to_nat (T - ts))).
Proof.
  revert ts w s. induction calls as [|[d t] rest IH]; intros ts w s Hmono Hmax.
  - cbn. f_equal.
    assert (Hzero : forall n tick, LazyWeightSpec.integral [] tick n = 0).
    { induction n as [|n IHn]; intro tick; cbn; [reflexivity|apply IHn]. }
    rewrite Hzero. lia.
  - destruct Hmono as [Hle Hrest]. cbn [snd] in Hle, Hrest.
    assert (HtT : t <= T) by (apply (Hmax (d, t)); now left).
    change (LazyWeightSpec.updates ?lw ((d, t) :: rest))
      with (LazyWeightSpec.updates (LazyWeight.update lw (PyInt d) t) rest).
    change (LazyWeight.update _ (PyInt d) t)
      with {| LazyWeight.timestamp := t;
              LazyWeight.weight := PyInt (w + d);
              LazyWeight.summed_weight := PyInt (s + (t - ts) * w) |}.
    rewrite IH; [|exact Hrest|intros c Hin; apply Hmax; now right].
    f_equal.
    replace (Z.to_nat (T - ts)) with (Z.to_nat (t - ts) + Z.to_nat (T - t))%nat
      by lia.
    rewrite integral_app.
    rewrite (integral_before _ _ ts t); [| |lia].
    + rewrite integral_cons_after by lia.
      replace (ts + Z.of_nat (Z.to_nat (t - ts))) with t by lia.
      rewrite Z2Nat.id by lia. lia.
    + intros c [<-|Hin]; cbn [snd]; [lia|].
      exact (nondecreasing_bound _ _ Hrest c Hin).
Qed.

(** The simulator's total is the integral of the trajectory. *)
Lemma trajectory_split (tick k : Z) (pending : list (Z * Z)) :
  tick <= k ->
  LazyWeightSpec.trajectory pending k
  = LazyWeightSpec.sum_deltas (filter (LazyWeightSpec.due tick) pending)
    + LazyWeightSpec.trajectory
        (filter (fun c => negb (LazyWeightSpec.due tick c)) pending) k.
Proof.
  intro Hle. unfold LazyWeightSpec.trajectory, LazyWeightSpec.sum_deltas.
  induction pending as [|c pending IH]; [reflexivity|].
  cbn [filter fold_right]. rewrite IH.
  destruct (LazyWeightSpec.due tick c) eqn:Hdue; unfold LazyWeightSpec.due in Hdue;
    cbn [negb fold_right];
    destruct (Z.leb_spec (snd c) k); destruct (Z.leb_spec (snd c) tick);
    try discriminate; lia.
Qed.

Lemma integral_split (tick start : Z) (n : nat) (pending : list (Z * Z)) :
  tick <= start ->
  LazyWeightSpec.integral pending start n
  = Z.of_nat n
    * LazyWeightSpec.sum_deltas (filter (LazyWeightSpec.due tick) pending)
    + LazyWeightSpec.integral
        (filter (fun c => negb (LazyWeightSpec.due tick c)) pending) start n.
Proof.
  revert start. induction n as [|n IH]; intros start Hle; [reflexivity|].
  cbn [LazyWeightSpec.integral].
  rewrite (trajectory_split tick start) by exact Hle.
  rewrite IH by lia. lia.
Qed.

Lemma simulate_is_integral (n : nat) (tick current : Z) (pending : list (Z * Z)) :
  LazyWeightSpec.simulate n tick current pending
  = Z.of_nat n * current + LazyWeightSpec.integral pending tick n.
Proof.
  revert tick current pending.
  induction n as [|n IH]; intros tick current pending; [reflexivity|].
  cbn [LazyWeightSpec.simulate LazyWeightSpec.integral]. rewrite IH.
  rewrite (trajectory_split tick tick pending) by lia.
  rewrite (integral_split tick (tick + 1) n pending) by lia.
  assert (Hnone : LazyWeightSpec.trajectory
                    (filter (fun c => negb (LazyWeightSpec.due tick c)) pending)
                    tick = 0).
  { apply trajectory_before. intros c Hin. apply filter_In in Hin.
    destruct Hin as [_ Hlate]. unfold LazyWeightSpec.due in Hlate.
    destruct (Z.leb_spec (snd c) tick); [discriminate|lia]. }
  rewrite Hnone. lia.
Qed.

(** C2: after any run of [update(delta_i, t_i)] calls with timestamps that
    never decrease (from the fresh weight's own timestamp 0), [average(T)]
    with [T > 0] at least every [t_i] succeeds and leaves, as the weight,
    the mean over [[0, T)] of the weight's step trajectory, which is what
    the naive simulator computes: the total of the weights it records at
    the ticks [0 .. T-1], divided by [T]. *)
Theorem lazy_average_equals_naive (calls : list (Z * Z)) (T : Z) :
  0 < T ->
  LazyWeightSpec.nondecreasing 0 calls ->
  (forall c, In c calls -> snd c <= T) ->
  fmap LazyWeight.weight
       (LazyWeight.average (LazyWeightSpec.updates LazyWeight.fresh calls) T)
  = LazyWeightSpec.trajectory_mean calls T
  /\ fmap LazyWeight.weight
       (LazyWeight.average (LazyWeightSpec.updates LazyWeight.fresh calls) T)
     = LazyWeightSpec.naive_average calls T
  /\ LazyWeightSpec.naive_average calls T =
       Ok (PyFloat (Qred (inject_Z (LazyWeightSpec.simulate (Z.to_nat T) 0 0 calls)
                          / inject_Z T))).
Proof.
  intros HT Hmono Hmax.
  assert (Hsum := lazy_sum_is_tick_total calls T 0 0 0 Hmono Hmax).
  replace (0 + (T - 0) * 0) with 0 in Hsum by lia.
  rewrite Z.sub_0_r, Z.add_0_l in Hsum.
  unfold LazyWeight.average, LazyWeightSpec.naive_average,
    LazyWeightSpec.trajectory_mean.
  rewrite simulate_is_integral, Z.mul_0_r, Z.add_0_l.
  change (LazyWeight.fresh) with
    {| LazyWeight.timestamp := 0; LazyWeight.weight := PyInt 0;
       LazyWeight.summed_weight := PyInt 0 |}.
  rewrite Hsum.
  unfold num_truediv. cbn [num_is_zero].
  destruct (Z.eqb_spec T 0) as [->|_]; [lia|].
  repeat split; reflexivity.
Qed.

Lemma lazy_average_equals_naive_witness :
  fmap LazyWeight.weight
       (LazyWeight.average
          (LazyWeightSpec.updates LazyWeight.fresh [(1, 1); (-1, 3)]) 4)
  = LazyWeightSpec.trajectory_mean [(1, 1); (-1, 3)] 4
  /\ fmap LazyWeight.weight
       (LazyWeight.average
          (LazyWeightSpec.updates LazyWeight.fresh [(1, 1); (-1, 3)]) 4)
     = LazyWeightSpec.naive_average [(1, 1); (-1, 3)] 4
  /\ LazyWeightSpec.naive_average [(1, 1); (-1, 3)] 4 = Ok (PyFloat (1 # 2)).
Proof.
  refine (lazy_average_equals_naive [(1, 1); (-1, 3)] 4 _ _ _).
  - lia.
  - simpl. lia.
  - intros c [<-|[<-|[]]]; simpl; lia.
Defined.

(** ** Dictionaries *)

Section DictFacts.
Context {K V : Type} `{Hashable K} `{Factory V}.

Lemma key_eqb_refl (k : K) : key_eqb k k = true.
Proof. destruct (key_eqb_spec k k); congruence. Qed.

Lemma key_eqb_neq (k k' : K) : k <> k' -> key_eqb k k' = false.
Proof. intro Hne. destruct (key_eqb_spec k k'); congruence. Qed.

Lemma assoc_set_same (k : K) (v : V) (l : list (K * V)) :
  assoc k (assoc_set k v l) = Some v.
Proof.
  induction l as [|[k' v'] l IH]; simpl.
  - now rewrite key_eqb_refl.
  - destruct (key_eqb_spec k k') as [->|Hne]; simpl.
    + now rewrite key_eqb_refl.
    + now rewrite key_eqb_neq.
Qed.

Lemma assoc_set_other (k k0 : K) (v : V) (l : list (K * V)) :
  k0 <> k -> assoc k0 (assoc_set k v l) = assoc k0 l.
Proof.
  intro Hne. induction l as [|[k' v'] l IH]; simpl.
  - now rewrite key_eqb_neq.
  - destruct (key_eqb_spec k k') as [->|Hne']; simpl.
    + now rewrite key_eqb_neq.
    + now rewrite IH.
Qed.

Lemma peek_setitem (v : V) (d : dict K V) (k k0 : K) :
  peek (setitem d k v) k0 = if key_eqb k0 k then v else peek d k0.
Proof.
  unfold peek, setitem; simpl.
  destruct (key_eqb_spec k0 k) as [->|Hne].
  - now rewrite assoc_set_same.
  - now rewrite assoc_set_other.
Qed.

Lemma getitem_defaultdict (d : dict K V) (k : K) :
  defaulting d = true ->
  exists d',
    getitem d k = Ok (peek d k, d')
    /\ defaulting d' = true
    /\ forall k0, peek d' k0 = peek d k0.
Proof.
  intro Hdef. unfold getitem, peek at 1.
  destruct (assoc k (items d)) as [v|] eqn:Hk.
  - exists d. auto.
  - rewrite Hdef. exists (setitem d k factory). repeat split; [assumption|].
    intro k0. rewrite peek_setitem.
    destruct (key_eqb_spec k0 k) as [->|_]; [|reflexivity].
    unfold peek. now rewrite Hk.
Qed.

End DictFacts.

(** ** Binary perceptron *)

Section BinaryFacts.
Context {F Rng : Type} `{Hashable F}.

Lemma sum_over_ext (g g' : F -> Z) (x : list F) (c : Z) :
  (forall f, In f x -> g' f = g f + c) ->
  sum_over g' x = sum_over g x + c * Z.of_nat (List.length x).
Proof.
  induction x as [|f x IH]; intro Hext.
  - simpl. lia.
  - cbn [sum_over fold_right List.length]. fold (sum_over g x) (sum_over g' x).
    rewrite IH by (intros; apply Hext; now right).
    rewrite (Hext f) by now left. lia.
Qed.

Lemma occurrences_NoDup (f : F) (x : list F) :
  NoDup x -> In f x -> occurrences f x = 1.
Proof.
  unfold occurrences. induction 1 as [|g x Hnotin Hnodup IH]; intro Hin.
  - destruct Hin.
  - simpl. destruct (key_eqb_spec f g) as [<-|Hne].
    + assert (Hnone : filter (key_eqb f) x = []).
      { clear -Hnotin. induction x as [|h x IHx]; [reflexivity|]. simpl.
        destruct (key_eqb_spec f h) as [->|_].
        - exfalso. apply Hnotin. now left.
        - apply IHx. intro Hin. apply Hnotin. now right. }
      now rewrite Hnone.
    + destruct Hin as [->|Hin]; [congruence|]. now apply IH.
Qed.

(** [score] reads each weight once and changes no weight. *)
Lemma binary_score_spec (x : list F) (self : binary F Rng Z) (acc : Z) :
  defaulting (b_weights self) = true ->
  exists self',
    for_each
      (fun (acc : Z * binary F Rng Z) feature =>
         let (total, self) := acc in
         '(w, ws) <- getitem (b_weights self) feature ;;
         Ok (total + w, b_with_weights self ws))
      x (acc, self)
    = Ok (acc + sum_over (peek (b_weights self)) x, self')
    /\ defaulting (b_weights self') = true
    /\ forall f, peek (b_weights self') f = peek (b_weights self) f.
Proof.
  revert self acc. induction x as [|f x IH]; intros self acc Hdef.
  - exists self. simpl. rewrite Z.add_0_r. auto.
  - destruct (getitem_defaultdict (b_weights self) f Hdef)
      as (ws & Hget & Hdef' & Hpeek).
    cbn [for_each]. rewrite Hget. cbn [bind].
    destruct (IH (b_with_weights self ws) (acc + peek (b_weights self) f) Hdef')
      as (self' & Hrun & Hdef'' & Hpeek').
    exists self'. rewrite Hrun. cbn [b_with_weights b_weights] in *.
    repeat split; [|assumption|].
    + do 2 f_equal. cbn [sum_over fold_right].
      fold (sum_over (peek (b_weights self)) x).
      rewrite (sum_over_ext (peek (b_weights self)) (peek ws) x 0); [lia|].
      intros g _. rewrite Hpeek. lia.
    + intro g. now rewrite Hpeek', Hpeek.
Qed.

Lemma binary_score_value (x : list F) (self : binary F Rng Z) :
  defaulting (b_weights self) = true ->
  exists self',
    BinaryPerceptron.score self x
    = Ok (sum_over (peek (b_weights self)) x, self')
    /\ defaulting (b_weights self') = true
    /\ forall f, peek (b_weights self') f = peek (b_weights self) f.
Proof.
  intro Hdef. exact (binary_score_spec x self 0 Hdef).
Qed.

(** [update] adds the signed [tau] to a weight once per occurrence of its
    feature in [x]. *)
Lemma binary_update_spec (x : list F) (y : pyobj) (tau : Z) (self : binary F Rng Z) :
  defaulting (b_weights self) = true ->
  exists self',
    BinaryPerceptron.update self x y tau = Ok self'
    /\ defaulting (b_weights self') = true
    /\ forall f, peek (b_weights self') f =
                 peek (b_weights self) f
                 + (if is_False y then tau * -1 else tau) * occurrences f x.
Proof.
  unfold BinaryPerceptron.update.
  set (step := if is_False y then tau * -1 else tau).
  revert self. induction x as [|g x IH]; intros self Hdef.
  - exists self. repeat split; [assumption|]. intro f.
    unfold occurrences. simpl. lia.
  - destruct (getitem_defaultdict (b_weights self) g Hdef)
      as (ws & Hget & Hdef' & Hpeek).
    cbn [for_each]. rewrite Hget. cbn [bind].
    set (self1 := b_with_weights self
                    (setitem ws g (peek (b_weights self) g + step))).
    destruct (IH self1) as (self' & Hrun & Hdef'' & Hpeek'); [exact Hdef'|].
    exists self'. repeat split; [exact Hrun|exact Hdef''|].
    intro f. rewrite Hpeek'. subst self1. cbn [b_with_weights b_weights].
    rewrite peek_setitem. unfold occurrences. cbn [filter].
    destruct (key_eqb_spec f g) as [->|_]; cbn [List.length].
    + lia.
    + rewrite Hpeek. lia.
Qed.

End BinaryFacts.

(** C7: on a fresh binary model, for a vector [x] of distinct features and
    a boolean [y], [score(x)] read before and after one [update(x, y)]
    differs by [|x|] when [y] is true and by [-|x|] when [y] is false. *)
Theorem binary_update_moves_score_by_size
  {F Rng : Type} `{Hashable F} (src : random_source Rng) (seed : option Z)
  (x : list F) (y : bool) :
  NoDup x ->
  let fresh : binary F Rng Z := BinaryPerceptron.__init__ src seed in
  let change := (if y then 1 else -1) * Z.of_nat (List.length x) in
  ('(before, self) <- BinaryPerceptron.score fresh x ;;
   self <- BinaryPerceptron.update self x (PyBool y) 1 ;;
   '(after, _) <- BinaryPerceptron.score self x ;;
   Ok (after - before)) = Ok change
  /\ fmap fst (BinaryPerceptron.score fresh x) = Ok 0
  /\ fmap fst (self <- BinaryPerceptron.update fresh x (PyBool y) 1 ;;
               BinaryPerceptron.score self x) = Ok change.
Proof.
  intros Hnodup fresh change.
  assert (Hfresh : defaulting (b_weights fresh) = true) by reflexivity.
  assert (Hzero : forall f, peek (b_weights fresh) f = 0) by reflexivity.
  assert (Hstep : (if is_False (PyBool y) then 1 * -1 else 1)
                  = (if y then 1 else -1)) by (now destruct y).
  assert (Hafter : forall self : binary F Rng Z,
             defaulting (b_weights self) = true ->
             (forall f, peek (b_weights self) f = 0) ->
             fmap fst (self <- BinaryPerceptron.update self x (PyBool y) 1 ;;
                       BinaryPerceptron.score self x) = Ok change).
  { intros self Hdef Hpeek.
    destruct (binary_update_spec x (PyBool y) 1 self Hdef)
      as (self1 & Hupd & Hdef1 & Hpeek1).
    destruct (binary_score_value x self1 Hdef1) as (self2 & Hscore & _).
    rewrite Hupd. cbn [bind]. rewrite Hscore.
    cbn. f_equal.
    rewrite (sum_over_ext (fun _ => 0) _ x (if y then 1 else -1)).
    - subst change. clear. induction x; simpl in *; lia.
    - intros f Hin. rewrite Hpeek1, Hpeek, Hstep.
      rewrite (occurrences_NoDup f x Hnodup Hin). lia. }
  destruct (binary_score_value x fresh Hfresh)
    as (self0 & Hscore0 & Hdef0 & Hpeek0).
  assert (Hbefore : sum_over (peek (b_weights fresh)) x = 0).
  { clear -Hzero. induction x as [|f x IHx]; [reflexivity|].
    cbn [sum_over fold_right]. rewrite Hzero. exact IHx. }
  rewrite Hbefore in Hscore0.
  repeat split.
  - rewrite Hscore0. cbn [bind].
    specialize (Hafter self0 Hdef0 (fun f => eq_trans (Hpeek0 f) (Hzero f))).
    destruct (BinaryPerceptron.update self0 x (PyBool y) 1) as [self1|e];
      [|discriminate].
    cbn [bind fmap] in *.
    destruct (BinaryPerceptron.score self1 x) as [[after self2]|e];
      [|discriminate].
    cbn in *. injection Hafter as ->. f_equal. lia.
  - rewrite Hscore0. reflexivity.
  - exact (Hafter fresh Hfresh Hzero).
Qed.

Lemma binary_update_moves_score_by_size_witness :
  NoDup ["a"; "b"]
  /\ (('(before, self) <-
         BinaryPerceptron.score (BinaryPerceptron.__init__ example_source None)
                                ["a"; "b"] ;;
       self <- BinaryPerceptron.update self ["a"; "b"] (PyBool true) 1 ;;
       '(after, _) <- BinaryPerceptron.score self ["a"; "b"] ;;
       Ok (after - before)) = Ok 2
      /\ fmap fst (BinaryPerceptron.score
                     (BinaryPerceptron.__init__ example_source None) ["a"; "b"])
         = Ok 0
      /\ fmap fst (self <- BinaryPerceptron.update
                             (BinaryPerceptron.__init__ example_source None)
                             ["a"; "b"] (PyBool true) 1 ;;
                   BinaryPerceptron.score self ["a"; "b"]) = Ok 2).
Proof.
  assert (Hnodup : NoDup ["a"; "b"]).
  { repeat constructor; simpl; intuition discriminate. }
  split; [exact Hnodup|].
  exact (binary_update_moves_score_by_size example_source None ["a"; "b"] true
           Hnodup).
Defined.

(** The averaged variant checks the label before its loop: whatever the
    model and the vector, a label that is neither [True] nor [False] ends
    the call in the guard, which does not look at the weights. *)
Lemma binary_averaged_update_rejects_non_boolean
  {F Rng : Type} `{Hashable F} (self : binary F Rng LazyWeight.t)
  (x : list F) (y : pyobj) (tau : Z) :
  is_False y = false -> is_True y = false ->
  BinaryAveragedPerceptron.signed_tau y tau = Raise (ValueError "y is not boolean")
  /\ BinaryAveragedPerceptron.update self x y tau
     = Raise (ValueError "y is not boolean").
Proof.
  intros Hf Ht. unfold BinaryAveragedPerceptron.update,
    BinaryAveragedPerceptron.signed_tau.
  rewrite Hf, Ht. split; reflexivity.
Qed.

(** C5, on the code: the plain binary [update] does not reject a gold label
    outside [{True, False}].  With the label ["maybe"] the call returns and
    has added [tau] to the weight of every feature, as it does for [True];
    the averaged variant raises [ValueError] on the same input. *)
Theorem binary_update_accepts_non_boolean
  {Rng : Type} (src : random_source Rng) (seed : option Z) :
  BinaryPerceptron.update (BinaryPerceptron.__init__ src seed) ["a"] (PyStr "maybe") 1
  = Ok (b_with_weights (BinaryPerceptron.__init__ src seed)
          {| items := [("a", 1)]; defaulting := true |})
  /\ BinaryPerceptron.update (BinaryPerceptron.__init__ src seed) ["a"] (PyStr "maybe") 1
     = BinaryPerceptron.update (BinaryPerceptron.__init__ src seed) ["a"] (PyBool true) 1
  /\ BinaryAveragedPerceptron.update (BinaryAveragedPerceptron.__init__ src seed)
       ["a"] (PyStr "maybe") 1
     = Raise (ValueError "y is not boolean").
Proof.
  repeat split; reflexivity.
Qed.

(** ** Multiclass perceptron *)

Section FromKeys.
Context {K V : Type} `{Hashable K}.

Lemma assoc_fold_setitem (v : V) (keys : list K) (d : dict K V) (k : K) :
  assoc k (items (fold_left (fun d k => setitem d k v) keys d))
  = if set_mem k keys then Some v else assoc k (items d).
Proof.
  revert d. induction keys as [|k0 keys IH]; intro d; [reflexivity|].
  cbn [fold_left set_mem existsb]. rewrite IH. unfold set_mem.
  destruct (existsb (key_eqb k) keys); [now rewrite orb_true_r|].
  rewrite orb_false_r. cbn [setitem items].
  destruct (key_eqb_spec k k0) as [->|Hne].
  - now rewrite assoc_set_same.
  - now rewrite assoc_set_other.
Qed.

Lemma assoc_fromkeys (v : V) (keys : list K) (k : K) :
  assoc k (items (fromkeys keys v)) = if set_mem k keys then Some v else None.
Proof. unfold fromkeys. now rewrite assoc_fold_setitem. Qed.

Lemma set_mem_In (k : K) (s : list K) : set_mem k s = true <-> In k s.
Proof.
  unfold set_mem. rewrite existsb_exists. split.
  - intros (k' & Hin & Heq). destruct (key_eqb_spec k k'); congruence.
  - intro Hin. exists k. split; [assumption|apply key_eqb_refl].
Qed.

Lemma set_mem_iter (set_iter : list K -> list K) (s : list K) (k : K) :
  iter_ok set_iter -> set_mem k (set_iter s) = set_mem k s.
Proof.
  intro Hok. apply eq_true_iff_eq. rewrite !set_mem_In.
  split; apply Permutation_in; [apply Hok|apply Permutation_sym, Hok].
Qed.

End FromKeys.

(** The first update on a new model, read back through [scores]: the
    rewarded class scores 1, the punished class -1, every other registered
    class 0. *)
Lemma scores_after_first_update
  {Rng : Type} (set_iter : list (option string) -> list (option string))
  (src : random_source Rng) (default : option string) (seed : option Z)
  (registered : list (option string)) :
  iter_ok set_iter ->
  set_mem (Some "N") registered = true ->
  set_mem (Some "V") registered = true ->
  let model : multiclass string (option string) Rng Z :=
    with_classes (Perceptron.__init__ src default seed) registered in
  exists scores self',
    (self <- Perceptron.update model ["f1"] (Some "N") (Some "V") 1 ;;
     Perceptron.scores set_iter self ["f1"]) = Ok (scores, self')
    /\ defaulting scores = false
    /\ forall cls,
         assoc cls (items scores)
         = if key_eqb cls (Some "V") then Some (-1)
           else if key_eqb cls (Some "N") then Some 1
           else if set_mem cls registered then Some 0 else None.
Proof.
  intros Hok HmemN HmemV model.
  set (keys := set_iter registered).
  assert (Hkeys : forall cls, assoc cls (items (fromkeys keys 0))
                              = if set_mem cls registered then Some 0 else None).
  { intro cls. rewrite assoc_fromkeys. subst keys. now rewrite set_mem_iter. }
  assert (Hplain : forall (l : list (option string)) (d : dict (option string) Z),
             defaulting d = false ->
             defaulting (fold_left (fun d k => setitem d k 0) l d) = false).
  { induction l as [|k l IH]; intros d Hd; [exact Hd|]. apply IH. exact Hd. }
  set (inner := {| items := [(Some "N", 1); (Some "V", -1)]; defaulting := true |}
                : dict (option string) Z).
  set (trained := with_weights model
                    {| items := [("f1", inner)]; defaulting := true |}).
  assert (Hupd : Perceptron.update model ["f1"] (Some "N") (Some "V") 1
                 = Ok trained) by reflexivity.
  assert (Hget : getitem (weights trained) "f1" = Ok (inner, weights trained))
    by reflexivity.
  assert (HN : getitem (fromkeys keys 0) (Some "N") = Ok (0, fromkeys keys 0)).
  { unfold getitem. now rewrite Hkeys, HmemN. }
  assert (HV : getitem (setitem (fromkeys keys 0) (Some "N") (0 + 1)) (Some "V")
               = Ok (0, setitem (fromkeys keys 0) (Some "N") (0 + 1))).
  { unfold getitem. cbn [setitem items].
    rewrite assoc_set_other by discriminate. now rewrite Hkeys, HmemV. }
  eexists. eexists. split; [|split].
  - rewrite Hupd. cbn [bind]. unfold Perceptron.scores.
    change (set_iter (classes trained)) with keys.
    cbn [for_each bind]. rewrite Hget. cbn [bind].
    change (items inner) with [(Some "N", 1); (Some "V", -1)].
    cbn [for_each bind]. rewrite HN. cbn [bind]. rewrite HV. cbn [bind].
    reflexivity.
  - cbn [setitem defaulting]. unfold fromkeys. now apply Hplain.
  - intro cls. cbn [setitem items].
    destruct (key_eqb_spec cls (Some "V")) as [->|HnotV].
    { now rewrite assoc_set_same. }
    rewrite assoc_set_other by exact HnotV.
    destruct (key_eqb_spec cls (Some "N")) as [->|HnotN].
    { now rewrite assoc_set_same. }
    rewrite assoc_set_other by exact HnotN.
    apply Hkeys.
Qed.

(** C6, as amended: on a new model whose class set has been made
    [{"N", "V"}] (default class ["N"], then ["V"] registered as [fit_one]
    registers a gold label), [scores(x)] after [update(x, "N", "V")] with
    [x = {"f1"}] is exactly [{"N": 1, "V": -1}]; with the default class
    [None] and both labels registered it is [{None: 0, "N": 1, "V": -1}].
    Both hold whatever the iteration order of the class set. *)
Theorem multiclass_scores_after_update_registered
  {Rng : Type} (set_iter : list (option string) -> list (option string))
  (src : random_source Rng) (seed : option Z) :
  iter_ok set_iter ->
  (let fresh : multiclass string (option string) Rng Z :=
     Perceptron.__init__ src (Some "N") seed in
   let model := with_classes fresh (set_add (classes fresh) (Some "V")) in
   exists scores self',
     (self <- Perceptron.update model ["f1"] (Some "N") (Some "V") 1 ;;
      Perceptron.scores set_iter self ["f1"]) = Ok (scores, self')
     /\ defaulting scores = false
     /\ forall cls,
          assoc cls (items scores) = assoc cls [(Some "N", 1); (Some "V", -1)])
  /\ (let fresh : multiclass string (option string) Rng Z :=
        Perceptron.__init__ src None seed in
      let model :=
        with_classes fresh
          (set_add (set_add (classes fresh) (Some "N")) (Some "V")) in
      exists scores self',
        (self <- Perceptron.update model ["f1"] (Some "N") (Some "V") 1 ;;
         Perceptron.scores set_iter self ["f1"]) = Ok (scores, self')
        /\ defaulting scores = false
        /\ forall cls,
             assoc cls (items scores)
             = assoc cls [(None, 0); (Some "N", 1); (Some "V", -1)]).
Proof.
  intro Hok.
  assert (Hcases : forall (registered : list (option string)) expected,
             (forall cls,
                 (if key_eqb cls (Some "V") then Some (-1)
                  else if key_eqb cls (Some "N") then Some 1
                  else if set_mem cls registered then Some 0 else None)
                 = assoc cls expected) ->
             forall (scores : dict (option string) Z),
               (forall cls,
                   assoc cls (items scores)
                   = if key_eqb cls (Some "V") then Some (-1)
                     else if key_eqb cls (Some "N") then Some 1
                     else if set_mem cls registered then Some 0 else None) ->
               forall cls, assoc cls (items scores) = assoc cls expected).
  { intros registered expected Hexp scores Hscores cls.
    now rewrite Hscores, Hexp. }
  split.
  - destruct (scores_after_first_update set_iter src (Some "N") seed
                [Some "N"; Some "V"] Hok eq_refl eq_refl)
      as (scores & self' & Hrun & Hplain & Hscores).
    exists scores, self'. split; [exact Hrun|]. split; [exact Hplain|].
    apply (Hcases [Some "N"; Some "V"]); [|exact Hscores].
    intros [name|]; [|reflexivity]. cbn [key_eqb Hashable_option option_eqb assoc].
    destruct (key_eqb_spec name "V") as [->|HnotV]; [reflexivity|].
    destruct (key_eqb_spec name "N") as [->|HnotN]; [reflexivity|].
    cbn [set_mem existsb key_eqb Hashable_option option_eqb].
    destruct (key_eqb_spec name "N") as [->|_]; [congruence|].
    destruct (key_eqb_spec name "V") as [->|_]; [congruence|reflexivity].
  - destruct (scores_after_first_update set_iter src None seed
                [None; Some "N"; Some "V"] Hok eq_refl eq_refl)
      as (scores & self' & Hrun & Hplain & Hscores).
    exists scores, self'. split; [exact Hrun|]. split; [exact Hplain|].
    apply (Hcases [None; Some "N"; Some "V"]); [|exact Hscores].
    intros [name|]; [|reflexivity]. cbn [key_eqb Hashable_option option_eqb assoc].
    destruct (key_eqb_spec name "V") as [->|HnotV]; [reflexivity|].
    destruct (key_eqb_spec name "N") as [->|HnotN]; [reflexivity|].
    cbn [set_mem existsb key_eqb Hashable_option option_eqb orb].
    destruct (key_eqb_spec name "N") as [->|_]; [congruence|].
    destruct (key_eqb_spec name "V") as [->|_]; [congruence|reflexivity].
Qed.

Lemma reverse_order_ok {K : Type} : iter_ok (@reverse_order K).
Proof. intro s. apply Permutation_sym, Permutation_rev. Qed.

Lemma insertion_order_ok {K : Type} : iter_ok (@insertion_order K).
Proof. intro s. apply Permutation_refl. Qed.

Lemma multiclass_scores_after_update_registered_witness :
  iter_ok (@reverse_order (option string))
  /\ (exists scores self',
        (self <- Perceptron.update
                   (with_classes (Perceptron.__init__ example_source (Some "N") None)
                      [Some "N"; Some "V"])
                   ["f1"] (Some "N") (Some "V") 1 ;;
         Perceptron.scores reverse_order self ["f1"]) = Ok (scores, self')
        /\ defaulting scores = false
        /\ forall cls,
             assoc cls (items scores) = assoc cls [(Some "N", 1); (Some "V", -1)])
  /\ (exists scores self',
        (self <- Perceptron.update
                   (with_classes (Perceptron.__init__ example_source None None)
                      [None; Some "N"; Some "V"])
                   ["f1"] (Some "N") (Some "V") 1 ;;
         Perceptron.scores reverse_order self ["f1"]) = Ok (scores, self')
        /\ defaulting scores = false
        /\ forall cls,
             assoc cls (items scores)
             = assoc cls [(None, 0); (Some "N", 1); (Some "V", -1)]).
Proof.
  split; [exact reverse_order_ok|].
  exact (multiclass_scores_after_update_registered
           reverse_order example_source None reverse_order_ok).
Defined.

(** On a fresh model the only registered class is the default one:
    [update] stores weights for ["N"] and ["V"], and [scores] then fails on
    the first of them that it meets. *)
Lemma multiclass_scores_after_update_fresh_raises :
  let fresh : multiclass string (option string) Z Z :=
    Perceptron.__init__ example_source None None in
  let run :=
    self <- Perceptron.update fresh ["f1"] (Some "N") (Some "V") 1 ;;
    Perceptron.scores insertion_order self ["f1"] in
  run = Raise KeyError
  /\ ~ (exists scores self',
          run = Ok (scores, self')
          /\ forall cls,
               assoc cls (items scores)
               = assoc cls [(Some "N", 1); (Some "V", -1)]).
Proof.
  intros fresh run.
  assert (Hrun : run = Raise KeyError) by reflexivity.
  split; [exact Hrun|].
  intros (scores & self' & Hok & _). rewrite Hrun in Hok. discriminate.
Qed.

Section AssocFacts.
Context {K V : Type} `{Hashable K}.

Lemma assoc_set_twice (k : K) (v v' : V) (l : list (K * V)) :
  assoc_set k v (assoc_set k v' l) = assoc_set k v l.
Proof.
  induction l as [|[k0 v0] l IH]; simpl.
  - now rewrite key_eqb_refl.
  - destruct (key_eqb k k0) eqn:Hk; simpl; rewrite Hk; [reflexivity|].
    now rewrite IH.
Qed.

Lemma assoc_set_id (k : K) (v : V) (l : list (K * V)) :
  assoc k l = Some v -> assoc_set k v l = l.
Proof.
  induction l as [|[k0 v0] l IH]; simpl; [discriminate|].
  destruct (key_eqb k k0).
  - now intros [= ->].
  - intro Hl. now rewrite IH.
Qed.

Lemma assoc_set_absent (k : K) (v : V) (l : list (K * V)) :
  assoc k l = None -> assoc_set k v l = l ++ [(k, v)].
Proof.
  induction l as [|[k0 v0] l IH]; simpl; [reflexivity|].
  destruct (key_eqb k k0); [discriminate|].
  intro Hl. now rewrite IH.
Qed.

Lemma assoc_set_keeps (k k0 : K) (v : V) (l : list (K * V)) :
  assoc k0 l <> None -> assoc k0 (assoc_set k v l) <> None.
Proof.
  intro Hin. destruct (key_eqb_spec k0 k) as [->|Hne].
  - now rewrite assoc_set_same.
  - now rewrite assoc_set_other.
Qed.

End AssocFacts.

Lemma for_each_app {A S : Type} (body : S -> A -> result S) (l1 l2 : list A) (s : S) :
  for_each body (l1 ++ l2) s = s' <- for_each body l1 s ;; for_each body l2 s'.
Proof.
  revert s. induction l1 as [|a l1 IH]; intro s; [reflexivity|].
  cbn [app for_each]. destruct (body s a) as [s1|e]; [|reflexivity].
  cbn [bind]. apply IH.
Qed.

Section ScoresFacts.
Context {F C Rng : Type} `{Hashable F} `{Hashable C}.

Lemma held_setitem (ws : dict F (dict C Z)) (f g : F) (d : dict C Z) :
  held (setitem ws f d) g = if key_eqb g f then Some d else held ws g.
Proof.
  unfold held. cbn [setitem items defaulting].
  destruct (key_eqb_spec g f) as [->|Hne].
  - now rewrite assoc_set_same.
  - now rewrite assoc_set_other.
Qed.

Lemma getitem_held (ws : dict F (dict C Z)) (f : F) :
  match held ws f with
  | Some d =>
      exists ws', getitem ws f = Ok (d, ws')
                  /\ forall g, held ws' g = held ws g
  | None => getitem ws f = Raise KeyError
  end.
Proof.
  unfold held at 1, getitem.
  destruct (assoc f (items ws)) as [d|] eqn:Hf.
  - exists ws. auto.
  - destruct (defaulting ws) eqn:Hdef; [|reflexivity].
    exists (setitem ws f factory). split; [reflexivity|].
    intro g. rewrite held_setitem.
    destruct (key_eqb_spec g f) as [->|_]; [|reflexivity].
    unfold held. now rewrite Hf, Hdef.
Qed.

Lemma scores_of_ext (ws ws' : dict F (dict C Z)) (z : list F) (scores : dict C Z) :
  (forall g, held ws' g = held ws g) ->
  scores_of ws' z scores = scores_of ws z scores.
Proof.
  intro Hsame. revert scores. induction z as [|f z IH]; intro scores.
  - reflexivity.
  - unfold scores_of. cbn [for_each]. rewrite Hsame.
    destruct (held ws f) as [d|]; [|reflexivity].
    destruct (add_all scores (items d)) as [scores'|e]; [|reflexivity].
    cbn [bind]. apply IH.
Qed.

(** The table [scores] returns is a function of what the reads yield. *)
Lemma scores_value (set_iter : list C -> list C) (self : multiclass F C Rng Z)
  (z : list F) :
  fmap fst (Perceptron.scores set_iter self z)
  = scores_of (weights self) z (fromkeys (set_iter (classes self)) 0).
Proof.
  unfold Perceptron.scores.
  generalize (fromkeys (set_iter (classes self)) 0) as scores.
  revert self. induction z as [|f z IH]; intros self scores.
  - reflexivity.
  - unfold scores_of. cbn [for_each].
    pose proof (getitem_held (weights self) f) as Hget.
    destruct (held (weights self) f) as [d|].
    + destruct Hget as (ws' & -> & Hsame). cbn [bind].
      fold (add_all scores (items d)).
      destruct (add_all scores (items d)) as [scores'|e]; [|reflexivity].
      cbn [bind]. rewrite IH. cbn [with_weights weights].
      now apply scores_of_ext.
    + rewrite Hget. reflexivity.
Qed.

Lemma add_all_keeps_key (y : C) (clsweight : list (C * Z)) (scores scores' : dict C Z) :
  add_all scores clsweight = Ok scores' ->
  assoc y (items scores) <> None ->
  assoc y (items scores') <> None.
Proof.
  revert scores. induction clsweight as [|[cls w] rest IH]; intros scores Hrun Hin.
  - injection Hrun as <-. exact Hin.
  - unfold add_all in Hrun. cbn [for_each] in Hrun.
    unfold getitem in Hrun.
    destruct (assoc cls (items scores)) as [old|] eqn:Hcls.
    + cbn [bind] in Hrun. apply (IH _ Hrun). cbn [setitem items].
      now apply assoc_set_keeps.
    + destruct (defaulting scores); [|discriminate].
      cbn [bind] in Hrun. apply (IH _ Hrun). cbn [setitem items].
      now apply assoc_set_keeps, assoc_set_keeps.
Qed.

Lemma same_sums_refl (y : C) (d : dict C Z) : same_sums y d d.
Proof. intros scores _. reflexivity. Qed.

Lemma same_sums_trans (y : C) (d1 d2 d3 : dict C Z) :
  same_sums y d1 d2 -> same_sums y d2 d3 -> same_sums y d1 d3.
Proof.
  intros H12 H23 scores Hin. now rewrite (H23 scores Hin), (H12 scores Hin).
Qed.

(** A weight 0 stored for [y] adds nothing to a table that knows [y]. *)
Lemma same_sums_zero_entry (y : C) (d : dict C Z) :
  assoc y (items d) = None -> same_sums y d (setitem d y 0).
Proof.
  intros Habsent scores Hin. cbn [setitem items].
  rewrite (assoc_set_absent _ _ _ Habsent).
  unfold add_all. rewrite for_each_app. fold (add_all scores (items d)).
  destruct (add_all scores (items d)) as [scores'|e] eqn:Hrun; [|reflexivity].
  cbn [bind for_each]. unfold getitem.
  pose proof (add_all_keeps_key y _ _ _ Hrun Hin) as Hin'.
  destruct (assoc y (items scores')) as [old|] eqn:Hy; [|congruence].
  cbn [bind]. f_equal. destruct scores' as [its dflt].
  unfold setitem. cbn [items defaulting] in *. f_equal.
  apply assoc_set_id. rewrite Hy. f_equal. lia.
Qed.

(** Adding [tau] to the weight of [y] and taking it away again. *)
Lemma bump_and_back (y : C) (tau : Z) (d : dict C Z) :
  match getitem d y with
  | Raise _ => True
  | Ok (w, p) =>
      getitem (setitem p y (w + tau)) y = Ok (w + tau, setitem p y (w + tau))
      /\ same_sums y d (setitem (setitem p y (w + tau)) y (w + tau - tau))
  end.
Proof.
  unfold getitem at 1.
  assert (Hback : forall (p : dict C Z) (w : Z),
             getitem (setitem p y (w + tau)) y
             = Ok (w + tau, setitem p y (w + tau))).
  { intros p w. unfold getitem. cbn [setitem items].
    now rewrite assoc_set_same. }
  assert (Hcollapse : forall (p : dict C Z) (w : Z),
             setitem (setitem p y (w + tau)) y (w + tau - tau) = setitem p y w).
  { intros p w. unfold setitem. cbn [items defaulting].
    rewrite assoc_set_twice. do 2 f_equal. lia. }
  destruct (assoc y (items d)) as [w|] eqn:Hy.
  - split; [apply Hback|]. rewrite Hcollapse.
    replace (setitem d y w) with d; [apply same_sums_refl|].
    destruct d as [its dflt]. unfold setitem. cbn [items defaulting] in *.
    now rewrite assoc_set_id.
  - destruct (defaulting d); [|exact I].
    split; [apply Hback|]. rewrite Hcollapse.
    replace (setitem (setitem d y factory) y factory) with (setitem d y 0).
    + now apply same_sums_zero_entry.
    + unfold setitem. cbn [items defaulting factory Factory_Z].
      now rewrite assoc_set_twice.
Qed.

Lemma touched_refl (y : C) (ws : dict F (dict C Z)) : touched y ws ws.
Proof.
  intro f. destruct (held ws f); [apply same_sums_refl|exact I].
Qed.

Lemma touched_trans (y : C) (ws1 ws2 ws3 : dict F (dict C Z)) :
  touched y ws1 ws2 -> touched y ws2 ws3 -> touched y ws1 ws3.
Proof.
  intros H12 H23 f. specialize (H12 f). specialize (H23 f).
  destruct (held ws1 f), (held ws2 f), (held ws3 f); try easy.
  eapply same_sums_trans; eassumption.
Qed.

Lemma scores_of_touched (y : C) (ws ws' : dict F (dict C Z)) (z : list F)
  (scores : dict C Z) :
  touched y ws ws' ->
  assoc y (items scores) <> None ->
  scores_of ws' z scores = scores_of ws z scores.
Proof.
  intro Htouched. revert scores. induction z as [|f z IH]; intros scores Hin.
  - reflexivity.
  - unfold scores_of. cbn [for_each]. specialize (Htouched f).
    destruct (held ws f) as [d|], (held ws' f) as [d'|]; try easy.
    rewrite (Htouched scores Hin).
    destruct (add_all scores (items d)) as [scores'|e] eqn:Hrun; [|reflexivity].
    cbn [bind]. apply IH. exact (add_all_keeps_key y _ _ _ Hrun Hin).
Qed.

(** [update(x, y, y)] leaves every dictionary of class weights with the
    sums it had, and the class set as it was. *)
Lemma update_same_class_touches (y : C) (tau : Z) (x : list F)
  (self self' : multiclass F C Rng Z) :
  Perceptron.update self x y y tau = Ok self' ->
  touched y (weights self) (weights self') /\ classes self' = classes self.
Proof.
  unfold Perceptron.update. revert self.
  induction x as [|f x IH]; intros self Hrun.
  - injection Hrun as <-. split; [apply touched_refl|reflexivity].
  - cbn [for_each] in Hrun.
    pose proof (getitem_held (weights self) f) as Hget.
    destruct (held (weights self) f) as [d|] eqn:Hheld;
      [|rewrite Hget in Hrun; discriminate].
    destruct Hget as (ws1 & Hget & Hsame). rewrite Hget in Hrun.
    cbn [bind] in Hrun.
    pose proof (bump_and_back y tau d) as Hbump.
    destruct (getitem d y) as [[w p]|e]; [|discriminate].
    destruct Hbump as [Hback Hsums]. cbn [bind] in Hrun.
    rewrite Hback in Hrun. cbn [bind] in Hrun.
    destruct (IH _ Hrun) as [Htouched Hclasses].
    cbn [with_weights weights classes] in Htouched, Hclasses.
    split; [|exact Hclasses].
    refine (touched_trans y _ _ _ _ Htouched).
    intro g. rewrite held_setitem, Hsame.
    destruct (key_eqb_spec g f) as [->|_].
    + rewrite Hheld. exact Hsums.
    + destruct (held (weights self) g); [apply same_sums_refl|exact I].
Qed.

End ScoresFacts.

(** C10, as amended: for every model, vector [x] and registered class [y],
    when [update(x, y, y)] returns, [scores(z)] yields for every [z] what
    it yielded before: the two increments hit the same entry and cancel. *)
Theorem multiclass_update_same_class_keeps_scores
  {F C Rng : Type} `{Hashable F} `{Hashable C}
  (set_iter : list C -> list C) (self self' : multiclass F C Rng Z)
  (x z : list F) (y : C) (tau : Z) :
  iter_ok set_iter ->
  In y (classes self) ->
  Perceptron.update self x y y tau = Ok self' ->
  fmap fst (Perceptron.scores set_iter self' z)
  = fmap fst (Perceptron.scores set_iter self z).
Proof.
  intros Hok Hin Hrun.
  destruct (update_same_class_touches y tau x self self' Hrun)
    as [Htouched Hclasses].
  rewrite !scores_value, Hclasses.
  apply (scores_of_touched y); [exact Htouched|].
  rewrite assoc_fromkeys, set_mem_iter by exact Hok.
  apply set_mem_In in Hin. now rewrite Hin.
Qed.

Lemma multiclass_update_same_class_keeps_scores_witness :
  let self : multiclass string (option string) Z Z :=
    with_classes (Perceptron.__init__ example_source None None) [None; Some "A"] in
  let self' :=
    with_weights self
      {| items := [("f", {| items := [(Some "A", 0)]; defaulting := true |})];
         defaulting := true |} in
  In (Some "A") (classes self)
  /\ Perceptron.update self ["f"] (Some "A") (Some "A") 1 = Ok self'
  /\ fmap fst (Perceptron.scores insertion_order self' ["f"])
     = fmap fst (Perceptron.scores insertion_order self ["f"]).
Proof.
  intros self self'.
  assert (Hin : In (Some "A") (classes self)) by (right; left; reflexivity).
  assert (Hrun : Perceptron.update self ["f"] (Some "A") (Some "A") 1 = Ok self')
    by reflexivity.
  split; [exact Hin|]. split; [exact Hrun|].
  exact (multiclass_update_same_class_keeps_scores
           insertion_order self self' ["f"] ["f"] (Some "A") 1
           insertion_order_ok Hin Hrun).
Defined.

(** With a class that was never registered, [update(x, y, y)] stores a
    weight 0 under [y], and the next [scores] over that feature fails
    where it returned a table before. *)
Lemma multiclass_update_same_class_unregistered_breaks_scores :
  let fresh : multiclass string (option string) Z Z :=
    Perceptron.__init__ example_source None None in
  fmap fst (Perceptron.scores insertion_order fresh ["f"])
  = Ok {| items := [(None, 0)]; defaulting := false |}
  /\ fmap fst (self' <- Perceptron.update fresh ["f"] (Some "A") (Some "A") 1 ;;
               Perceptron.scores insertion_order self' ["f"])
     = Raise KeyError
  /\ ~ (forall self',
          Perceptron.update fresh ["f"] (Some "A") (Some "A") 1 = Ok self' ->
          fmap fst (Perceptron.scores insertion_order self' ["f"])
          = fmap fst (Perceptron.scores insertion_order fresh ["f"])).
Proof.
  intro fresh. split; [reflexivity|]. split; [reflexivity|].
  intro Hclaim.
  specialize (Hclaim _ eq_refl). discriminate Hclaim.
Qed.

(** On a model under training [update] always returns. *)
Lemma multiclass_update_returns {F C Rng : Type} `{Hashable F} `{Hashable C}
  (x : list F) (y yhat : C) (tau : Z) (self : multiclass F C Rng Z) :
  trainable self ->
  exists self', Perceptron.update self x y yhat tau = Ok self' /\ trainable self'.
Proof.
  unfold Perceptron.update. revert self.
  induction x as [|f x IH]; intros self [Hdef Hinner].
  - exists self. split; [reflexivity|split; assumption].
  - cbn [for_each].
    assert (Hget : exists d ws1,
               getitem (weights self) f = Ok (d, ws1)
               /\ defaulting d = true /\ defaulting ws1 = true
               /\ forall g d0, assoc g (items ws1) = Some d0 ->
                               defaulting d0 = true).
    { unfold getitem. destruct (assoc f (items (weights self))) as [d|] eqn:Hf.
      - exists d, (weights self). eauto.
      - rewrite Hdef. exists factory, (setitem (weights self) f factory).
        repeat split; try reflexivity; try assumption.
        intros g d0. cbn [setitem items].
        destruct (key_eqb_spec g f) as [->|Hne].
        + rewrite assoc_set_same. now intros [= <-].
        + rewrite assoc_set_other by exact Hne. apply Hinner. }
    destruct Hget as (d & ws1 & -> & Hd & Hws1 & Hinner1). cbn [bind].
    assert (Hread : forall (p : dict C Z) (c : C),
               defaulting p = true ->
               exists w p', getitem p c = Ok (w, p') /\ defaulting p' = true).
    { intros p c Hp. unfold getitem. destruct (assoc c (items p)) as [w|].
      - exists w, p. auto.
      - rewrite Hp. exists factory, (setitem p c factory). auto. }
    destruct (Hread d y Hd) as (w & p & -> & Hp). cbn [bind].
    destruct (Hread (setitem p y (w + tau)) yhat Hp) as (w' & p' & -> & Hp').
    cbn [bind]. apply IH. split; [exact Hws1|].
    intros g d0. cbn [with_weights weights setitem items].
    destruct (key_eqb_spec g f) as [->|Hne].
    + rewrite assoc_set_same. intros [= <-]. exact Hp'.
    + rewrite assoc_set_other by exact Hne. apply Hinner1.
Qed.

(** ** Finalization *)

(** The part of the postcondition that the plain multiclass [finalize]
    meets: it returns, and no weight it keeps is 0. *)
Lemma multiclass_finalize_drops_zeros {F C Rng : Type}
  (self : multiclass F C Rng Z) :
  exists self',
    Perceptron.finalize self = Ok self'
    /\ forall f d c w,
         In (f, d) (items (weights self')) -> In (c, w) (items d) -> w <> 0.
Proof.
  eexists. split; [reflexivity|].
  intros f d c w Hfd Hcw. cbn [with_weights weights items] in Hfd.
  apply in_map_iff in Hfd. destruct Hfd as ([f0 d0] & [= <- <-] & _).
  cbn [items] in Hcw. apply filter_In in Hcw. destruct Hcw as [_ Hnz].
  cbn [snd] in Hnz. destruct (Z.eqb_spec w 0); [discriminate|assumption].
Qed.

(** Neither of the two names the code reads without binding them is
    defined at module level. *)
Lemma unbound_names :
  ~ In "weight" module_globals /\ ~ In "sequence" module_globals.
Proof.
  split; intro Hin; simpl in Hin;
    repeat (destruct Hin as [Hin|Hin]; [discriminate Hin|]); exact Hin.
Qed.

(** As [finalize] ends [fit], no training run of the plain binary model
    returns a model. *)
Lemma binary_fit_never_returns {F Rng Acc : Type} `{Hashable F}
  (src : random_source Rng) (clock : nat -> Q)
  (acc : accuracy_api Acc pyobj bool) (self : binary F Rng Z)
  (Xs : list (list F)) (Ys : list pyobj) (epochs : Z) (w : world) :
  exists e, BinaryPerceptron_fit src clock acc self Xs Ys epochs w = Raise e.
Proof.
  unfold BinaryPerceptron_fit, Classifier.fit, Classifier.fit_with.
  destruct (Classifier.run_epochs _ _ _ _ _ _ _ _ _ _ _ _)
    as [[[self' data] w']|e].
  - exists (NameError "weight"). reflexivity.
  - exists e. reflexivity.
Qed.

Lemma assoc_set_middle {K V : Type} `{Hashable K} (k : K) (v v0 : V)
  (done rest : list (K * V)) :
  ~ In k (map fst done) ->
  assoc_set k v (done ++ (k, v0) :: rest) = done ++ (k, v) :: rest.
Proof.
  induction done as [|[k1 v1] done IH]; intro Hnotin; simpl.
  - now rewrite key_eqb_refl.
  - rewrite key_eqb_neq by (intros ->; apply Hnotin; now left).
    rewrite IH; [reflexivity|]. intro Hin. apply Hnotin. now right.
Qed.

(** The part of the postcondition that the binary averaged [finalize]
    meets: once the time is not 0 it returns, keeps every entry, and each
    entry holds the average of the weight it held. *)
Lemma binary_averaged_finalize_averages_all {F Rng : Type} `{Hashable F}
  (self : binary F Rng LazyWeight.t) :
  NoDup (map fst (items (b_weights self))) ->
  b_time self <> 0 ->
  exists self',
    BinaryAveragedPerceptron.finalize self = Ok self'
    /\ Forall2
         (fun old new : F * LazyWeight.t =>
            fst new = fst old
            /\ LazyWeight.average (snd old) (b_time self) = Ok (snd new))
         (items (b_weights self)) (items (b_weights self')).
Proof.
  intros Hnodup Hnow. unfold BinaryAveragedPerceptron.finalize.
  assert (Hloop : forall rest done (ws : dict F LazyWeight.t),
             items ws = done ++ rest ->
             NoDup (map fst (done ++ rest)) ->
             exists rest',
               for_each
                 (fun (acc : list F * dict F LazyWeight.t)
                      (item : F * LazyWeight.t) =>
                    let (ready2die, ws) := acc in
                    let (feature, weight) := item in
                    if LazyWeight.eq_float weight 0
                    then Ok (ready2die ++ [feature], ws)
                    else weight <- LazyWeight.average weight (b_time self) ;;
                         Ok (ready2die, setitem ws feature weight))
                 rest ([], ws)
               = Ok ([], {| items := done ++ rest'; defaulting := defaulting ws |})
               /\ Forall2
                    (fun old new : F * LazyWeight.t =>
                       fst new = fst old
                       /\ LazyWeight.average (snd old) (b_time self)
                          = Ok (snd new))
                    rest rest').
  { induction rest as [|[f lw] rest IH]; intros done ws Hitems Hkeys.
    - exists []. split; [|constructor]. cbn [for_each]. do 2 f_equal.
      destruct ws as [its dflt]. cbn [items defaulting] in *. now subst.
    - cbn [for_each LazyWeight.eq_float].
      unfold LazyWeight.average at 1, num_truediv. cbn [num_is_zero].
      destruct (Z.eqb_spec (b_time self) 0) as [Hzero|_]; [contradiction|].
      cbn [bind].
      set (lw' := {| LazyWeight.timestamp := _; LazyWeight.weight := _;
                     LazyWeight.summed_weight := _ |}).
      assert (Hfresh : ~ In f (map fst done)).
      { rewrite map_app in Hkeys. apply NoDup_remove_2 in Hkeys.
        intro Hin. apply Hkeys. apply in_or_app. now left. }
      destruct (IH (done ++ [(f, lw')]) (setitem ws f lw')) as (rest' & Hrun & Hall).
      + cbn [setitem items]. rewrite Hitems, assoc_set_middle by exact Hfresh.
        now rewrite <- app_assoc.
      + rewrite <- app_assoc. cbn [app].
        rewrite map_app in *. exact Hkeys.
      + exists ((f, lw') :: rest'). split.
        * rewrite <- app_assoc in Hrun. exact Hrun.
        * constructor; [|exact Hall]. split; [reflexivity|].
          cbn [snd]. unfold LazyWeight.average, num_truediv. cbn [num_is_zero].
          destruct (Z.eqb_spec (b_time self) 0); [contradiction|reflexivity]. }
  destruct (Hloop (items (b_weights self)) [] (b_weights self) eq_refl Hnodup)
    as (rest' & Hrun & Hall).
  rewrite Hrun. cbn [bind for_each]. eexists. split; [reflexivity|].
  exact Hall.
Qed.

(** C1, on the code.  The plain binary [finalize] raises [NameError] on
    every model.  The averaged variants compare the [LazyWeight] object,
    not its value, with [0.], so they delete nothing: after a training run
    that leaves a weight with average 0, that weight survives [finalize]
    with value exactly 0.  Here the binary run is [fit_one({"a"}, True)] on
    a new model, and the multiclass run is four [fit_one] calls on a new
    model with default class ["B"], ties going to ["B"]. *)
Theorem finalize_keeps_zero_weights :
  (forall (F Rng : Type) (self : binary F Rng Z),
      BinaryPerceptron.finalize self = Raise (NameError "weight"))
  /\ ('(_, self) <- BinaryAveragedPerceptron.fit_one
                      (BinaryAveragedPerceptron.__init__ example_source None)
                      ["a"] (PyBool true) ;;
      BinaryAveragedPerceptron.finalize self)
     = Ok {| b_random := 0;
             b_weights :=
               {| items :=
                    [("a", {| LazyWeight.timestamp := 1;
                              LazyWeight.weight := PyFloat 0;
                              LazyWeight.summed_weight := PyInt 0 |})];
                  defaulting := true |};
             b_time := 1 |}
  /\ fmap (fun self => fmap fst (getitem (weights self) "f"))
       ('(_, self) <- AveragedPerceptron_fit_one insertion_order
                        (AveragedPerceptron.__init__ example_source (Some "B") None)
                        ["g"] (Some "A") ;;
        '(_, self) <- AveragedPerceptron_fit_one insertion_order self
                        ["f"; "g"] (Some "B") ;;
        '(_, self) <- AveragedPerceptron_fit_one insertion_order self
                        ["f"] (Some "A") ;;
        '(_, self) <- AveragedPerceptron_fit_one insertion_order self
                        ["f"] (Some "A") ;;
        AveragedPerceptron.finalize self)
     = Ok (Ok {| items :=
                   [(Some "B", {| LazyWeight.timestamp := 4;
                                  LazyWeight.weight := PyFloat 0;
                                  LazyWeight.summed_weight := PyInt 0 |});
                    (Some "A", {| LazyWeight.timestamp := 4;
                                  LazyWeight.weight := PyFloat 0;
                                  LazyWeight.summed_weight := PyInt 0 |})];
                 defaulting := true |}).
Proof.
  split; [|split].
  - intros F Rng self. reflexivity.
  - reflexivity.
  - vm_compute. reflexivity.
Qed.

(** ** Sequence decoding *)

(** C4, on the code: with [order = 1] and a transition function that
    returns no feature, greedy decoding of a non-empty sequence raises
    [NameError] at the first token, where order-0 decoding of the same
    tokens returns a label per token; only on the empty sequence do the
    two agree. *)
Theorem greedy_decode_raises_on_tokens
  {F C Rng : Type} `{Hashable F} `{Hashable C}
  (set_iter : list C -> list C) (self : multiclass F C Rng Z)
  (x : list F) (xx : list (list F)) :
  let decoder := with_decoder self (Some (fun _ : list C => @nil F)) 1 in
  SequencePerceptron_predict set_iter decoder (x :: xx)
  = Raise (NameError "sequence")
  /\ SequencePerceptron_predict set_iter decoder [] = Ok ([], decoder)
  /\ SequencePerceptron._markov0_predict (Perceptron.scores set_iter) decoder []
     = Ok ([], decoder)
  /\ fmap fst (SequencePerceptron._markov0_predict
                 (Perceptron.scores insertion_order)
                 (SequencePerceptron.__init__ example_source
                    (fun _ : list (option string) => @nil string) 1 None None)
                 [["f"]])
     = Ok [None].
Proof.
  intro decoder. repeat split; reflexivity.
Qed.

(** ** Logical time *)

Lemma for_each_preserves {A S R : Type} (proj : S -> R)
  (body : S -> A -> result S) :
  (forall s a s', body s a = Ok s' -> proj s' = proj s) ->
  forall l s s', for_each body l s = Ok s' -> proj s' = proj s.
Proof.
  intros Hbody l. induction l as [|a l IH]; intros s s' Hrun.
  - now injection Hrun as <-.
  - cbn [for_each] in Hrun. destruct (body s a) as [s1|e] eqn:Hstep;
      [|discriminate].
    cbn [bind] in Hrun. rewrite (IH _ _ Hrun). exact (Hbody _ _ _ Hstep).
Qed.

Lemma Ok_inj {A : Type} (a b : A) : Ok a = Ok b -> a = b.
Proof. now intros [= ->]. Qed.

(** Take the successful runs among the hypotheses apart, bind by bind. *)
Ltac split_runs :=
  repeat match goal with
    | H : bind ?r _ = Ok _ |- _ =>
        let E := fresh "Hstep" in
        destruct r as [?|?] eqn:E; cbn [bind] in H; [|discriminate H]
    | H : match ?p with pair _ _ => _ end = Ok _ |- _ => destruct p
    | H : (if ?b then _ else _) = Ok _ |- _ => destruct b eqn:?
    | H : Raise _ = Ok _ |- _ => discriminate H
    | H : Ok _ = Ok _ |- _ => apply Ok_inj in H
    | H : (_, _) = (_, _) |- _ => injection H as ? ?
    end.

Section TimeFacts.
Context {F C Rng : Type} `{Hashable F} `{Hashable C}.
Variable set_iter : list C -> list C.

Lemma binary_averaged_predict_keeps_time (self self' : binary F Rng LazyWeight.t)
  (x : list F) (yhat : bool) :
  BinaryAveragedPerceptron.predict self x = Ok (yhat, self') ->
  b_time self' = b_time self.
Proof.
  unfold BinaryAveragedPerceptron.predict. intro Hrun. split_runs. subst.
  apply (for_each_preserves
           (fun acc : num * binary F Rng LazyWeight.t => b_time (snd acc)))
    in Hstep; [exact Hstep|].
  intros [total s] feature s' Hbody. split_runs. now subst.
Qed.

Lemma binary_averaged_update_keeps_time (self self' : binary F Rng LazyWeight.t)
  (x : list F) (y : pyobj) (tau : Z) :
  BinaryAveragedPerceptron.update self x y tau = Ok self' ->
  b_time self' = b_time self.
Proof.
  unfold BinaryAveragedPerceptron.update. intro Hrun. split_runs.
  apply (for_each_preserves (@b_time F Rng LazyWeight.t)) in Hrun;
    [exact Hrun|].
  intros s feature s' Hbody. split_runs. now subst.
Qed.

Lemma binary_averaged_fit_one_ticks (self self' : binary F Rng LazyWeight.t)
  (x : list F) (y : pyobj) (yhat : bool) :
  BinaryAveragedPerceptron.fit_one self x y = Ok (yhat, self') ->
  b_time self' = b_time self + 1.
Proof.
  unfold BinaryAveragedPerceptron.fit_one, BinaryPerceptron.fit_one.
  intro Hrun. split_runs; subst; cbn [b_time];
    repeat match goal with
      | Hp : BinaryAveragedPerceptron.predict _ _ = Ok _ |- _ =>
          apply binary_averaged_predict_keeps_time in Hp
      | Hu : BinaryAveragedPerceptron.update _ _ _ _ = Ok _ |- _ =>
          apply binary_averaged_update_keeps_time in Hu
      end; lia.
Qed.

Lemma averaged_scores_keep_time (self self' : multiclass F C Rng LazyWeight.t)
  (x : list F) (scores : dict C num) :
  AveragedPerceptron.scores set_iter self x = Ok (scores, self') ->
  time self' = time self /\ order self' = order self.
Proof.
  unfold AveragedPerceptron.scores.
  generalize (fromkeys (set_iter (classes self)) (PyInt 0)) as init.
  intros init Hrun.
  apply (for_each_preserves
           (fun acc : dict C num * multiclass F C Rng LazyWeight.t =>
              (time (snd acc), order (snd acc)))) in Hrun.
  - cbn [snd] in Hrun. now injection Hrun.
  - intros [sc s] feature s' Hbody. split_runs. now subst.
Qed.

Lemma averaged_update_keeps_time (self self' : multiclass F C Rng LazyWeight.t)
  (x : list F) (y yhat : C) (tau : Z) :
  AveragedPerceptron.update self x y yhat tau = Ok self' ->
  time self' = time self.
Proof.
  unfold AveragedPerceptron.update.
  apply (for_each_preserves (@time F C Rng LazyWeight.t)).
  intros s feature s' Hbody. split_runs. now subst.
Qed.

Lemma averaged_fit_one_ticks (self self' : multiclass F C Rng LazyWeight.t)
  (x : list F) (y yhat : C) :
  AveragedPerceptron_fit_one set_iter self x y = Ok (yhat, self') ->
  time self' = time self + 1.
Proof.
  unfold AveragedPerceptron_fit_one, AveragedPerceptron.fit_one,
    Perceptron.fit_one, AveragedPerceptron_predict, Perceptron.predict.
  intro Hrun. split_runs; subst; cbn [with_time time];
    repeat match goal with
      | Hs : AveragedPerceptron.scores _ _ _ = Ok _ |- _ =>
          apply averaged_scores_keep_time in Hs; destruct Hs as [Hs _];
          cbn [with_classes time] in Hs
      | Hu : AveragedPerceptron.update _ _ _ _ _ = Ok _ |- _ =>
          apply averaged_update_keeps_time in Hu
      end; lia.
Qed.

End TimeFacts.

Section SequenceTimeFacts.
Context {F C Rng : Type} `{Hashable F} `{Hashable C}.
Variable set_iter : list C -> list C.

Lemma sequence_averaged_fit_one_ticks
  (self self' : multiclass F C Rng LazyWeight.t)
  (xx : list (list F)) (yy yyhat : list C) :
  SequenceAveragedPerceptron_fit_one set_iter self xx yy = Ok (yyhat, self') ->
  time self' = time self + 1.
Proof.
  unfold SequenceAveragedPerceptron_fit_one, AveragedPerceptron.fit_one,
    SequencePerceptron.fit_one, SequencePerceptron.predict_with_transitions,
    SequencePerceptron._markov0_predict.
  intro Hrun. split_runs; subst; cbn [with_time time].
  match goal with
  | Hdecode : for_each _ _ (_, with_classes _ _) = Ok _,
    Hfix : for_each _ (combine _ _) _ = Ok _ |- _ =>
      apply (for_each_preserves
               (fun acc : list C * multiclass F C Rng LazyWeight.t =>
                  time (snd acc))) in Hdecode;
      [apply (for_each_preserves (@time F C Rng LazyWeight.t)) in Hfix|]
  end.
  - cbn [snd with_classes time] in *. lia.
  - intros s [xt [y yhat]] s' Hbody. split_runs; subst; [|reflexivity].
    now apply averaged_update_keeps_time in Hbody.
  - intros [labels s] x s' Hbody. split_runs. subst. cbn [snd].
    match goal with
    | Hs : AveragedPerceptron.scores _ _ _ = Ok _ |- _ =>
        now apply averaged_scores_keep_time in Hs
    end.
Qed.

End SequenceTimeFacts.

(** ** The training loop *)

Lemma for_each_counts {A S : Type} (measure : S -> Z) (step : A -> Z)
  (body : S -> A -> result S) :
  (forall s a s', body s a = Ok s' -> measure s' = measure s + step a) ->
  forall l s s',
    for_each body l s = Ok s' ->
    measure s' = measure s + fold_right (fun a n => step a + n) 0 l.
Proof.
  intros Hbody l. induction l as [|a l IH]; intros s s' Hrun.
  - injection Hrun as <-. simpl. lia.
  - cbn [for_each] in Hrun. destruct (body s a) as [s1|e] eqn:Hstep;
      [|discriminate].
    cbn [bind fold_right] in *. rewrite (IH _ _ Hrun), (Hbody _ _ _ Hstep). lia.
Qed.

Lemma fold_right_const {A : Type} (c : Z) (l : list A) :
  fold_right (fun _ n => c + n) 0 l = c * Z.of_nat (List.length l).
Proof. induction l as [|a l IH]; cbn [fold_right List.length]; lia. Qed.

Lemma py_range_length (a b : Z) :
  Z.of_nat (List.length (py_range a b)) = Z.max 0 (b - a).
Proof. unfold py_range. rewrite length_map, length_seq. lia. Qed.

Section TrainingFacts.
Context {T X G P Rng Acc : Type}.
Variable src : random_source Rng.
Variable clock : nat -> Q.
Variable new_accuracy : Acc.
Variable ratio : Acc -> Q.
Variable get_random : T -> Rng.
Variable set_random : T -> Rng -> T.
Variable self_fit_one : T -> X -> G -> result (P * T).
Variable self_finalize : T -> result T.
Variable tally : Acc -> G -> P -> Acc.
Variable now : T -> Z.

Hypothesis shuffle_permutes : shuffle_ok src.
Hypothesis fit_one_ticks :
  forall self x y yhat self',
    self_fit_one self x y = Ok (yhat, self') -> now self' = now self + 1.
Hypothesis set_random_keeps : forall self rng, now (set_random self rng) = now self.
Hypothesis finalize_keeps :
  forall self self', self_finalize self = Ok self' -> now self' = now self.

Lemma epoch_pass_ticks (self self' : T) (data data' : list (X * G))
  (w w' : world) (epoch : Z) :
  Classifier.epoch_pass src clock new_accuracy ratio get_random set_random
    self_fit_one tally (self, data, w) epoch = Ok (self', data', w') ->
  now self' = now self + Z.of_nat (List.length data)
  /\ List.length data' = List.length data.
Proof.
  unfold Classifier.epoch_pass, read_clock.
  pose proof (shuffle_permutes _ (get_random self) data) as Hperm.
  destruct (shuffle src (get_random self) data) as [shuffled rng].
  cbn [fst] in Hperm. apply Permutation_length in Hperm.
  intro Hrun. split_runs. subst.
  match goal with
  | Hloop : for_each _ _ (set_random _ _, _) = Ok _ |- _ =>
      apply (for_each_counts (fun st : T * Acc => now (fst st)) (fun _ => 1))
        in Hloop
  end.
  - cbn [fst] in *. rewrite fold_right_const, set_random_keeps in *.
    split; [lia|exact Hperm].
  - intros [s accuracy] [x y] s' Hbody. split_runs. subst. cbn [fst].
    eapply fit_one_ticks. eassumption.
Qed.

Lemma run_epochs_ticks (epochs : list Z) (self self' : T)
  (data data' : list (X * G)) (w w' : world) :
  for_each
    (Classifier.epoch_pass src clock new_accuracy ratio get_random set_random
       self_fit_one tally)
    epochs (self, data, w) = Ok (self', data', w') ->
  now self' = now self
              + Z.of_nat (List.length epochs) * Z.of_nat (List.length data)
  /\ List.length data' = List.length data.
Proof.
  revert self data w. induction epochs as [|epoch epochs IH];
    intros self data w Hrun.
  - cbn in Hrun. apply Ok_inj in Hrun. injection Hrun as <- <- _.
    cbn [List.length]. split; [lia|reflexivity].
  - cbn [for_each] in Hrun.
    destruct (Classifier.epoch_pass _ _ _ _ _ _ _ _ _ _)
      as [[[self1 data1] w1]|e] eqn:Hpass; [|discriminate].
    cbn [bind] in Hrun. apply epoch_pass_ticks in Hpass.
    apply IH in Hrun. destruct Hpass as [Hnow1 Hlen1], Hrun as [Hnow Hlen].
    rewrite Hlen1 in *. cbn [List.length]. split; [nia|exact Hlen].
Qed.

(** When [fit] returns, the clock has advanced by one per instance of
    every epoch. *)
Lemma fit_ticks (self self' : T) (Xs : list X) (Ys : list G) (epochs : Z)
  (w w' : world) :
  Classifier.fit_with src clock new_accuracy ratio get_random set_random
    self_fit_one self_finalize tally self Xs Ys epochs w = Ok (self', w') ->
  now self' = now self
              + Z.max 0 epochs * Z.of_nat (List.length (combine Xs Ys)).
Proof.
  unfold Classifier.fit_with, Classifier.run_epochs. intro Hrun.
  split_runs. subst.
  match goal with
  | Hloop : for_each _ (py_range _ _) _ = Ok _ |- _ =>
      apply run_epochs_ticks in Hloop; destruct Hloop as [Hloop _]
  end.
  match goal with
  | Hfin : self_finalize _ = Ok _ |- _ => apply finalize_keeps in Hfin
  end.
  rewrite py_range_length in *. replace (1 + epochs - 1) with epochs in * by lia.
  lia.
Qed.

End TrainingFacts.

Lemma binary_averaged_finalize_keeps_time {F Rng : Type} `{Hashable F}
  (self self' : binary F Rng LazyWeight.t) :
  BinaryAveragedPerceptron.finalize self = Ok self' -> b_time self' = b_time self.
Proof.
  unfold BinaryAveragedPerceptron.finalize. intro Hrun. split_runs. now subst.
Qed.

Lemma averaged_finalize_keeps_time {F C Rng : Type} `{Hashable F} `{Hashable C}
  (self self' : multiclass F C Rng LazyWeight.t) :
  AveragedPerceptron.finalize self = Ok self' -> time self' = time self.
Proof.
  unfold AveragedPerceptron.finalize. intro Hrun. split_runs. now subst.
Qed.

(** C9: in the averaged variants the logical time of a new model is 0,
    every [fit_one] call that returns has advanced it by exactly 1 (one
    call per instance, and per whole sequence in the sequence variant),
    and when [fit] returns it has advanced by the number of instances
    times the number of epochs: it runs on across the epochs. *)
Theorem averaged_time_counts_instances
  {F C Rng Acc : Type} `{Hashable F} `{Hashable C}
  (set_iter : list C -> list C) (src : random_source Rng) (clock : nat -> Q) :
  shuffle_ok src ->
  ((forall seed,
       b_time (BinaryAveragedPerceptron.__init__ (F := F) src seed) = 0)
   /\ (forall default seed,
         time (AveragedPerceptron.__init__ (F := F) (C := C) src default seed) = 0)
   /\ (forall tfeats k default seed,
         time (SequenceAveragedPerceptron.__init__ (F := F) (C := C)
                 src tfeats k default seed) = 0))
  /\ ((forall (self self' : binary F Rng LazyWeight.t) x y yhat,
         BinaryAveragedPerceptron.fit_one self x y = Ok (yhat, self') ->
         b_time self' = b_time self + 1)
      /\ (forall (self self' : multiclass F C Rng LazyWeight.t) x y yhat,
            AveragedPerceptron_fit_one set_iter self x y = Ok (yhat, self') ->
            time self' = time self + 1)
      /\ (forall (self self' : multiclass F C Rng LazyWeight.t) xx yy yyhat,
            SequenceAveragedPerceptron_fit_one set_iter self xx yy
            = Ok (yyhat, self') ->
            time self' = time self + 1))
  /\ ((forall (acc : accuracy_api Acc pyobj bool)
              (self self' : binary F Rng LazyWeight.t) Xs Ys epochs w w',
         BinaryAveragedPerceptron_fit src clock acc self Xs Ys epochs w
         = Ok (self', w') ->
         b_time self' = b_time self
                        + Z.max 0 epochs * Z.of_nat (List.length (combine Xs Ys)))
      /\ (forall (acc : accuracy_api Acc C C)
                 (self self' : multiclass F C Rng LazyWeight.t) Xs Ys epochs w w',
            AveragedPerceptron_fit set_iter src clock acc self Xs Ys epochs w
            = Ok (self', w') ->
            time self' = time self
                         + Z.max 0 epochs * Z.of_nat (List.length (combine Xs Ys)))
      /\ (forall (acc : accuracy_api Acc C C)
                 (self self' : multiclass F C Rng LazyWeight.t) XX YY epochs w w',
            SequenceAveragedPerceptron_fit set_iter src clock acc self XX YY
              epochs w = Ok (self', w') ->
            time self' = time self
                         + Z.max 0 epochs * Z.of_nat (List.length (combine XX YY)))).
Proof.
  intro Hshuffle. split; [|split].
  - repeat split; reflexivity.
  - split; [|split]; intros.
    + eapply binary_averaged_fit_one_ticks; eassumption.
    + eapply averaged_fit_one_ticks; eassumption.
    + eapply sequence_averaged_fit_one_ticks; eassumption.
  - split; [|split]; intros acc self self' Xs Ys epochs w w' Hrun.
    + refine (fit_ticks _ _ _ _ _ _ _ _ _ (@b_time F Rng LazyWeight.t)
                Hshuffle _ _ _ _ _ _ _ _ _ _ Hrun).
      * intros; eapply binary_averaged_fit_one_ticks; eassumption.
      * reflexivity.
      * intros; now apply binary_averaged_finalize_keeps_time.
    + refine (fit_ticks _ _ _ _ _ _ _ _ _ (@time F C Rng LazyWeight.t)
                Hshuffle _ _ _ _ _ _ _ _ _ _ Hrun).
      * intros; eapply averaged_fit_one_ticks; eassumption.
      * reflexivity.
      * intros; now apply averaged_finalize_keeps_time.
    + refine (fit_ticks _ _ _ _ _ _ _ _ _ (@time F C Rng LazyWeight.t)
                Hshuffle _ _ _ _ _ _ _ _ _ _ Hrun).
      * intros; eapply sequence_averaged_fit_one_ticks; eassumption.
      * reflexivity.
      * intros; now apply averaged_finalize_keeps_time.
Qed.

Lemma example_source_shuffles : shuffle_ok example_source.
Proof.
  intros A rng [|a l]; cbn; [constructor|].
  apply Permutation_sym, Permutation_cons_append.
Qed.

Lemma averaged_time_counts_instances_witness :
  shuffle_ok example_source
  /\ (exists self' w',
        BinaryAveragedPerceptron_fit example_source example_clock
          (example_accuracy (fun y yhat => py_eq y (PyBool yhat)))
          (BinaryAveragedPerceptron.__init__ example_source None)
          [["a"]; ["b"]] [PyBool true; PyBool false] 2
          {| clock_reads := 0; emitted := [] |} = Ok (self', w')
        /\ b_time self' = 4)
  /\ (exists self' w',
        SequenceAveragedPerceptron_fit insertion_order example_source
          example_clock
          (example_accuracy (fun y yhat : option string => key_eqb y yhat))
          (SequenceAveragedPerceptron.__init__ example_source None 0 None None)
          [[["g"]; ["f"; "g"]]; [["f"]]] [[Some "A"; None]; [Some "B"]] 2
          {| clock_reads := 0; emitted := [] |} = Ok (self', w')
        /\ time self' = 4).
Proof.
  pose proof (averaged_time_counts_instances
                (F := string) (C := option string) (Acc := Z * Z)
                insertion_order example_source example_clock
                example_source_shuffles) as (_ & _ & Hbinary & _ & Hsequence).
  split; [exact example_source_shuffles|]. split.
  - destruct (BinaryAveragedPerceptron_fit example_source example_clock
                (example_accuracy (fun y yhat => py_eq y (PyBool yhat)))
                (BinaryAveragedPerceptron.__init__ example_source None)
                [["a"]; ["b"]] [PyBool true; PyBool false] 2
                {| clock_reads := 0; emitted := [] |})
      as [[self' w']|e] eqn:Hrun; [|vm_compute in Hrun; discriminate Hrun].
    exists self', w'. split; [reflexivity|].
    exact (Hbinary _ _ _ _ _ _ _ _ Hrun).
  - destruct (SequenceAveragedPerceptron_fit insertion_order example_source
                example_clock
                (example_accuracy (fun y yhat : option string => key_eqb y yhat))
                (SequenceAveragedPerceptron.__init__ example_source None 0 None None)
                [[["g"]; ["f"; "g"]]; [["f"]]] [[Some "A"; None]; [Some "B"]] 2
                {| clock_reads := 0; emitted := [] |})
      as [[self' w']|e] eqn:Hrun; [|vm_compute in Hrun; discriminate Hrun].
    exists self', w'. split; [reflexivity|].
    exact (Hsequence _ _ _ _ _ _ _ _ Hrun).
Defined.

(** ** Determinism of training *)

Lemma for_each_sim {A S1 S2 R : Type} (view1 : S1 -> R) (view2 : S2 -> R)
  (body1 : S1 -> A -> result S1) (body2 : S2 -> A -> result S2) :
  (forall s1 s2 a,
      view1 s1 = view2 s2 ->
      fmap view1 (body1 s1 a) = fmap view2 (body2 s2 a)) ->
  forall l s1 s2,
    view1 s1 = view2 s2 ->
    fmap view1 (for_each body1 l s1) = fmap view2 (for_each body2 l s2).
Proof.
  intros Hbody l. induction l as [|a l IH]; intros s1 s2 Hview.
  - cbn. now rewrite Hview.
  - cbn [for_each]. specialize (Hbody s1 s2 a Hview).
    destruct (body1 s1 a) as [s1'|e1], (body2 s2 a) as [s2'|e2];
      cbn in Hbody; try discriminate.
    + cbn [bind]. apply IH. now injection Hbody.
    + exact Hbody.
Qed.

Section TrainingDeterminism.
Context {T X G P Rng Acc1 Acc2 : Type}.
Variables src1 src2 : random_source Rng.
Variables clock1 clock2 : nat -> Q.
Variable new_accuracy1 : Acc1.
Variable new_accuracy2 : Acc2.
Variable ratio1 : Acc1 -> Q.
Variable ratio2 : Acc2 -> Q.
Variable tally1 : Acc1 -> G -> P -> Acc1.
Variable tally2 : Acc2 -> G -> P -> Acc2.
Variable get_random : T -> Rng.
Variable set_random : T -> Rng -> T.
Variable self_fit_one : T -> X -> G -> result (P * T).
Variable self_finalize : T -> result T.

Hypothesis same_shuffle :
  forall (A : Type) (rng : Rng) (l : list A),
    shuffle src1 rng l = shuffle src2 rng l.

Lemma epoch_pass_sim (st1 st2 : T * list (X * G) * world) (epoch : Z) :
  model_and_data st1 = model_and_data st2 ->
  fmap model_and_data
    (Classifier.epoch_pass src1 clock1 new_accuracy1 ratio1 get_random
       set_random self_fit_one tally1 st1 epoch)
  = fmap model_and_data
      (Classifier.epoch_pass src2 clock2 new_accuracy2 ratio2 get_random
         set_random self_fit_one tally2 st2 epoch).
Proof.
  destruct st1 as [[self data] w1], st2 as [[self2 data2] w2].
  unfold model_and_data. cbn [fst]. intros [= <- <-].
  unfold Classifier.epoch_pass, read_clock. rewrite same_shuffle.
  destruct (shuffle src2 (get_random self) data) as [shuffled rng].
  assert (Hloop : forall l (s1 : T * Acc1) (s2 : T * Acc2),
             fst s1 = fst s2 ->
             fmap fst
               (for_each
                  (fun (st : T * Acc1) (instance : X * G) =>
                     let (self, accuracy) := st in
                     let (x, y) := instance in
                     '(yhat, self) <- self_fit_one self x y ;;
                     Ok (self, tally1 accuracy y yhat)) l s1)
             = fmap fst
                 (for_each
                    (fun (st : T * Acc2) (instance : X * G) =>
                       let (self, accuracy) := st in
                       let (x, y) := instance in
                       '(yhat, self) <- self_fit_one self x y ;;
                       Ok (self, tally2 accuracy y yhat)) l s2)).
  { apply for_each_sim. intros [m1 a1] [m2 a2] [x y] Hm.
    cbn [fst] in Hm. subst m2.
    destruct (self_fit_one m1 x y) as [[yhat m]|e]; reflexivity. }
  specialize (Hloop shuffled (set_random self rng, new_accuracy1)
                (set_random self rng, new_accuracy2) eq_refl).
  destruct (for_each _ shuffled (set_random self rng, new_accuracy1))
    as [[m1 a1]|e1],
    (for_each _ shuffled (set_random self rng, new_accuracy2))
    as [[m2 a2]|e2]; cbn in Hloop; try discriminate; cbn.
  - injection Hloop as <-. reflexivity.
  - now injection Hloop as <-.
Qed.

(** The model [fit] returns, or the exception it raises, does not depend
    on the wall clock, on the accuracy bookkeeping, or on what was logged
    before. *)
Lemma fit_with_sim (self : T) (Xs : list X) (Ys : list G) (epochs : Z)
  (w1 w2 : world) :
  fmap fst
    (Classifier.fit_with src1 clock1 new_accuracy1 ratio1 get_random
       set_random self_fit_one self_finalize tally1 self Xs Ys epochs w1)
  = fmap fst
      (Classifier.fit_with src2 clock2 new_accuracy2 ratio2 get_random
         set_random self_fit_one self_finalize tally2 self Xs Ys epochs w2).
Proof.
  unfold Classifier.fit_with, Classifier.run_epochs.
  pose proof (for_each_sim model_and_data model_and_data _ _
                (fun st1 st2 epoch => epoch_pass_sim st1 st2 epoch)
                (py_range 1 (1 + epochs))
                (self, combine Xs Ys, emit w1 (Info_starting epochs))
                (self, combine Xs Ys, emit w2 (Info_starting epochs))
                eq_refl) as Hloop.
  destruct (for_each _ (py_range 1 (1 + epochs))
              (self, combine Xs Ys, emit w1 (Info_starting epochs)))
    as [[[m1 d1] w1']|e1],
    (for_each _ (py_range 1 (1 + epochs))
       (self, combine Xs Ys, emit w2 (Info_starting epochs)))
    as [[[m2 d2] w2']|e2]; cbn in Hloop; try discriminate; cbn.
  - injection Hloop as <- _. destruct (self_finalize m1); reflexivity.
  - now injection Hloop as <-.
Qed.

End TrainingDeterminism.

(** C8, as amended: two runs of [fit] on new models built with the same
    explicit seed, on the same data and for the same number of epochs,
    return the same model (or raise the same exception) provided the class
    set is iterated in the same order in both; the wall clock, the
    accuracy bookkeeping, the log and the operating system's seeding do not
    matter.  This holds for the plain and the averaged multiclass models
    and for their sequence variants. *)
Theorem fit_determined_given_iteration_order
  {F C Rng Acc1 Acc2 : Type} `{Hashable F} `{Hashable C}
  (set_iter : list C -> list C) (src : random_source Rng) (os1 os2 : Rng)
  (clock1 clock2 : nat -> Q)
  (acc1 : accuracy_api Acc1 C C) (acc2 : accuracy_api Acc2 C C)
  (default : C) (seed epochs : Z) (w1 w2 : world) :
  let src1 := reseed_os src os1 in
  let src2 := reseed_os src os2 in
  (forall (Xs : list (list F)) (Ys : list C),
      fmap fst (Perceptron_fit set_iter src1 clock1 acc1
                  (Perceptron.__init__ src1 default (Some seed)) Xs Ys epochs w1)
      = fmap fst (Perceptron_fit set_iter src2 clock2 acc2
                    (Perceptron.__init__ src2 default (Some seed)) Xs Ys epochs w2))
  /\ (forall (Xs : list (list F)) (Ys : list C),
         fmap fst (AveragedPerceptron_fit set_iter src1 clock1 acc1
                     (AveragedPerceptron.__init__ src1 default (Some seed))
                     Xs Ys epochs w1)
         = fmap fst (AveragedPerceptron_fit set_iter src2 clock2 acc2
                       (AveragedPerceptron.__init__ src2 default (Some seed))
                       Xs Ys epochs w2))
  /\ (forall tfeats k (XX : list (list (list F))) (YY : list (list C)),
         fmap fst (SequencePerceptron_fit set_iter src1 clock1 acc1
                     (SequencePerceptron.__init__ src1 tfeats k default (Some seed))
                     XX YY epochs w1)
         = fmap fst (SequencePerceptron_fit set_iter src2 clock2 acc2
                       (SequencePerceptron.__init__ src2 tfeats k default (Some seed))
                       XX YY epochs w2))
  /\ (forall tfeats k (XX : list (list (list F))) (YY : list (list C)),
         fmap fst (SequenceAveragedPerceptron_fit set_iter src1 clock1 acc1
                     (SequenceAveragedPerceptron.__init__ src1 tfeats k default
                        (Some seed))
                     XX YY epochs w1)
         = fmap fst (SequenceAveragedPerceptron_fit set_iter src2 clock2 acc2
                       (SequenceAveragedPerceptron.__init__ src2 tfeats k default
                          (Some seed))
                       XX YY epochs w2)).
Proof.
  intros src1 src2.
  assert (Hshuffle : forall (A : Type) (rng : Rng) (l : list A),
             shuffle src1 rng l = shuffle src2 rng l) by reflexivity.
  repeat split; intros; apply fit_with_sim; exact Hshuffle.
Qed.

(** The same seed, data and epoch count with two iteration orders of the
    class set [{"B", "A"}]: the first prediction is a tie between the two
    classes, broken by whichever comes first, and the two runs end with
    different weights. *)
Lemma fit_depends_on_iteration_order :
  let fresh : multiclass string (option string) Z Z :=
    Perceptron.__init__ example_source (Some "B") (Some 0) in
  let run (set_iter : list (option string) -> list (option string)) :=
    fmap fst
      (Perceptron_fit set_iter example_source example_clock
         (example_accuracy (fun y yhat : option string => key_eqb y yhat))
         fresh [["f"]] [Some "A"] 1 {| clock_reads := 0; emitted := [] |}) in
  let trained weights_of_f : multiclass string (option string) Z Z :=
    {| classes := [Some "B"; Some "A"]; random := 1;
       weights :=
         {| items := [("f", {| items := weights_of_f; defaulting := false |})];
            defaulting := false |};
       time := 0; tfeats_fnc := None; order := 0 |} in
  run insertion_order = Ok (trained [(Some "A", 1); (Some "B", -1)])
  /\ run reverse_order = Ok (trained [])
  /\ run insertion_order <> run reverse_order.
Proof.
  intros fresh run trained.
  assert (H1 : run insertion_order
               = Ok (trained [(Some "A", 1); (Some "B", -1)]))
    by (vm_compute; reflexivity).
  assert (H2 : run reverse_order = Ok (trained []))
    by (vm_compute; reflexivity).
  split; [exact H1|]. split; [exact H2|].
  rewrite H1, H2. discriminate.
Qed.

(** * Further properties of the code *)

(** ** More on dictionaries *)

Section MoreAssocFacts.
Context {K V : Type} `{Hashable K}.

Lemma assoc_In (k : K) (v : V) (l : list (K * V)) :
  assoc k l = Some v -> In (k, v) l.
Proof.
  induction l as [|[k0 v0] l IH]; simpl; [discriminate|].
  destruct (key_eqb_spec k k0) as [->|_].
  - intros [= ->]. now left.
  - intro Hl. right. now apply IH.
Qed.

Lemma In_assoc (k : K) (v : V) (l : list (K * V)) :
  In (k, v) l -> assoc k l <> None.
Proof.
  induction l as [|[k0 v0] l IH]; simpl; [easy|].
  intros [[= -> ->]|Hin].
  - now rewrite key_eqb_refl.
  - destruct (key_eqb k k0); [discriminate|now apply IH].
Qed.

Lemma assoc_keys (k : K) (l : list (K * V)) :
  assoc k l <> None <-> In k (map fst l).
Proof.
  induction l as [|[k0 v0] l IH]; simpl; [easy|].
  destruct (key_eqb_spec k k0) as [->|Hne].
  - split; [now left|discriminate].
  - rewrite IH. split; [now right|]. intros [Heq|Hin]; [congruence|exact Hin].
Qed.

Lemma In_assoc_set (k k0 : K) (v v0 : V) (l : list (K * V)) :
  In (k0, v0) (assoc_set k v l) -> (k0 = k /\ v0 = v) \/ In (k0, v0) l.
Proof.
  induction l as [|[k1 v1] l IH]; simpl.
  - intros [[= <- <-]|[]]. now left.
  - destruct (key_eqb_spec k k1) as [->|_]; simpl.
    + intros [[= <- <-]|Hin]; [now left|right; now right].
    + intros [Heq|Hin]; [right; now left|].
      destruct (IH Hin) as [Hnew|Hold]; [now left|right; now right].
Qed.

Lemma keys_assoc_set (k : K) (v : V) (l : list (K * V)) :
  assoc k l <> None -> map fst (assoc_set k v l) = map fst l.
Proof.
  induction l as [|[k1 v1] l IH]; simpl; [easy|].
  destruct (key_eqb k k1); simpl; [reflexivity|].
  intro Hin. now rewrite IH.
Qed.

Lemma assoc_map_values {V' : Type} (g : K * V -> V') (k : K) (l : list (K * V)) :
  assoc k (map (fun kv => (fst kv, g kv)) l) <> None <-> assoc k l <> None.
Proof.
  induction l as [|[k1 v1] l IH]; simpl; [easy|].
  destruct (key_eqb k k1); [easy|exact IH].
Qed.

End MoreAssocFacts.

(** ** Training a multiclass model never fails *)

Section ConsistentFacts.
Context {F C Rng : Type} `{Hashable F} `{Hashable C}.
Variable set_iter : list C -> list C.
Hypothesis set_iter_ok : iter_ok set_iter.

(** With every class of [clsweight] in the table, the inner loop of
    [scores] returns a table with the keys it had. *)
Lemma add_all_registered (clsweight : list (C * Z)) (scores : dict C Z) :
  (forall c w, In (c, w) clsweight -> assoc c (items scores) <> None) ->
  exists scores',
    add_all scores clsweight = Ok scores'
    /\ map fst (items scores') = map fst (items scores)
    /\ defaulting scores' = defaulting scores.
Proof.
  revert scores. induction clsweight as [|[cls w] rest IH]; intros scores Hreg.
  - exists scores. auto.
  - unfold add_all. cbn [for_each]. unfold getitem.
    destruct (assoc cls (items scores)) as [old|] eqn:Hcls;
      [|exfalso; apply (Hreg cls w); [now left|exact Hcls]].
    cbn [bind]. fold (add_all (setitem scores cls (old + w)) rest).
    assert (Hkeys : map fst (items (setitem scores cls (old + w)))
                    = map fst (items scores)).
    { cbn [setitem items]. apply keys_assoc_set. congruence. }
    destruct (IH (setitem scores cls (old + w))) as (scores' & Hrun & Hk & Hd).
    + intros c w0 Hin. apply assoc_keys. rewrite Hkeys. apply assoc_keys.
      apply (Hreg c w0). now right.
    + exists scores'. split; [exact Hrun|]. split; [congruence|exact Hd].
Qed.

Lemma fromkeys_keys (keys : list C) (c : C) :
  assoc c (items (fromkeys keys 0)) <> None <-> In c keys.
Proof.
  rewrite assoc_fromkeys. rewrite <- set_mem_In.
  destruct (set_mem c keys); split; congruence.
Qed.

Lemma scores_loop_returns (registered : list C) (x : list F) :
  forall (self : multiclass F C Rng Z) (scores : dict C Z),
    consistent self ->
    classes self = registered ->
    (forall c, In c (map fst (items scores)) <-> In c registered) ->
    exists scores' self',
      for_each
        (fun (acc : dict C Z * multiclass F C Rng Z) feature =>
           let (scores, self) := acc in
           '(clsweight, ws) <- getitem (weights self) feature ;;
           scores <- add_all scores (items clsweight) ;;
           Ok (scores, with_weights self ws))
        x (scores, self) = Ok (scores', self')
      /\ consistent self'
      /\ classes self' = registered
      /\ (forall c, In c (map fst (items scores')) <-> In c registered).
Proof.
  induction x as [|f x IH]; intros self scores Hcons Hclasses Hkeys.
  - exists scores, self. cbn [for_each]. auto.
  - destruct Hcons as ([Hdef Hinner] & Hnonempty & Hreg).
    cbn [for_each].
    assert (Hget : exists d ws,
               getitem (weights self) f = Ok (d, ws)
               /\ consistent (with_weights self ws)
               /\ (forall c w, In (c, w) (items d) -> In c (classes self))).
    { unfold getitem. destruct (assoc f (items (weights self))) as [d|] eqn:Hf.
      - exists d, (weights self). split; [reflexivity|]. split.
        + destruct self; repeat split; assumption.
        + intros c w Hin. apply (Hreg f d c w); [now apply assoc_In|exact Hin].
      - rewrite Hdef. exists factory, (setitem (weights self) f factory).
        split; [reflexivity|]. split; [|intros c w []].
        repeat split; cbn [with_weights weights classes setitem items defaulting].
        + exact Hdef.
        + intros g d0 Hg. destruct (key_eqb_spec g f) as [->|Hne].
          * rewrite assoc_set_same in Hg. now injection Hg as <-.
          * rewrite assoc_set_other in Hg by exact Hne. now apply (Hinner g).
        + exact Hnonempty.
        + intros g d0 c w Hin Hcw. apply In_assoc_set in Hin.
          destruct Hin as [[_ ->]|Hin]; [destruct Hcw|].
          eapply Hreg; eassumption. }
    destruct Hget as (d & ws & -> & Hcons' & Hd). cbn [bind].
    destruct (add_all_registered (items d) scores) as (scores' & -> & Hk & _).
    { intros c w Hin. apply assoc_keys, Hkeys. rewrite <- Hclasses.
      eapply Hd. exact Hin. }
    cbn [bind].
    apply (IH (with_weights self ws) scores' Hcons').
    + destruct self; exact Hclasses.
    + intro c. rewrite Hk. apply Hkeys.
Qed.

Lemma scores_returns (x : list F) (self : multiclass F C Rng Z) :
  consistent self ->
  exists scores self',
    Perceptron.scores set_iter self x = Ok (scores, self')
    /\ consistent self'
    /\ classes self' = classes self
    /\ (forall c, In c (map fst (items scores)) <-> In c (classes self)).
Proof.
  intro Hcons. apply (scores_loop_returns (classes self) x self); auto.
  intro c. rewrite <- assoc_keys, fromkeys_keys.
  split; apply Permutation_in;
    [apply set_iter_ok|apply Permutation_sym, set_iter_ok].
Qed.

End ConsistentFacts.

Section ArgmaxFacts.
Context {K : Type}.

Lemma max_from_In (best : K * Z) (rest : list (K * Z)) :
  In (max_from best rest) (best :: rest).
Proof.
  revert best. induction rest as [|kv rest IH]; intro best; cbn [max_from].
  - now left.
  - destruct (IH (if s_gt (snd kv) (snd best) then kv else best)) as [Heq|Hin].
    + rewrite <- Heq. destruct (s_gt (snd kv) (snd best)); [right; now left|now left].
    + right. now right.
Qed.

(** [max_from] splits the list at the item it returns: no later item is
    larger, every earlier one is smaller. *)
Lemma max_from_split (best : K * Z) (rest : list (K * Z)) :
  exists pre post,
    best :: rest = pre ++ max_from best rest :: post
    /\ (forall kv, In kv pre -> snd kv < snd (max_from best rest))
    /\ (forall kv, In kv post -> snd kv <= snd (max_from best rest)).
Proof.
  assert (Hgen : forall (rest seen : list (K * Z)) (best : K * Z) pre post,
             seen = pre ++ best :: post ->
             (forall kv, In kv pre -> snd kv < snd best) ->
             (forall kv, In kv post -> snd kv <= snd best) ->
             exists pre' post',
               seen ++ rest = pre' ++ max_from best rest :: post'
               /\ (forall kv, In kv pre' -> snd kv < snd (max_from best rest))
               /\ (forall kv, In kv post' -> snd kv <= snd (max_from best rest))).
  { clear best rest. induction rest as [|kv rest IH];
      intros seen best pre post Hseen Hpre Hpost; cbn [max_from].
    - exists pre, post. rewrite app_nil_r. auto.
    - replace (seen ++ kv :: rest) with ((seen ++ [kv]) ++ rest)
        by now rewrite <- app_assoc.
      unfold s_gt, Scalar_Z. destruct (Z.gtb_spec (snd kv) (snd best)) as [Hgt|Hle].
      + apply (IH (seen ++ [kv]) kv seen []).
        * reflexivity.
        * intros kv0 Hin. rewrite Hseen in Hin. apply in_app_or in Hin.
          destruct Hin as [Hin|[<-|Hin]].
          -- specialize (Hpre _ Hin). lia.
          -- exact Hgt.
          -- specialize (Hpost _ Hin). lia.
        * intros kv0 [].
      + apply (IH (seen ++ [kv]) best pre (post ++ [kv])).
        * rewrite Hseen, <- app_assoc. reflexivity.
        * exact Hpre.
        * intros kv0 Hin. apply in_app_or in Hin.
          destruct Hin as [Hin|[<-|[]]]; [now apply Hpost|exact Hle]. }
  apply (Hgen rest [best] best [] []); [reflexivity|intros kv []|intros kv []].
Qed.

Lemma max_by_value_nonempty (l : list (K * Z)) :
  l <> [] -> exists kv, max_by_value l = Ok kv /\ In kv l.
Proof.
  destruct l as [|kv rest]; [easy|]. intros _.
  exists (max_from kv rest). split; [reflexivity|apply max_from_In].
Qed.

End ArgmaxFacts.

Section TrainingReturns.
Context {F C Rng : Type} `{Hashable F} `{Hashable C}.
Variable set_iter : list C -> list C.
Hypothesis set_iter_ok : iter_ok set_iter.

Lemma set_add_In (s : list C) (k c : C) :
  In c (set_add s k) <-> In c s \/ c = k.
Proof.
  unfold set_add. destruct (set_mem k s) eqn:Hmem.
  - apply set_mem_In in Hmem. split; [now left|].
    intros [Hin| ->]; assumption.
  - rewrite in_app_iff. cbn [In]. intuition congruence.
Qed.

Lemma update_consistent (x : list F) (y yhat : C) (tau : Z)
  (self : multiclass F C Rng Z) :
  consistent self -> In y (classes self) -> In yhat (classes self) ->
  exists self',
    Perceptron.update self x y yhat tau = Ok self'
    /\ consistent self' /\ classes self' = classes self.
Proof.
  unfold Perceptron.update. revert self.
  induction x as [|f x IH]; intros self Hcons Hy Hyhat.
  - exists self. auto.
  - destruct Hcons as ([Hdef Hinner] & Hnonempty & Hreg). cbn [for_each].
    assert (Hget : exists d ws1,
               getitem (weights self) f = Ok (d, ws1)
               /\ defaulting d = true
               /\ (forall c w, In (c, w) (items d) -> In c (classes self))
               /\ consistent (with_weights self ws1)).
    { unfold getitem. destruct (assoc f (items (weights self))) as [d|] eqn:Hf.
      - exists d, (weights self). split; [reflexivity|]. split; [eauto|]. split.
        + intros c w Hin. apply (Hreg f d c w); [now apply assoc_In|exact Hin].
        + destruct self; repeat split; assumption.
      - rewrite Hdef. exists factory, (setitem (weights self) f factory).
        split; [reflexivity|]. split; [reflexivity|]. split; [intros c w []|].
        repeat split; cbn [with_weights weights classes setitem items defaulting].
        + exact Hdef.
        + intros g d0 Hg. destruct (key_eqb_spec g f) as [->|Hne].
          * rewrite assoc_set_same in Hg. now injection Hg as <-.
          * rewrite assoc_set_other in Hg by exact Hne. now apply (Hinner g).
        + exact Hnonempty.
        + intros g d0 c w Hin Hcw. apply In_assoc_set in Hin.
          destruct Hin as [[_ ->]|Hin]; [destruct Hcw|].
          apply (Hreg g d0 c w); assumption. }
    destruct Hget as (d & ws1 & -> & Hd & Hdreg & Hcons1). cbn [bind].
    assert (Hread : forall (p : dict C Z) (c : C),
               defaulting p = true ->
               (forall c0 w0, In (c0, w0) (items p) -> In c0 (classes self)) ->
               In c (classes self) ->
               exists w p',
                 getitem p c = Ok (w, p') /\ defaulting p' = true
                 /\ (forall c0 w0, In (c0, w0) (items p') -> In c0 (classes self))).
    { intros p c Hp Hpreg Hc. unfold getitem.
      destruct (assoc c (items p)) as [w|].
      - exists w, p. auto.
      - rewrite Hp. exists factory, (setitem p c factory).
        split; [reflexivity|]. split; [exact Hp|].
        intros c0 w0 Hin. cbn [setitem items] in Hin. apply In_assoc_set in Hin.
        destruct Hin as [[-> _]|Hin]; [exact Hc|now apply (Hpreg c0 w0)]. }
    assert (Hwrite : forall (p : dict C Z) (c : C) (v : Z),
               (forall c0 w0, In (c0, w0) (items p) -> In c0 (classes self)) ->
               In c (classes self) ->
               forall c0 w0, In (c0, w0) (items (setitem p c v)) ->
                             In c0 (classes self)).
    { intros p c v Hpreg Hc c0 w0 Hin. cbn [setitem items] in Hin.
      apply In_assoc_set in Hin.
      destruct Hin as [[-> _]|Hin]; [exact Hc|now apply (Hpreg c0 w0)]. }
    destruct (Hread d y Hd Hdreg Hy) as (w & p & -> & Hp & Hpreg). cbn [bind].
    destruct (Hread (setitem p y (w + tau)) yhat Hp (Hwrite p y _ Hpreg Hy) Hyhat)
      as (w' & p' & -> & Hp' & Hpreg').
    cbn [bind].
    destruct Hcons1 as ([Hdef1 Hinner1] & _ & Hreg1).
    cbn [with_weights weights classes] in Hdef1, Hinner1, Hreg1.
    destruct (IH (with_weights self (setitem ws1 f (setitem p' yhat (w' - tau)))))
      as (self' & Hrun & Hcons' & Hcl).
    + repeat split; cbn [with_weights weights classes setitem items defaulting].
      * exact Hdef1.
      * intros g d0 Hg. destruct (key_eqb_spec g f) as [->|Hne].
        -- rewrite assoc_set_same in Hg. injection Hg as <-. exact Hp'.
        -- rewrite assoc_set_other in Hg by exact Hne. now apply (Hinner1 g).
      * exact Hnonempty.
      * intros g d0 c w0 Hin Hcw. apply In_assoc_set in Hin.
        destruct Hin as [[_ ->]|Hin].
        -- now apply (Hwrite p' yhat (w' - tau) Hpreg' Hyhat c w0).
        -- now apply (Hreg1 g d0 c w0).
    + exact Hy.
    + exact Hyhat.
    + exists self'. split; [exact Hrun|]. split; [exact Hcons'|exact Hcl].
Qed.

(** One training step on a consistent model: what the results on training
    below rest on. *)
Lemma fit_one_consistent (x : list F) (y : C) (self : multiclass F C Rng Z) :
  consistent self ->
  exists yhat self',
    Perceptron_fit_one set_iter self x y = Ok (yhat, self')
    /\ consistent self'
    /\ classes self' = set_add (classes self) y
    /\ In yhat (classes self').
Proof.
  intros (Htrain & Hnonempty & Hreg).
  unfold Perceptron_fit_one, Perceptron.fit_one, Perceptron_predict, Perceptron.predict.
  set (self1 := with_classes self (set_add (classes self) y)).
  assert (Hcons1 : consistent self1).
  { repeat split; try apply Htrain.
    - cbn [self1 with_classes classes]. intro Hempty.
      assert (Hin : In y (set_add (classes self) y)) by (apply set_add_In; now right).
      rewrite Hempty in Hin. destruct Hin.
    - intros f d c w Hin Hcw. cbn [self1 with_classes classes].
      apply set_add_In. left. now apply (Hreg f d c w). }
  destruct (scores_returns set_iter set_iter_ok x self1 Hcons1)
    as (scores & self2 & -> & Hcons2 & Hcl2 & Hkeys).
  cbn [bind].
  destruct (max_by_value_nonempty (items scores)) as ([yhat v] & -> & Hin).
  { destruct Hcons1 as (_ & Hne & _). intro Hempty.
    destruct (classes self1) as [|c0 rest] eqn:Hcls; [easy|].
    assert (Hc0 : In c0 (map fst (items scores))) by (apply Hkeys; now left).
    rewrite Hempty in Hc0. destruct Hc0. }
  cbn [bind].
  assert (Hyhat : In yhat (classes self2)).
  { rewrite Hcl2. apply Hkeys. change yhat with (fst (yhat, v)). now apply in_map. }
  assert (Hy : In y (classes self2)).
  { rewrite Hcl2. cbn [self1 with_classes classes]. apply set_add_In. now right. }
  destruct (negb (key_eqb y yhat)).
  - destruct (update_consistent x y yhat 1 self2 Hcons2 Hy Hyhat)
      as (self3 & -> & Hcons3 & Hcl3).
    cbn [bind]. exists yhat, self3. repeat split; try apply Hcons3.
    + now rewrite Hcl3, Hcl2.
    + now rewrite Hcl3.
  - exists yhat, self2. repeat split; try apply Hcons2; assumption.
Qed.

End TrainingReturns.

(** ** Training runs that cannot fail *)

Lemma for_each_returns {A S : Type} (Inv : S -> Prop) (body : S -> A -> result S) :
  (forall s a, Inv s -> exists s', body s a = Ok s' /\ Inv s') ->
  forall l s, Inv s -> exists s', for_each body l s = Ok s' /\ Inv s'.
Proof.
  intros Hbody l. induction l as [|a l IH]; intros s Hs.
  - exists s. auto.
  - cbn [for_each]. destruct (Hbody s a Hs) as (s1 & -> & Hs1). cbn [bind].
    now apply IH.
Qed.

Section FitReturns.
Context {T X G P Rng Acc : Type}.
Variable src : random_source Rng.
Variable clock : nat -> Q.
Variable new_accuracy : Acc.
Variable ratio : Acc -> Q.
Variable get_random : T -> Rng.
Variable set_random : T -> Rng -> T.
Variable self_fit_one : T -> X -> G -> result (P * T).
Variable self_finalize : T -> result T.
Variable tally : Acc -> G -> P -> Acc.
(** What every step of the run keeps, what [finalize] ensures, and the
    instances the steps are safe on. *)
Variable Inv : T -> Prop.
Variable Post : T -> Prop.
Variable Good : X * G -> Prop.
Hypothesis set_random_keeps_inv :
  forall self rng, Inv self -> Inv (set_random self rng).
Hypothesis shuffle_keeps_good :
  forall rng data, Forall Good data -> Forall Good (fst (shuffle src rng data)).
Hypothesis fit_one_returns :
  forall self x y, Inv self -> Good (x, y) ->
    exists yhat self', self_fit_one self x y = Ok (yhat, self') /\ Inv self'.
Hypothesis finalize_returns :
  forall self, Inv self -> exists self', self_finalize self = Ok self' /\ Post self'.

Lemma instances_return (data : list (X * G)) :
  forall (self : T) (accuracy : Acc),
    Inv self -> Forall Good data ->
    exists self' accuracy',
      for_each
        (fun (st : T * Acc) (instance : X * G) =>
           let (self, accuracy) := st in
           let (x, y) := instance in
           '(yhat, self) <- self_fit_one self x y ;;
           Ok (self, tally accuracy y yhat))
        data (self, accuracy) = Ok (self', accuracy')
      /\ Inv self'.
Proof.
  induction data as [|[x y] data IH]; intros self accuracy Hself Hgood.
  - exists self, accuracy. auto.
  - apply Forall_cons_iff in Hgood. destruct Hgood as [Hxy Hgood].
    cbn [for_each].
    destruct (fit_one_returns self x y Hself Hxy) as (yhat & self1 & -> & Hself1).
    cbn [bind]. now apply IH.
Qed.

Lemma epoch_pass_returns (self : T) (data : list (X * G)) (w : world) (epoch : Z) :
  Inv self -> Forall Good data ->
  exists self' data' w',
    Classifier.epoch_pass src clock new_accuracy ratio get_random set_random
      self_fit_one tally (self, data, w) epoch = Ok (self', data', w')
    /\ Inv self' /\ Forall Good data'.
Proof.
  intros Hself Hgood. unfold Classifier.epoch_pass, read_clock.
  pose proof (shuffle_keeps_good (get_random self) data Hgood) as Hshuffled.
  destruct (shuffle src (get_random self) data) as [shuffled rng].
  cbn [fst] in Hshuffled.
  destruct (instances_return shuffled (set_random self rng) new_accuracy)
    as (self' & accuracy & -> & Hself');
    [now apply set_random_keeps_inv|exact Hshuffled|].
  cbn [bind]. do 3 eexists. split; [reflexivity|]. auto.
Qed.

Lemma fit_with_returns (self : T) (Xs : list X) (Ys : list G) (epochs : Z)
  (w : world) :
  Inv self -> Forall Good (combine Xs Ys) ->
  exists self' w',
    Classifier.fit_with src clock new_accuracy ratio get_random set_random
      self_fit_one self_finalize tally self Xs Ys epochs w = Ok (self', w')
    /\ Post self'.
Proof.
  intros Hself Hgood. unfold Classifier.fit_with, Classifier.run_epochs.
  destruct (for_each_returns
              (fun st : T * list (X * G) * world =>
                 Inv (fst (fst st)) /\ Forall Good (snd (fst st)))
              (Classifier.epoch_pass src clock new_accuracy ratio get_random
                 set_random self_fit_one tally)
              ltac:(intros [[s d] w0] epoch [Hs Hd];
                    destruct (epoch_pass_returns s d w0 epoch Hs Hd)
                      as (s' & d' & w' & -> & Hs' & Hd');
                    eexists; split; [reflexivity|split; [exact Hs'|exact Hd']])
              (py_range 1 (1 + epochs))
              (self, combine Xs Ys, emit w (Info_starting epochs))
              (conj Hself Hgood))
    as ([[self1 data1] w1] & -> & Hself1 & _).
  cbn [bind]. cbn [fst] in Hself1.
  destruct (finalize_returns self1 Hself1) as (self' & -> & Hpost).
  cbn [bind]. exists self', w1. auto.
Qed.

End FitReturns.

Section MulticlassTraining.
Context {F C Rng Acc : Type} `{Hashable F} `{Hashable C}.

Lemma new_model_consistent (src : random_source Rng) (default : C)
  (seed : option Z) :
  consistent (Perceptron.__init__ (F := F) src default seed).
Proof.
  repeat split; cbn; try discriminate.
  intros f d c w [].
Qed.

(** X1: one training step of the multiclass perceptron on a model that the
    constructor and earlier steps produced cannot fail.  [fit_one(x, y)]
    returns a class, the class it returns is registered, the gold label
    [y] has been added to the class set and nothing else has, and the
    model is again one on which the next step cannot fail. *)
Theorem multiclass_fit_one_returns_registered_class
  (set_iter : list C -> list C) (self : multiclass F C Rng Z) (x : list F) (y : C) :
  iter_ok set_iter ->
  consistent self ->
  exists yhat self',
    Perceptron_fit_one set_iter self x y = Ok (yhat, self')
    /\ In yhat (classes self')
    /\ classes self' = set_add (classes self) y
    /\ consistent self'.
Proof.
  intros Hiter Hcons.
  destruct (fit_one_consistent set_iter Hiter x y self Hcons)
    as (yhat & self' & Hrun & Hcons' & Hcl & Hyhat).
  exists yhat, self'. auto.
Qed.

(** X2: training a new multiclass perceptron never raises: for every
    data set, every number of epochs and every admissible iteration order
    of the class set, [fit] on the model the constructor returns runs
    through all epochs and [finalize], and hands back a model whose
    dictionaries are plain and hold no weight 0.  (The collaborators of
    [fit], the accuracy record, the clock and the log, are taken to
    return.) *)
Theorem multiclass_fit_returns
  (set_iter : list C -> list C) (src : random_source Rng) (clock : nat -> Q)
  (acc : accuracy_api Acc C C) (default : C) (seed : option Z)
  (Xs : list (list F)) (Ys : list C) (epochs : Z) (w : world) :
  iter_ok set_iter ->
  exists self' w',
    Perceptron_fit set_iter src clock acc
      (Perceptron.__init__ src default seed) Xs Ys epochs w = Ok (self', w')
    /\ defaulting (weights self') = false
    /\ forall f d c v,
         In (f, d) (items (weights self')) -> In (c, v) (items d) ->
         defaulting d = false /\ v <> 0.
Proof.
  intro Hiter. unfold Perceptron_fit, Classifier.fit.
  apply (fit_with_returns src clock (Accuracy acc) (acc_accuracy acc)
           (@random F C Rng Z) with_random
           (Perceptron_fit_one set_iter) Perceptron.finalize (acc_update acc)
           consistent
           (fun self' : multiclass F C Rng Z =>
              defaulting (weights self') = false
              /\ forall f d c v,
                   In (f, d) (items (weights self')) -> In (c, v) (items d) ->
                   defaulting d = false /\ v <> 0)
           (fun _ => True)).
  - intros self rng Hcons. destruct self. exact Hcons.
  - intros rng data _. apply Forall_forall. intros instance _. exact I.
  - intros self x y Hcons _.
    destruct (fit_one_consistent set_iter Hiter x y self Hcons)
      as (yhat & self' & Hrun & Hcons' & _).
    exists yhat, self'. auto.
  - intros self _. eexists. split; [reflexivity|].
    cbn [with_weights weights items defaulting]. split; [reflexivity|].
    intros f d c v Hin Hcv. apply in_map_iff in Hin.
    destruct Hin as ([f0 d0] & [= <- <-] & _).
    cbn [items defaulting] in *. split; [reflexivity|].
    apply filter_In in Hcv. destruct Hcv as [_ Hnz]. cbn [snd] in Hnz.
    intros ->. discriminate Hnz.
  - apply new_model_consistent.
  - apply Forall_forall. intros instance _. exact I.
Qed.

End MulticlassTraining.

Lemma multiclass_fit_one_returns_registered_class_witness :
  iter_ok (@insertion_order string)
  /\ consistent (Perceptron.__init__ (F := string) example_source "B" (Some 0))
  /\ exists yhat self',
       Perceptron_fit_one insertion_order
         (Perceptron.__init__ example_source "B" (Some 0)) ["f"] "A"
       = Ok (yhat, self')
       /\ In yhat (classes self')
       /\ classes self' = set_add ["B"] "A"
       /\ consistent self'.
Proof.
  split; [exact insertion_order_ok|].
  split; [apply new_model_consistent|].
  exact (multiclass_fit_one_returns_registered_class insertion_order
           (Perceptron.__init__ example_source "B" (Some 0)) ["f"] "A"
           insertion_order_ok (new_model_consistent example_source "B" (Some 0))).
Defined.

Lemma multiclass_fit_returns_witness :
  iter_ok (@insertion_order string)
  /\ exists self' w',
       Perceptron_fit insertion_order example_source example_clock
         (example_accuracy (fun y yhat : string => key_eqb y yhat))
         (Perceptron.__init__ example_source "B" (Some 0))
         [["f"]; ["g"]] ["A"; "B"] 2 {| clock_reads := 0; emitted := [] |}
       = Ok (self', w')
       /\ defaulting (weights self') = false
       /\ forall f d c v,
            In (f, d) (items (weights self')) -> In (c, v) (items d) ->
            defaulting d = false /\ v <> 0.
Proof.
  split; [exact insertion_order_ok|].
  exact (multiclass_fit_returns insertion_order example_source example_clock
           (example_accuracy (fun y yhat : string => key_eqb y yhat))
           "B" (Some 0) [["f"]; ["g"]] ["A"; "B"] 2
           {| clock_reads := 0; emitted := [] |} insertion_order_ok).
Defined.

(** ** The learning rule of the binary perceptron *)

(** X3: [fit_one] of the binary perceptron is mistake-driven.  On a model
    under training it always returns; the prediction is [True] exactly
    when the stored weights of the features of [x], counted with their
    multiplicity, sum to at least 0; when the gold label [y] equals the
    prediction no weight changes, and otherwise every weight moves by the
    number of times its feature occurs in [x], downwards when [y] is the
    object [False] and upwards for every other [y]. *)
Theorem binary_fit_one_learning_rule {F Rng : Type} `{Hashable F}
  (self : binary F Rng Z) (x : list F) (y : pyobj) :
  defaulting (b_weights self) = true ->
  let yhat := sum_over (peek (b_weights self)) x >=? 0 in
  exists self',
    BinaryPerceptron_fit_one self x y = Ok (yhat, self')
    /\ defaulting (b_weights self') = true
    /\ forall f,
         peek (b_weights self') f
         = peek (b_weights self) f
           + (if py_eq y (PyBool yhat) then 0
              else (if is_False y then -1 else 1) * occurrences f x).
Proof.
  intros Hdef yhat.
  unfold BinaryPerceptron_fit_one, BinaryPerceptron.fit_one, BinaryPerceptron.predict.
  destruct (binary_score_value x self Hdef) as (self1 & -> & Hdef1 & Hpeek1).
  cbn [bind]. fold yhat.
  destruct (py_eq y (PyBool yhat)); cbn [negb].
  - exists self1. repeat split; [exact Hdef1|].
    intro f. rewrite Hpeek1. lia.
  - destruct (binary_update_spec x y 1 self1 Hdef1) as (self2 & -> & Hdef2 & Hpeek2).
    cbn [bind]. exists self2. repeat split; [exact Hdef2|].
    intro f. rewrite Hpeek2, Hpeek1. destruct (is_False y); lia.
Qed.

Lemma binary_fit_one_learning_rule_witness :
  defaulting (b_weights (BinaryPerceptron.__init__ (F := string) example_source None))
  = true
  /\ exists self',
       BinaryPerceptron_fit_one
         (BinaryPerceptron.__init__ example_source None) ["a"; "a"; "b"]
         (PyBool false) = Ok (true, self')
       /\ defaulting (b_weights self') = true
       /\ forall f,
            peek (b_weights self') f
            = 0 + (-1) * occurrences f ["a"; "a"; "b"].
Proof.
  split; [reflexivity|].
  exact (binary_fit_one_learning_rule
           (BinaryPerceptron.__init__ example_source None) ["a"; "a"; "b"]
           (PyBool false) eq_refl).
Defined.

(** ** What the multiclass perceptron computes *)

Lemma for_each_invariant {A S : Type} (Inv : S -> Prop) (body : S -> A -> result S) :
  (forall s a s', Inv s -> body s a = Ok s' -> Inv s') ->
  forall l s s', Inv s -> for_each body l s = Ok s' -> Inv s'.
Proof.
  intros Hbody l. induction l as [|a l IH]; intros s s' Hs Hrun.
  - apply Ok_inj in Hrun. now subst.
  - cbn [for_each] in Hrun. destruct (body s a) as [s1|e] eqn:Hstep;
      [|discriminate].
    cbn [bind] in Hrun. apply (IH s1 s'); [|exact Hrun].
    exact (Hbody s a s1 Hs Hstep).
Qed.

Section MulticlassValues.
Context {F C Rng : Type} `{Hashable F} `{Hashable C}.

Lemma sum_over_same (g g' : F -> Z) (x : list F) :
  (forall f, g' f = g f) -> sum_over g' x = sum_over g x.
Proof.
  intro Hext. induction x as [|f x IH]; [reflexivity|].
  cbn [sum_over fold_right]. fold (sum_over g x) (sum_over g' x).
  now rewrite IH, Hext.
Qed.

Lemma assoc_absent (c : C) (row : list (C * Z)) :
  ~ In c (map fst row) -> assoc c row = None.
Proof.
  intro Hnotin. destruct (assoc c row) as [w|] eqn:Hc; [|reflexivity].
  exfalso. apply Hnotin. apply assoc_keys. congruence.
Qed.

(** The inner loop of [scores] adds to every entry of the table what the
    row holds for its class. *)
Lemma add_all_value (row : list (C * Z)) (table : dict C Z) :
  NoDup (map fst row) ->
  (forall c w, In (c, w) row -> assoc c (items table) <> None) ->
  exists table',
    add_all table row = Ok table'
    /\ forall c,
         assoc c (items table')
         = option_map
             (fun v => v + match assoc c row with Some w => w | None => 0 end)
             (assoc c (items table)).
Proof.
  revert table. induction row as [|[cls w] rest IH]; intros table Hnodup Hreg.
  - exists table. split; [reflexivity|]. intro c. cbn [assoc].
    destruct (assoc c (items table)); cbn [option_map]; [f_equal; lia|reflexivity].
  - cbn [map fst] in Hnodup. apply NoDup_cons_iff in Hnodup.
    destruct Hnodup as [Hnotin Hnodup].
    unfold add_all. cbn [for_each]. unfold getitem.
    destruct (assoc cls (items table)) as [old|] eqn:Hcls;
      [|exfalso; apply (Hreg cls w); [now left|exact Hcls]].
    cbn [bind]. fold (add_all (setitem table cls (old + w)) rest).
    destruct (IH (setitem table cls (old + w)) Hnodup) as (table' & Hrun & Hval).
    { intros c w0 Hin. cbn [setitem items]. apply assoc_set_keeps.
      apply (Hreg c w0). now right. }
    exists table'. split; [exact Hrun|]. intro c. rewrite Hval.
    cbn [setitem items assoc].
    destruct (key_eqb_spec c cls) as [->|Hne].
    + rewrite assoc_set_same, Hcls, (assoc_absent cls rest Hnotin).
      cbn [option_map]. f_equal. lia.
    + rewrite assoc_set_other by exact Hne. reflexivity.
Qed.

(** A read of [self.weights[f]] on a model under training. *)
Lemma read_row (self : multiclass F C Rng Z) (f : F) :
  trainable self ->
  exists ws,
    getitem (weights self) f = Ok (peek (weights self) f, ws)
    /\ trainable (with_weights self ws)
    /\ (forall g, peek ws g = peek (weights self) g)
    /\ (forall g d, In (g, d) (items ws) ->
                    In (g, d) (items (weights self)) \/ d = factory).
Proof.
  intros [Hdef Hinner].
  unfold getitem, peek at 1.
  destruct (assoc f (items (weights self))) as [d|] eqn:Hf.
  - exists (weights self). repeat split; auto.
  - rewrite Hdef. exists (setitem (weights self) f factory).
    split; [reflexivity|]. split; [|split].
    + split; cbn [with_weights weights setitem items defaulting]; [exact Hdef|].
      intros g d0 Hg. destruct (key_eqb_spec g f) as [->|Hne].
      * rewrite assoc_set_same in Hg. now injection Hg as <-.
      * rewrite assoc_set_other in Hg by exact Hne. now apply (Hinner g).
    + intro g. rewrite peek_setitem.
      destruct (key_eqb_spec g f) as [->|_]; [|reflexivity].
      unfold peek. now rewrite Hf.
    + intros g d Hin. cbn [setitem items] in Hin. apply In_assoc_set in Hin.
      destruct Hin as [[_ ->]|Hin]; [now right|now left].
Qed.

Lemma peek_stored (ws : dict F (dict C Z)) (f : F) :
  In (f, peek ws f) (items ws) \/ peek ws f = factory.
Proof.
  unfold peek. destruct (assoc f (items ws)) as [d|] eqn:Hf.
  - left. now apply assoc_In.
  - now right.
Qed.

(** The loop of [scores], from any table that has an entry for every
    class under which a weight is stored. *)
Lemma scores_loop_value (x : list F) :
  forall (self : multiclass F C Rng Z) (table : dict C Z),
    trainable self ->
    rows_well_keyed (weights self) ->
    (forall f d c w, In (f, d) (items (weights self)) -> In (c, w) (items d) ->
                     assoc c (items table) <> None) ->
    exists table' self',
      for_each
        (fun (acc : dict C Z * multiclass F C Rng Z) feature =>
           let (scores, self) := acc in
           '(clsweight, ws) <- getitem (weights self) feature ;;
           scores <- add_all scores (items clsweight) ;;
           Ok (scores, with_weights self ws))
        x (table, self) = Ok (table', self')
      /\ forall c,
           assoc c (items table')
           = option_map
               (fun v => v + sum_over (fun f => weight_of (weights self) f c) x)
               (assoc c (items table)).
Proof.
  induction x as [|f x IH]; intros self table Htrain Hkeyed Hreg.
  - exists table, self. split; [reflexivity|]. intro c. cbn [sum_over fold_right].
    destruct (assoc c (items table)); cbn [option_map]; [f_equal; lia|reflexivity].
  - cbn [for_each].
    destruct (read_row self f Htrain) as (ws & -> & Htrain1 & Hpeek & Hstored).
    cbn [bind].
    destruct (add_all_value (items (peek (weights self) f)) table)
      as (table1 & -> & Hval1).
    { destruct (peek_stored (weights self) f) as [Hin| ->].
      - exact (Hkeyed _ _ Hin).
      - constructor. }
    { intros c w Hin. destruct (peek_stored (weights self) f) as [Hrow|Hrow].
      - exact (Hreg _ _ c w Hrow Hin).
      - rewrite Hrow in Hin. destruct Hin. }
    cbn [bind].
    destruct (IH (with_weights self ws) table1 Htrain1)
      as (table' & self' & Hrun & Hval).
    { intros g d Hin. cbn [with_weights weights] in Hin.
      destruct (Hstored g d Hin) as [Hold| ->]; [exact (Hkeyed _ _ Hold)|constructor]. }
    { intros g d c w Hin Hcw. cbn [with_weights weights] in Hin.
      rewrite Hval1.
      destruct (Hstored g d Hin) as [Hold| ->]; [|destruct Hcw].
      pose proof (Hreg g d c w Hold Hcw) as Hpresent.
      destruct (assoc c (items table)); [discriminate|congruence]. }
    exists table', self'. split; [exact Hrun|]. intro c.
    rewrite Hval, Hval1. cbn [with_weights weights sum_over fold_right].
    fold (sum_over (fun f0 => weight_of (weights self) f0 c) x).
    rewrite (sum_over_same (fun f0 => weight_of (weights self) f0 c)
               (fun f0 => weight_of ws f0 c) x)
      by (intro g; unfold weight_of; now rewrite Hpeek).
    assert (Hw : weight_of (weights self) f c
                 = match assoc c (items (peek (weights self) f)) with
                   | Some w => w
                   | None => 0
                   end) by reflexivity.
    rewrite Hw.
    destruct (assoc c (items table)); cbn [option_map]; [f_equal; lia|reflexivity].
Qed.

End MulticlassValues.

Section MulticlassRule.
Context {F C Rng : Type} `{Hashable F} `{Hashable C}.

Lemma trainable_row (self : multiclass F C Rng Z) (f : F) :
  trainable self -> defaulting (peek (weights self) f) = true.
Proof.
  intros [_ Hinner]. unfold peek.
  destruct (assoc f (items (weights self))) as [d|] eqn:Hf; [|reflexivity].
  exact (Hinner f d Hf).
Qed.

(** [scores] stores nothing but empty rows: every read of a weight yields
    afterwards what it yielded before. *)
Lemma scores_keeps_reads (set_iter : list C -> list C)
  (self self' : multiclass F C Rng Z) (x : list F) (table : dict C Z) :
  trainable self ->
  Perceptron.scores set_iter self x = Ok (table, self') ->
  trainable self'
  /\ classes self' = classes self
  /\ forall g, peek (weights self') g = peek (weights self) g.
Proof.
  intros Htrain Hrun. unfold Perceptron.scores in Hrun.
  apply (for_each_invariant
           (fun st : dict C Z * multiclass F C Rng Z =>
              trainable (snd st)
              /\ classes (snd st) = classes self
              /\ forall g, peek (weights (snd st)) g = peek (weights self) g))
    in Hrun; [exact Hrun| |cbn [snd]; auto].
  intros [t0 s0] f [t1 s1] (Ht & Hc & Hp) Hstep. cbn [snd] in *.
  destruct (read_row s0 f Ht) as (ws & Hget & Htrain1 & Hpeek & _).
  rewrite Hget in Hstep. cbn [bind] in Hstep.
  destruct (for_each _ (items (peek (weights s0) f)) t0) as [t2|e];
    [|discriminate].
  cbn [bind] in Hstep. apply Ok_inj in Hstep. injection Hstep as _ <-.
  split; [exact Htrain1|]. split; [exact Hc|].
  intro g. cbn [with_weights weights]. now rewrite Hpeek.
Qed.

(** [update] moves the weight of every feature of [x] for [y] up and for
    [yhat] down, once per occurrence of the feature. *)
Lemma update_weights (x : list F) (y yhat : C) (tau : Z)
  (self : multiclass F C Rng Z) :
  trainable self ->
  exists self',
    Perceptron.update self x y yhat tau = Ok self'
    /\ trainable self'
    /\ forall f c,
         weight_of (weights self') f c
         = weight_of (weights self) f c
           + occurrences f x * tau * (indicator c y - indicator c yhat).
Proof.
  unfold Perceptron.update. revert self.
  induction x as [|g x IH]; intros self Htrain.
  - exists self. repeat split; try apply Htrain.
    intros f c. unfold occurrences. cbn. lia.
  - cbn [for_each].
    destruct (read_row self g Htrain) as (ws & -> & Htrain1 & Hpeek & _).
    cbn [bind].
    pose proof (trainable_row self g Htrain) as Hrow.
    destruct (getitem_defaultdict (peek (weights self) g) y Hrow)
      as (row1 & -> & Hrow1 & Hpeek1).
    cbn [bind].
    destruct (getitem_defaultdict
                (setitem row1 y (peek (peek (weights self) g) y + tau)) yhat Hrow1)
      as (row2 & -> & Hrow2 & Hpeek2).
    cbn [bind].
    match goal with
    | |- context [with_weights self (setitem ws g ?r)] => set (row3 := r)
    end.
    destruct (IH (with_weights self (setitem ws g row3)))
      as (self' & Hrun & Htrain' & Hval).
    { destruct Htrain1 as [Hdef1 Hinner1]. cbn [with_weights weights] in *.
      split; cbn [with_weights weights setitem items defaulting]; [exact Hdef1|].
      intros f d Hf. destruct (key_eqb_spec f g) as [->|Hne].
      - rewrite assoc_set_same in Hf. injection Hf as <-. exact Hrow2.
      - rewrite assoc_set_other in Hf by exact Hne. now apply (Hinner1 f). }
    exists self'. split; [exact Hrun|]. split; [exact Htrain'|].
    intros f c. rewrite Hval. unfold weight_of. cbn [with_weights weights].
    rewrite peek_setitem. unfold occurrences. cbn [filter].
    destruct (key_eqb_spec f g) as [->|_]; cbn [List.length].
    + subst row3. rewrite peek_setitem, Hpeek2, !peek_setitem, Hpeek1.
      unfold indicator.
      destruct (key_eqb_spec c yhat) as [Hcyhat|Hcyhat],
               (key_eqb_spec c y) as [Hcy|Hcy]; subst;
        rewrite ?key_eqb_refl, ?key_eqb_neq by congruence;
        rewrite ?Hpeek1, Nat2Z.inj_succ; ring.
    + rewrite Hpeek. lia.
Qed.

(** X4: what [scores] returns.  On a model under training whose weights
    are stored under registered classes, the table has an entry for every
    registered class and for no other, and the entry of class [c] is the
    sum over the features of [x], counted with their multiplicity, of the
    weight stored for the feature and [c] (0 where nothing is stored). *)
Theorem multiclass_scores_sum_stored_weights
  (set_iter : list C -> list C) (self : multiclass F C Rng Z) (x : list F) :
  iter_ok set_iter ->
  consistent self ->
  rows_well_keyed (weights self) ->
  exists table self',
    Perceptron.scores set_iter self x = Ok (table, self')
    /\ forall c,
         assoc c (items table)
         = if set_mem c (classes self)
           then Some (sum_over (fun f => weight_of (weights self) f c) x)
           else None.
Proof.
  intros Hiter (Htrain & _ & Hreg) Hkeyed. unfold Perceptron.scores.
  destruct (scores_loop_value x self (fromkeys (set_iter (classes self)) 0)
              Htrain Hkeyed) as (table & self' & Hrun & Hval).
  { intros f d c w Hin Hcw. apply fromkeys_keys.
    apply (Permutation_in _ (Permutation_sym (Hiter (classes self)))).
    exact (Hreg f d c w Hin Hcw). }
  exists table, self'. split; [exact Hrun|]. intro c.
  rewrite Hval, assoc_fromkeys, (set_mem_iter set_iter (classes self) c Hiter).
  destruct (set_mem c (classes self)); reflexivity.
Qed.

(** X5: the learning rule of the multiclass perceptron.  When
    [fit_one(x, y)] returns the prediction [yhat] on a model under
    training, a correct prediction leaves every weight as it was, and a
    wrong one moves the weight of every feature for the gold label [y] up
    and for [yhat] down, by the number of times the feature occurs in
    [x]; no other weight changes. *)
Theorem multiclass_fit_one_learning_rule
  (set_iter : list C -> list C) (self self' : multiclass F C Rng Z)
  (x : list F) (y yhat : C) :
  trainable self ->
  Perceptron_fit_one set_iter self x y = Ok (yhat, self') ->
  trainable self'
  /\ forall f c,
       weight_of (weights self') f c
       = weight_of (weights self) f c
         + (if key_eqb y yhat then 0
            else occurrences f x * (indicator c y - indicator c yhat)).
Proof.
  intros Htrain Hrun.
  unfold Perceptron_fit_one, Perceptron.fit_one, Perceptron_predict,
    Perceptron.predict in Hrun.
  set (self1 := with_classes self (set_add (classes self) y)) in Hrun.
  assert (Htrain1 : trainable self1) by (destruct self; exact Htrain).
  destruct (Perceptron.scores set_iter self1 x) as [[table self2]|e] eqn:Hscores;
    [|discriminate].
  cbn [bind] in Hrun.
  destruct (scores_keeps_reads set_iter self1 self2 x table Htrain1 Hscores)
    as (Htrain2 & _ & Hpeek2).
  destruct (max_by_value (items table)) as [[best v]|e]; [|discriminate].
  cbn [bind] in Hrun.
  destruct (key_eqb y best) eqn:Hsame; cbn [negb] in Hrun.
  - apply Ok_inj in Hrun. injection Hrun as <- <-. rewrite Hsame.
    split; [exact Htrain2|]. intros f c. unfold weight_of.
    rewrite Hpeek2. cbn [self1 with_classes weights]. lia.
  - destruct (update_weights x y best 1 self2 Htrain2)
      as (self3 & Hupd & Htrain3 & Hval).
    rewrite Hupd in Hrun. cbn [bind] in Hrun.
    apply Ok_inj in Hrun. injection Hrun as <- <-. rewrite Hsame.
    split; [exact Htrain3|]. intros f c. rewrite Hval. unfold weight_of.
    rewrite Hpeek2. cbn [self1 with_classes weights]. lia.
Qed.

(** X6: [predict] returns the first maximum.  When [predict(x)] returns,
    the class it returns has an entry in the table of [scores(x)], every
    entry before it in the table is strictly smaller, and no entry after
    it is larger: among classes of equal score the one the table lists
    first wins. *)
Theorem multiclass_predict_is_first_argmax
  (set_iter : list C -> list C) (self self' : multiclass F C Rng Z)
  (x : list F) (yhat : C) :
  Perceptron_predict set_iter self x = Ok (yhat, self') ->
  exists table pre v post,
    Perceptron.scores set_iter self x = Ok (table, self')
    /\ items table = pre ++ (yhat, v) :: post
    /\ (forall c w, In (c, w) pre -> w < v)
    /\ (forall c w, In (c, w) post -> w <= v).
Proof.
  unfold Perceptron_predict, Perceptron.predict. intro Hrun.
  destruct (Perceptron.scores set_iter self x) as [[table self1]|e];
    [|discriminate].
  cbn [bind] in Hrun. unfold max_by_value in Hrun.
  destruct (items table) as [|first rest] eqn:Hitems; [discriminate|].
  cbn [bind] in Hrun.
  destruct (max_from_split first rest) as (pre & post & Hsplit & Hpre & Hpost).
  destruct (max_from first rest) as [best v].
  apply Ok_inj in Hrun. injection Hrun as -> ->.
  exists table, pre, v, post. rewrite Hitems.
  split; [reflexivity|]. split; [exact Hsplit|]. split.
  - intros c w Hin. exact (Hpre (c, w) Hin).
  - intros c w Hin. exact (Hpost (c, w) Hin).
Qed.

End MulticlassRule.

Lemma example_model_consistent : consistent example_model.
Proof.
  split; [split|split].
  - reflexivity.
  - intros f d. cbn. destruct (f =? "f")%string; [|discriminate].
    now intros [= <-].
  - discriminate.
  - intros f d c w [[= <- <-]|[]] [[= <- <-]|[[= <- <-]|[]]]; cbn; auto.
Qed.

Lemma example_model_well_keyed : rows_well_keyed (weights example_model).
Proof.
  intros f d [[= <- <-]|[]]. unfold well_keyed. cbn.
  repeat constructor; cbn; intuition discriminate.
Qed.

Lemma multiclass_scores_sum_stored_weights_witness :
  iter_ok (@insertion_order string)
  /\ consistent example_model
  /\ rows_well_keyed (weights example_model)
  /\ exists table self',
       Perceptron.scores insertion_order example_model ["f"; "g"; "f"]
       = Ok (table, self')
       /\ forall c,
            assoc c (items table)
            = if set_mem c ["B"; "A"]
              then Some (sum_over (fun f => weight_of (weights example_model) f c)
                                  ["f"; "g"; "f"])
              else None.
Proof.
  split; [exact insertion_order_ok|].
  split; [exact example_model_consistent|].
  split; [exact example_model_well_keyed|].
  exact (multiclass_scores_sum_stored_weights insertion_order example_model
           ["f"; "g"; "f"] insertion_order_ok example_model_consistent
           example_model_well_keyed).
Defined.

Lemma multiclass_fit_one_learning_rule_witness :
  trainable (Perceptron.__init__ (F := string) example_source "B" (Some 0))
  /\ exists self',
       Perceptron_fit_one insertion_order
         (Perceptron.__init__ example_source "B" (Some 0)) ["f"; "f"] "A"
       = Ok ("B", self')
       /\ trainable self'
       /\ forall f c,
            weight_of (weights self') f c
            = 0 + occurrences f ["f"; "f"] * (indicator c "A" - indicator c "B").
Proof.
  assert (Htrain : trainable
                     (Perceptron.__init__ (F := string) example_source "B" (Some 0))).
  { split; [reflexivity|]. intros f d. discriminate. }
  split; [exact Htrain|].
  eexists. split; [reflexivity|].
  exact (multiclass_fit_one_learning_rule insertion_order
           (Perceptron.__init__ example_source "B" (Some 0)) _
           ["f"; "f"] "A" "B" Htrain eq_refl).
Defined.

Lemma multiclass_predict_is_first_argmax_witness :
  exists self',
    Perceptron_predict insertion_order example_model ["f"] = Ok ("A", self')
    /\ exists table pre v post,
         Perceptron.scores insertion_order example_model ["f"] = Ok (table, self')
         /\ items table = pre ++ ("A", v) :: post
         /\ (forall c w, In (c, w) pre -> w < v)
         /\ (forall c w, In (c, w) post -> w <= v).
Proof.
  eexists. split; [reflexivity|].
  exact (multiclass_predict_is_first_argmax insertion_order example_model _
           ["f"] "A" eq_refl).
Defined.

(** ** The finalized multiclass model *)

Section FinalizedModel.
Context {F C Rng : Type} `{Hashable F} `{Hashable C}.

(** What [finalize] makes of a row. *)
Let pruned (clsweight : dict C Z) : dict C Z :=
  {| items := filter (fun cw : C * Z => negb (snd cw =? 0)) (items clsweight);
     defaulting := false |}.

Lemma finalize_rows (self : multiclass F C Rng Z) (f : F) :
  assoc f (items (weights (with_weights self
                             {| items :=
                                  map (fun item : F * dict C Z =>
                                         let (feature, clsweight) := item in
                                         (feature, pruned clsweight))
                                      (items (weights self));
                                defaulting := false |})))
  = option_map pruned (assoc f (items (weights self))).
Proof.
  cbn [with_weights weights items].
  induction (items (weights self)) as [|[g d] l IH]; [reflexivity|].
  cbn [map assoc]. destruct (key_eqb f g); [reflexivity|exact IH].
Qed.

Lemma add_all_error (row : list (C * Z)) (table : dict C Z) (e : exn) :
  add_all table row = Raise e -> e = KeyError.
Proof.
  revert table. induction row as [|[cls w] rest IH]; intros table Hrun;
    [discriminate|].
  unfold add_all in Hrun. cbn [for_each] in Hrun. unfold getitem in Hrun.
  destruct (assoc cls (items table)) as [old|].
  - cbn [bind] in Hrun. exact (IH _ Hrun).
  - destruct (defaulting table).
    + cbn [bind] in Hrun. exact (IH _ Hrun).
    + cbn [bind] in Hrun. now injection Hrun as <-.
Qed.

Lemma scores_of_cons (ws : dict F (dict C Z)) (f : F) (x : list F)
  (table : dict C Z) :
  scores_of ws (f :: x) table
  = match held ws f with
    | Some d => table' <- add_all table (items d) ;; scores_of ws x table'
    | None => Raise KeyError
    end.
Proof.
  unfold scores_of. cbn [for_each]. now destruct (held ws f).
Qed.

Lemma scores_of_unseen (ws : dict F (dict C Z)) (f : F) (x : list F)
  (table : dict C Z) :
  defaulting ws = false -> assoc f (items ws) = None -> In f x ->
  scores_of ws x table = Raise KeyError.
Proof.
  intros Hplain Hunseen. revert table.
  induction x as [|g x IH]; intros table Hin; [destruct Hin|].
  rewrite scores_of_cons. unfold held. rewrite Hplain.
  destruct (assoc g (items ws)) as [d|] eqn:Hg; [|reflexivity].
  destruct (add_all table (items d)) as [table'|e] eqn:Hrow.
  - cbn [bind]. apply IH. destruct Hin as [->|Hin]; [congruence|exact Hin].
  - cbn [bind]. now rewrite (add_all_error _ _ _ Hrow).
Qed.

(** On a plain table, entries of weight 0 add nothing. *)
Lemma add_all_skips_zeros (row : list (C * Z)) (table table' : dict C Z) :
  defaulting table = false ->
  add_all table row = Ok table' ->
  add_all table (filter (fun cw : C * Z => negb (snd cw =? 0)) row) = Ok table'
  /\ defaulting table' = false.
Proof.
  revert table. induction row as [|[cls w] rest IH]; intros table Hplain Hrun.
  - apply Ok_inj in Hrun. subst. auto.
  - unfold add_all in Hrun. cbn [for_each] in Hrun. unfold getitem in Hrun.
    rewrite Hplain in Hrun.
    destruct (assoc cls (items table)) as [old|] eqn:Hcls; [|discriminate].
    cbn [bind] in Hrun. fold (add_all (setitem table cls (old + w)) rest) in Hrun.
    cbn [filter snd]. destruct (Z.eqb_spec w 0) as [->|Hnz]; cbn [negb].
    + assert (Hsame : setitem table cls (old + 0) = table).
      { unfold setitem. rewrite Z.add_0_r, (assoc_set_id cls old _ Hcls).
        now destruct table. }
      rewrite Hsame in Hrun. now apply IH.
    + unfold add_all. cbn [for_each]. unfold getitem. rewrite Hcls.
      cbn [bind]. apply IH; [exact Hplain|exact Hrun].
Qed.

Lemma scores_of_finalized (self : multiclass F C Rng Z) (x : list F)
  (table table' : dict C Z) :
  (forall f, In f x -> assoc f (items (weights self)) <> None) ->
  defaulting table = false ->
  scores_of (weights self) x table = Ok table' ->
  scores_of (weights (with_weights self
                        {| items :=
                             map (fun item : F * dict C Z =>
                                    let (feature, clsweight) := item in
                                    (feature, pruned clsweight))
                                 (items (weights self));
                           defaulting := false |})) x table = Ok table'.
Proof.
  revert table. induction x as [|f x IH]; intros table Hstored Hplain Hrun;
    [exact Hrun|].
  rewrite scores_of_cons in *. unfold held in *.
  rewrite finalize_rows.
  destruct (assoc f (items (weights self))) as [d|] eqn:Hf;
    [|exfalso; apply (Hstored f); [now left|exact Hf]].
  cbn [option_map].
  destruct (add_all table (items d)) as [table1|e] eqn:Hrow; [|discriminate].
  cbn [bind] in Hrun.
  destruct (add_all_skips_zeros _ _ _ Hplain Hrow) as [Hrow' Hplain1].
  cbn [pruned items]. rewrite Hrow'. cbn [bind].
  apply IH; [|exact Hplain1|exact Hrun].
  intros g Hin. apply Hstored. now right.
Qed.

Lemma fromkeys_plain (keys : list C) (v : Z) : defaulting (fromkeys keys v) = false.
Proof.
  unfold fromkeys.
  assert (Hgen : forall d : dict C Z,
             defaulting d = false ->
             defaulting (fold_left (fun d k => setitem d k v) keys d) = false).
  { induction keys as [|k keys IH]; intros d Hd; [exact Hd|].
    cbn [fold_left]. apply IH. exact Hd. }
  now apply Hgen.
Qed.

(** X7: a finalized multiclass model cannot score a vector with a feature
    it holds no row for.  [finalize] replaces the [defaultdict]s by plain
    dictionaries, so when [x] contains a feature that no earlier read or
    update stored, [scores(x)] and [predict(x)] on the finalized model
    raise [KeyError], whatever else [x] contains. *)
Theorem finalized_model_raises_on_unseen_feature
  (set_iter : list C -> list C) (self self' : multiclass F C Rng Z)
  (x : list F) (f : F) :
  Perceptron.finalize self = Ok self' ->
  In f x ->
  assoc f (items (weights self)) = None ->
  Perceptron.scores set_iter self' x = Raise KeyError
  /\ Perceptron_predict set_iter self' x = Raise KeyError.
Proof.
  intros Hfin Hin Hunseen. unfold Perceptron.finalize in Hfin.
  apply Ok_inj in Hfin. subst self'.
  match goal with |- ?r = _ /\ _ => assert (Hscores : r = Raise KeyError) end.
  { pose proof (scores_value set_iter
                  (with_weights self
                     {| items :=
                          map (fun item : F * dict C Z =>
                                 let (feature, clsweight) := item in
                                 (feature, pruned clsweight))
                              (items (weights self));
                        defaulting := false |}) x) as Hval.
    rewrite (scores_of_unseen _ f) in Hval;
      [| reflexivity | rewrite finalize_rows, Hunseen; reflexivity | exact Hin].
    unfold pruned in Hval.
    destruct (Perceptron.scores set_iter _ x) as [r|e]; [discriminate|].
    cbn in Hval. now injection Hval as ->. }
  split; [exact Hscores|].
  unfold Perceptron_predict, Perceptron.predict. now rewrite Hscores.
Qed.

(** X8: [finalize] does not change the scores of a vector whose features
    all have a row.  When [scores(x)] returns a table on the model under
    training and every feature of [x] is stored, [scores(x)] on the
    finalized model returns the same table: the entries [finalize] drops
    are the ones that add 0. *)
Theorem finalize_keeps_scores_of_stored_features
  (set_iter : list C -> list C) (self self' self1 : multiclass F C Rng Z)
  (x : list F) (table : dict C Z) :
  Perceptron.finalize self = Ok self' ->
  (forall f, In f x -> assoc f (items (weights self)) <> None) ->
  Perceptron.scores set_iter self x = Ok (table, self1) ->
  fmap fst (Perceptron.scores set_iter self' x) = Ok table.
Proof.
  intros Hfin Hstored Hrun. unfold Perceptron.finalize in Hfin.
  apply Ok_inj in Hfin. subst self'.
  pose proof (scores_value set_iter self x) as Hval.
  rewrite Hrun in Hval. cbn [fmap bind fst] in Hval. symmetry in Hval.
  rewrite scores_value. cbn [with_weights classes].
  apply (scores_of_finalized self x _ table Hstored); [|exact Hval].
  apply fromkeys_plain.
Qed.

End FinalizedModel.

Lemma finalized_model_raises_on_unseen_feature_witness :
  exists self',
    Perceptron.finalize example_model = Ok self'
    /\ In "g" ["f"; "g"]
    /\ assoc "g" (items (weights example_model)) = None
    /\ Perceptron.scores insertion_order self' ["f"; "g"] = Raise KeyError
    /\ Perceptron_predict insertion_order self' ["f"; "g"] = Raise KeyError.
Proof.
  eexists. split; [reflexivity|].
  split; [right; left; reflexivity|]. split; [reflexivity|].
  refine (finalized_model_raises_on_unseen_feature insertion_order example_model _
            ["f"; "g"] "g" eq_refl _ eq_refl).
  right. left. reflexivity.
Defined.

Lemma finalize_keeps_scores_of_stored_features_witness :
  exists self' table self1,
    Perceptron.finalize example_model = Ok self'
    /\ (forall f, In f ["f"; "f"] -> assoc f (items (weights example_model)) <> None)
    /\ Perceptron.scores insertion_order example_model ["f"; "f"] = Ok (table, self1)
    /\ fmap fst (Perceptron.scores insertion_order self' ["f"; "f"]) = Ok table.
Proof.
  assert (Hstored : forall f, In f ["f"; "f"] ->
                              assoc f (items (weights example_model)) <> None).
  { intros f [<-|[<-|[]]]; discriminate. }
  do 3 eexists. split; [reflexivity|]. split; [exact Hstored|].
  split; [reflexivity|].
  exact (finalize_keeps_scores_of_stored_features insertion_order example_model
           _ _ ["f"; "f"] _ eq_refl Hstored eq_refl).
Defined.

(** ** Sequence models *)

Section SequenceFacts.
Context {F C Rng : Type} `{Hashable F} `{Hashable C}.
Variable set_iter : list C -> list C.

(** Whatever the dictionaries are, [scores] changes neither the class set
    nor what a read of a row yields. *)
Lemma scores_keeps_held (self self' : multiclass F C Rng Z) (x : list F)
  (table : dict C Z) :
  Perceptron.scores set_iter self x = Ok (table, self') ->
  classes self' = classes self
  /\ forall g, held (weights self') g = held (weights self) g.
Proof.
  intro Hrun. unfold Perceptron.scores in Hrun.
  apply (for_each_invariant
           (fun st : dict C Z * multiclass F C Rng Z =>
              classes (snd st) = classes self
              /\ forall g, held (weights (snd st)) g = held (weights self) g))
    in Hrun; [exact Hrun| |cbn [snd]; auto].
  intros [t0 s0] f [t1 s1] (Hc & Hh) Hstep. cbn [snd] in *.
  pose proof (getitem_held (weights s0) f) as Hget.
  destruct (held (weights s0) f) as [d|].
  - destruct Hget as (ws & Hget & Hsame). rewrite Hget in Hstep.
    cbn [bind] in Hstep.
    destruct (for_each _ (items d) t0) as [t2|e]; [|discriminate].
    cbn [bind] in Hstep. apply Ok_inj in Hstep. injection Hstep as _ <-.
    split; [exact Hc|]. intro g. cbn [with_weights weights].
    now rewrite Hsame.
  - rewrite Hget in Hstep. discriminate.
Qed.

(** The prediction depends on the model through its class set and the
    reads of its rows only. *)
Lemma predict_ext (s s' : multiclass F C Rng Z) (x : list F) :
  classes s' = classes s ->
  (forall g, held (weights s') g = held (weights s) g) ->
  fmap fst (Perceptron_predict set_iter s' x)
  = fmap fst (Perceptron_predict set_iter s x).
Proof.
  intros Hc Hh. unfold Perceptron_predict, Perceptron.predict.
  pose proof (scores_value set_iter s x) as Hs.
  pose proof (scores_value set_iter s' x) as Hs'.
  rewrite Hc, (scores_of_ext _ _ x _ Hh), <- Hs in Hs'.
  destruct (Perceptron.scores set_iter s x) as [[t1 s1]|e1],
           (Perceptron.scores set_iter s' x) as [[t2 s2]|e2];
    cbn in Hs'; try discriminate.
  - injection Hs' as ->. cbn [bind].
    destruct (max_by_value (items t1)) as [[best v]|e]; reflexivity.
  - now injection Hs' as ->.
Qed.

Lemma markov0_loop (xx : list (list F)) :
  forall (self s s' : multiclass F C Rng Z) (acc yy : list C),
    classes s = classes self ->
    (forall g, held (weights s) g = held (weights self) g) ->
    for_each
      (fun (acc : list C * multiclass F C Rng Z) x =>
         let (yyhat, self) := acc in
         '(scores, self) <- Perceptron.scores set_iter self x ;;
         '(yhat, _) <- max_by_value (items scores) ;;
         Ok (yyhat ++ [yhat], self))
      xx (acc, s) = Ok (yy, s') ->
    exists labels,
      yy = acc ++ labels
      /\ Forall2 (fun x yhat =>
                    fmap fst (Perceptron_predict set_iter self x) = Ok yhat)
                 xx labels.
Proof.
  induction xx as [|x xx IH]; intros self s s' acc yy Hc Hh Hrun.
  - apply Ok_inj in Hrun. injection Hrun as <- _. exists [].
    rewrite app_nil_r. auto.
  - cbn [for_each] in Hrun.
    destruct (Perceptron.scores set_iter s x) as [[table s1]|e] eqn:Hscores;
      [|discriminate].
    cbn [bind] in Hrun.
    destruct (max_by_value (items table)) as [[yhat v]|e] eqn:Hmax;
      [|discriminate].
    cbn [bind] in Hrun.
    destruct (scores_keeps_held _ _ _ _ Hscores) as [Hc1 Hh1].
    destruct (IH self s1 s' (acc ++ [yhat]) yy) as (labels & -> & Hall).
    + congruence.
    + intro g. now rewrite Hh1.
    + exact Hrun.
    + exists (yhat :: labels). split; [now rewrite <- app_assoc|].
      constructor; [|exact Hall].
      rewrite <- (predict_ext self s x Hc Hh).
      unfold Perceptron_predict, Perceptron.predict.
      rewrite Hscores. cbn [bind]. rewrite Hmax. reflexivity.
Qed.

(** X9: order-0 decoding labels the tokens one by one.  When [predict]
    of a sequence model with [order <= 0] returns, it returns one label
    per token of [xx], and the label of a token is the class the
    multiclass [predict] returns for that token alone on the model as it
    was before the call: the rows stored while earlier tokens were scored
    have no influence. *)
Theorem markov0_predict_is_tokenwise
  (self self' : multiclass F C Rng Z) (xx : list (list F)) (yy : list C) :
  order self <= 0 ->
  SequencePerceptron_predict set_iter self xx = Ok (yy, self') ->
  Forall2 (fun x yhat => fmap fst (Perceptron_predict set_iter self x) = Ok yhat)
          xx yy.
Proof.
  intros Horder Hrun.
  unfold SequencePerceptron_predict, SequencePerceptron.predict in Hrun.
  destruct (Z.leb_spec (order self) 0) as [_|Hgt]; [|lia].
  unfold SequencePerceptron._markov0_predict in Hrun.
  destruct (markov0_loop xx self self self' [] yy eq_refl (fun g => eq_refl) Hrun)
    as (labels & -> & Hall).
  exact Hall.
Qed.

(** X10: a sequence model with a positive order cannot be trained.
    [fit_one] calls [predict_with_transitions], which for [order > 0]
    calls a method no class defines: every [fit_one], on any sequence and
    any model state, raises [AttributeError], with or without averaging,
    and so does [fit] as soon as there is one epoch and one sequence. *)
Theorem sequence_training_raises_with_positive_order
  {Acc : Type} (src : random_source Rng) (clock : nat -> Q)
  (acc : accuracy_api Acc C C)
  (self : multiclass F C Rng Z) (self_averaged : multiclass F C Rng LazyWeight.t)
  (xx : list (list F)) (yy : list C)
  (XX : list (list (list F))) (YY : list (list C)) (epochs : Z) (w : world) :
  0 < order self -> 0 < order self_averaged ->
  shuffle_ok src -> 0 < epochs ->
  let missing := AttributeError "_greedy_predict_with_transitions" in
  SequencePerceptron_fit_one set_iter self xx yy = Raise missing
  /\ SequenceAveragedPerceptron_fit_one set_iter self_averaged xx yy = Raise missing
  /\ SequencePerceptron_fit set_iter src clock acc self (xx :: XX) (yy :: YY)
       epochs w = Raise missing
  /\ SequenceAveragedPerceptron_fit set_iter src clock acc self_averaged
       (xx :: XX) (yy :: YY) epochs w = Raise missing.
Proof.
  intros Horder Horder' Hshuffle Hepochs missing.
  assert (Hone : forall (s : multiclass F C Rng Z) xx0 yy0,
             0 < order s ->
             SequencePerceptron_fit_one set_iter s xx0 yy0 = Raise missing).
  { intros s xx0 yy0 Hs.
    unfold SequencePerceptron_fit_one, SequencePerceptron.fit_one,
      SequencePerceptron.predict_with_transitions.
    cbn [with_classes order].
    destruct (Z.leb_spec (order s) 0) as [Hle|_]; [lia|reflexivity]. }
  assert (Hone' : forall (s : multiclass F C Rng LazyWeight.t) xx0 yy0,
             0 < order s ->
             SequenceAveragedPerceptron_fit_one set_iter s xx0 yy0 = Raise missing).
  { intros s xx0 yy0 Hs.
    unfold SequenceAveragedPerceptron_fit_one, AveragedPerceptron.fit_one,
      SequencePerceptron.fit_one, SequencePerceptron.predict_with_transitions.
    cbn [with_classes order].
    destruct (Z.leb_spec (order s) 0) as [Hle|_]; [lia|reflexivity]. }
  assert (Hfit : forall (W : Type) (s : multiclass F C Rng W)
                        (one : multiclass F C Rng W -> list (list F) -> list C ->
                               result (list C * multiclass F C Rng W))
                        (fin : multiclass F C Rng W -> result (multiclass F C Rng W)),
             (forall s0 xx0 yy0,
                 order s0 = order s -> one s0 xx0 yy0 = Raise missing) ->
             SequencePerceptron.fit src clock acc (@random F C Rng W) with_random
               one fin s (xx :: XX) (yy :: YY) epochs w = Raise missing).
  { intros W s one fin Hraise.
    unfold SequencePerceptron.fit, Classifier.fit_with, Classifier.run_epochs.
    unfold py_range. replace (1 + epochs - 1) with epochs by lia.
    destruct (Z.to_nat epochs) as [|n] eqn:Hn; [lia|].
    cbn [seq map for_each combine]. unfold Classifier.epoch_pass at 1.
    unfold read_clock.
    pose proof (Hshuffle _ (random s) ((xx, yy) :: combine XX YY)) as Hperm.
    destruct (shuffle src (random s) ((xx, yy) :: combine XX YY))
      as [[|[xx0 yy0] rest] rng].
    - cbn [fst] in Hperm. apply Permutation_length in Hperm. discriminate.
    - cbn [for_each]. rewrite Hraise by reflexivity. reflexivity. }
  split; [now apply Hone|]. split; [now apply Hone'|]. split.
  - apply Hfit. intros s0 xx0 yy0 Hs0. apply Hone. lia.
  - apply Hfit. intros s0 xx0 yy0 Hs0. apply Hone'. lia.
Qed.

End SequenceFacts.

Lemma markov0_predict_is_tokenwise_witness :
  let tagger :=
    with_decoder example_model (Some (fun _ : list string => @nil string)) 0 in
  order tagger <= 0
  /\ exists self',
       SequencePerceptron_predict insertion_order tagger [["f"]; ["g"]; ["f"; "g"]]
       = Ok (["A"; "B"; "A"], self')
       /\ Forall2 (fun x yhat =>
                     fmap fst (Perceptron_predict insertion_order tagger x) = Ok yhat)
                  [["f"]; ["g"]; ["f"; "g"]] ["A"; "B"; "A"].
Proof.
  intro tagger.
  assert (Horder : order tagger <= 0) by (cbn; lia).
  split; [exact Horder|].
  eexists. split; [reflexivity|].
  exact (markov0_predict_is_tokenwise insertion_order tagger _
           [["f"]; ["g"]; ["f"; "g"]] ["A"; "B"; "A"] Horder eq_refl).
Defined.

Lemma sequence_training_raises_with_positive_order_witness :
  let tagger : multiclass string string Z Z :=
    SequencePerceptron.__init__ example_source (fun _ => []) 1 "B" None in
  let averaged : multiclass string string Z LazyWeight.t :=
    SequenceAveragedPerceptron.__init__ example_source None 1 "B" None in
  let accuracy := example_accuracy (fun y yhat : string => key_eqb y yhat) in
  let start := {| clock_reads := 0; emitted := [] |} in
  let missing := AttributeError "_greedy_predict_with_transitions" in
  0 < order tagger /\ 0 < order averaged /\ shuffle_ok example_source /\ 0 < 1
  /\ SequencePerceptron_fit_one insertion_order tagger [["f"]] ["A"] = Raise missing
  /\ SequenceAveragedPerceptron_fit_one insertion_order averaged [["f"]] ["A"]
     = Raise missing
  /\ SequencePerceptron_fit insertion_order example_source example_clock accuracy
       tagger [[["f"]]] [["A"]] 1 start = Raise missing
  /\ SequenceAveragedPerceptron_fit insertion_order example_source example_clock
       accuracy averaged [[["f"]]] [["A"]] 1 start = Raise missing.
Proof.
  intros tagger averaged accuracy start missing.
  assert (Hpos : 0 < 1) by lia.
  split; [exact Hpos|]. split; [exact Hpos|].
  split; [exact example_source_shuffles|]. split; [exact Hpos|].
  exact (sequence_training_raises_with_positive_order insertion_order
           example_source example_clock accuracy tagger averaged
           [["f"]] ["A"] [] [] 1 start Hpos Hpos example_source_shuffles Hpos).
Defined.

(** ** The score of one class *)

Section ScoreFacts.
Context {F C Rng : Type} `{Hashable F} `{Hashable C}.

Lemma getitem_stores {K V : Type} `{Hashable K} `{Factory V}
  (d d' : dict K V) (k : K) (v : V) :
  getitem d k = Ok (v, d') ->
  assoc k (items d') <> None
  /\ forall k0, assoc k0 (items d) <> None -> assoc k0 (items d') <> None.
Proof.
  unfold getitem. destruct (assoc k (items d)) as [v0|] eqn:Hk.
  - intro Hrun. apply Ok_inj in Hrun. injection Hrun as _ <-.
    split; [congruence|auto].
  - destruct (defaulting d); [|discriminate].
    intro Hrun. apply Ok_inj in Hrun. injection Hrun as _ <-.
    cbn [setitem items]. split.
    + now rewrite assoc_set_same.
    + intros k0. apply assoc_set_keeps.
Qed.

(** [score] reads [self.weights[feature][y]] once per feature and changes
    no weight. *)
Lemma score_value (x : list F) (y : C) :
  forall (self : multiclass F C Rng Z) (acc : Z),
    trainable self ->
    exists self',
      for_each
        (fun (acc : Z * multiclass F C Rng Z) feature =>
           let (total, self) := acc in
           '(clsweight, ws) <- getitem (weights self) feature ;;
           '(w, clsweight) <- getitem clsweight y ;;
           Ok (total + w, with_weights self (setitem ws feature clsweight)))
        x (acc, self)
      = Ok (acc + sum_over (fun f => weight_of (weights self) f y) x, self')
      /\ trainable self'
      /\ classes self' = classes self
      /\ forall f c, weight_of (weights self') f c = weight_of (weights self) f c.
Proof.
  induction x as [|g x IH]; intros self acc Htrain.
  - exists self. cbn. rewrite Z.add_0_r. auto.
  - cbn [for_each].
    destruct (read_row self g Htrain) as (ws & -> & Htrain1 & Hpeek & _).
    cbn [bind].
    destruct (getitem_defaultdict (peek (weights self) g) y
                (trainable_row self g Htrain))
      as (row1 & -> & Hrow1 & Hpeek1).
    cbn [bind].
    destruct (IH (with_weights self (setitem ws g row1))
                 (acc + peek (peek (weights self) g) y))
      as (self' & Hrun & Htrain' & Hcl & Hval).
    { destruct Htrain1 as [Hdef1 Hinner1]. cbn [with_weights weights] in *.
      split; cbn [with_weights weights setitem items defaulting]; [exact Hdef1|].
      intros f d Hf. destruct (key_eqb_spec f g) as [->|Hne].
      - rewrite assoc_set_same in Hf. injection Hf as <-. exact Hrow1.
      - rewrite assoc_set_other in Hf by exact Hne. now apply (Hinner1 f). }
    assert (Hsame : forall f c,
               weight_of (weights (with_weights self (setitem ws g row1))) f c
               = weight_of (weights self) f c).
    { intros f c. unfold weight_of. cbn [with_weights weights].
      rewrite peek_setitem. destruct (key_eqb_spec f g) as [->|_].
      - apply Hpeek1.
      - now rewrite Hpeek. }
    exists self'. rewrite Hrun. split; [|split; [exact Htrain'|split]].
    + do 2 f_equal. cbn [sum_over fold_right].
      fold (sum_over (fun f => weight_of (weights self) f y) x).
      rewrite (sum_over_same (fun f => weight_of (weights self) f y)
                 (fun f => weight_of
                             (weights (with_weights self (setitem ws g row1))) f y) x)
        by (intro f; apply Hsame).
      unfold weight_of at 2. lia.
    + exact Hcl.
    + intros f c. now rewrite Hval, Hsame.
Qed.

(** What [score] stores: an entry for [y] in the row of every feature it
    has read. *)
Lemma score_stores (x : list F) (y : C) :
  forall (self self' : multiclass F C Rng Z) (acc total : Z),
    for_each
      (fun (acc : Z * multiclass F C Rng Z) feature =>
         let (total, self) := acc in
         '(clsweight, ws) <- getitem (weights self) feature ;;
         '(w, clsweight) <- getitem clsweight y ;;
         Ok (total + w, with_weights self (setitem ws feature clsweight)))
      x (acc, self) = Ok (total, self') ->
    classes self' = classes self
    /\ (forall g d, assoc g (items (weights self)) = Some d ->
                    assoc y (items d) <> None ->
                    exists d', assoc g (items (weights self')) = Some d'
                               /\ assoc y (items d') <> None)
    /\ (forall f, In f x ->
                  exists d, assoc f (items (weights self')) = Some d
                            /\ assoc y (items d) <> None).
Proof.
  induction x as [|g x IH]; intros self self' acc total Hrun.
  - apply Ok_inj in Hrun. injection Hrun as _ <-.
    split; [reflexivity|]. split; [eauto|intros f []].
  - cbn [for_each] in Hrun.
    destruct (getitem (weights self) g) as [[row ws]|e] eqn:Hget; [|discriminate].
    cbn [bind] in Hrun.
    destruct (getitem row y) as [[w row1]|e] eqn:Hrow; [|discriminate].
    cbn [bind] in Hrun.
    destruct (IH _ _ _ _ Hrun) as (Hcl & Hkeep & Hnew).
    destruct (getitem_stores _ _ _ _ Hrow) as [Hy Hrowkeeps].
    assert (Hhead : exists d, assoc g (items (weights self')) = Some d
                              /\ assoc y (items d) <> None).
    { apply (Hkeep g row1); [|exact Hy].
      cbn [with_weights weights setitem items]. apply assoc_set_same. }
    split; [exact Hcl|]. split.
    + intros f d Hf Hd. destruct (key_eqb_spec f g) as [->|Hne]; [exact Hhead|].
      apply (Hkeep f d); [|exact Hd].
      cbn [with_weights weights setitem items].
      rewrite assoc_set_other by exact Hne.
      unfold getitem in Hget. destruct (assoc g (items (weights self))) as [d0|].
      * apply Ok_inj in Hget. injection Hget as _ <-. exact Hf.
      * destruct (defaulting (weights self)); [|discriminate].
        apply Ok_inj in Hget. injection Hget as _ <-. cbn [setitem items].
        now rewrite assoc_set_other.
    + intros f [<-|Hin]; [exact Hhead|now apply Hnew].
Qed.

(** On a plain table without an entry for [y], the inner loop of
    [scores] fails on a row that holds [y]. *)
Lemma add_all_plain (y : C) (row : list (C * Z)) :
  forall table : dict C Z,
    defaulting table = false ->
    assoc y (items table) = None ->
    match add_all table row with
    | Ok table' =>
        defaulting table' = false /\ assoc y (items table') = None
        /\ assoc y row = None
    | Raise e => e = KeyError
    end.
Proof.
  induction row as [|[cls w] rest IH]; intros table Hplain Hy.
  - cbn. auto.
  - assert (Hstep : add_all table ((cls, w) :: rest)
                    = '(old, table1) <- getitem table cls ;;
                      add_all (setitem table1 cls (old + w)) rest).
    { unfold add_all. cbn [for_each].
      destruct (getitem table cls) as [[old table1]|e]; reflexivity. }
    rewrite Hstep. unfold getitem. rewrite Hplain.
    destruct (assoc cls (items table)) as [old|] eqn:Hcls; [|reflexivity].
    cbn [bind].
    assert (Hne : y <> cls) by congruence.
    specialize (IH (setitem table cls (old + w)) Hplain).
    cbn [setitem items] in IH. rewrite assoc_set_other in IH by exact Hne.
    specialize (IH Hy).
    destruct (add_all (setitem table cls (old + w)) rest) as [table'|e];
      [|exact IH].
    destruct IH as (Hp & Hy' & Hrest). repeat split; try assumption.
    cbn [assoc]. now rewrite key_eqb_neq.
Qed.

Lemma scores_of_poisoned (ws : dict F (dict C Z)) (y : C) (f : F) (d : dict C Z)
  (z : list F) :
  assoc f (items ws) = Some d -> assoc y (items d) <> None -> In f z ->
  forall table : dict C Z,
    defaulting table = false -> assoc y (items table) = None ->
    scores_of ws z table = Raise KeyError.
Proof.
  intros Hf Hd. induction z as [|g z IH]; intros Hin table Hplain Hy;
    [destruct Hin|].
  rewrite scores_of_cons. destruct (held ws g) as [row|] eqn:Hg; [|reflexivity].
  pose proof (add_all_plain y (items row) table Hplain Hy) as Hrow.
  destruct (add_all table (items row)) as [table'|e]; [|now rewrite Hrow].
  destruct Hrow as (Hplain' & Hy' & Habsent). cbn [bind].
  apply IH; [|exact Hplain'|exact Hy'].
  destruct Hin as [->|Hin]; [|exact Hin].
  unfold held in Hg. rewrite Hf in Hg. injection Hg as <-. contradiction.
Qed.

(** X11: [score(x, y)] is the entry of [y] in [scores(x)].  On a model
    under training whose weights are stored under registered classes,
    for a registered class [y], [score(x, y)] returns the sum over the
    features of [x] of the weight stored for the feature and [y], which
    is what the table of [scores(x)] holds for [y]; it changes no
    weight and no class. *)
Theorem multiclass_score_agrees_with_scores
  (set_iter : list C -> list C) (self : multiclass F C Rng Z) (x : list F) (y : C) :
  iter_ok set_iter ->
  consistent self ->
  rows_well_keyed (weights self) ->
  In y (classes self) ->
  exists s self1 table self2,
    Perceptron.score self x y = Ok (s, self1)
    /\ Perceptron.scores set_iter self x = Ok (table, self2)
    /\ assoc y (items table) = Some s
    /\ s = sum_over (fun f => weight_of (weights self) f y) x
    /\ classes self1 = classes self
    /\ forall f c, weight_of (weights self1) f c = weight_of (weights self) f c.
Proof.
  intros Hiter (Htrain & _ & Hreg) Hkeyed Hy.
  destruct (score_value x y self 0 Htrain) as (self1 & Hscore & _ & Hcl & Hsame).
  destruct (scores_loop_value x self (fromkeys (set_iter (classes self)) 0)
              Htrain Hkeyed) as (table & self2 & Hrun & Hval).
  { intros f d c w Hin Hcw. apply fromkeys_keys.
    apply (Permutation_in _ (Permutation_sym (Hiter (classes self)))).
    exact (Hreg f d c w Hin Hcw). }
  exists (sum_over (fun f => weight_of (weights self) f y) x), self1, table, self2.
  split; [exact Hscore|]. split; [exact Hrun|]. split.
  - rewrite Hval, assoc_fromkeys, (set_mem_iter set_iter (classes self) y Hiter).
    apply set_mem_In in Hy. rewrite Hy. reflexivity.
  - auto.
Qed.

(** X12: asking for the score of a class that is not registered breaks
    the model.  When [score(x, y)] returns for a class [y] outside the
    class set, it has stored an entry for [y] in the row of every feature
    of [x]; from then on [scores(z)] and [predict(z)] raise [KeyError]
    for every vector [z] that shares a feature with [x]. *)
Theorem score_of_unregistered_class_breaks_scores
  (set_iter : list C -> list C) (self self' : multiclass F C Rng Z)
  (x z : list F) (f : F) (y : C) (s : Z) :
  iter_ok set_iter ->
  ~ In y (classes self) ->
  In f x -> In f z ->
  Perceptron.score self x y = Ok (s, self') ->
  Perceptron.scores set_iter self' z = Raise KeyError
  /\ Perceptron_predict set_iter self' z = Raise KeyError.
Proof.
  intros Hiter Hy Hfx Hfz Hrun. unfold Perceptron.score in Hrun.
  destruct (score_stores x y self self' 0 s Hrun) as (Hcl & _ & Hnew).
  destruct (Hnew f Hfx) as (d & Hf & Hd).
  assert (Hscores : Perceptron.scores set_iter self' z = Raise KeyError).
  { pose proof (scores_value set_iter self' z) as Hval.
    rewrite (scores_of_poisoned (weights self') y f d z Hf Hd Hfz) in Hval.
    - destruct (Perceptron.scores set_iter self' z) as [r|e]; [discriminate|].
      cbn in Hval. now injection Hval as ->.
    - apply fromkeys_plain.
    - rewrite assoc_fromkeys, (set_mem_iter set_iter (classes self') y Hiter), Hcl.
      destruct (set_mem y (classes self)) eqn:Hmem; [|reflexivity].
      apply set_mem_In in Hmem. contradiction. }
  split; [exact Hscores|].
  unfold Perceptron_predict, Perceptron.predict. now rewrite Hscores.
Qed.

End ScoreFacts.

Lemma multiclass_score_agrees_with_scores_witness :
  iter_ok (@insertion_order string)
  /\ consistent example_model
  /\ rows_well_keyed (weights example_model)
  /\ In "A" (classes example_model)
  /\ exists s self1 table self2,
       Perceptron.score example_model ["f"; "g"; "f"] "A" = Ok (s, self1)
       /\ Perceptron.scores insertion_order example_model ["f"; "g"; "f"]
          = Ok (table, self2)
       /\ assoc "A" (items table) = Some s
       /\ s = sum_over (fun f => weight_of (weights example_model) f "A")
                       ["f"; "g"; "f"]
       /\ classes self1 = classes example_model
       /\ forall f c,
            weight_of (weights self1) f c = weight_of (weights example_model) f c.
Proof.
  assert (Hin : In "A" (classes example_model)) by (right; left; reflexivity).
  split; [exact insertion_order_ok|].
  split; [exact example_model_consistent|].
  split; [exact example_model_well_keyed|].
  split; [exact Hin|].
  exact (multiclass_score_agrees_with_scores insertion_order example_model
           ["f"; "g"; "f"] "A" insertion_order_ok example_model_consistent
           example_model_well_keyed Hin).
Defined.

Lemma score_of_unregistered_class_breaks_scores_witness :
  iter_ok (@insertion_order string)
  /\ ~ In "C" (classes example_model)
  /\ In "g" ["f"; "g"] /\ In "g" ["g"]
  /\ exists self',
       Perceptron.score example_model ["f"; "g"] "C" = Ok (0, self')
       /\ Perceptron.scores insertion_order self' ["g"] = Raise KeyError
       /\ Perceptron_predict insertion_order self' ["g"] = Raise KeyError.
Proof.
  assert (Hout : ~ In "C" (classes example_model)).
  { intros [Heq|[Heq|[]]]; discriminate. }
  assert (Hfx : In "g" ["f"; "g"]) by (right; left; reflexivity).
  assert (Hfz : In "g" ["g"]) by (left; reflexivity).
  split; [exact insertion_order_ok|]. split; [exact Hout|].
  split; [exact Hfx|]. split; [exact Hfz|].
  eexists. split; [reflexivity|].
  exact (score_of_unregistered_class_breaks_scores insertion_order example_model _
           ["f"; "g"] ["g"] "g" "C" 0 insertion_order_ok Hout Hfx Hfz eq_refl).
Defined.

(** ** Averaging at time 0 *)

Lemma average_at_time_zero (lw : LazyWeight.t) :
  LazyWeight.average lw 0 = Raise ZeroDivisionError.
Proof. reflexivity. Qed.

(** X13: an averaged model that holds a weight cannot be finalized
    before its first [fit_one].  With [time = 0], [finalize] of the
    binary averaged model raises [ZeroDivisionError] as soon as the
    dictionary of weights has an entry (a [predict] is enough to create
    one), and [finalize] of the multiclass averaged model does so as soon
    as some row has an entry. *)
Theorem averaged_finalize_raises_at_time_zero
  {F C Rng : Type} `{Hashable F} `{Hashable C}
  (binary_model : binary F Rng LazyWeight.t)
  (model : multiclass F C Rng LazyWeight.t) (f : F) (d : dict C LazyWeight.t) :
  b_time binary_model = 0 -> items (b_weights binary_model) <> [] ->
  time model = 0 -> In (f, d) (items (weights model)) -> items d <> [] ->
  BinaryAveragedPerceptron.finalize binary_model = Raise ZeroDivisionError
  /\ AveragedPerceptron.finalize model = Raise ZeroDivisionError.
Proof.
  intros Hbtime Hbstored Htime Hrow Hentry. split.
  - unfold BinaryAveragedPerceptron.finalize. rewrite Hbtime.
    destruct (items (b_weights binary_model)) as [|[g lw] rest]; [easy|].
    reflexivity.
  - unfold AveragedPerceptron.finalize. rewrite Htime.
    generalize (@nil (F * C)) as ready2die. generalize (weights model) at 2 as ws.
    induction (items (weights model)) as [|[g row] rows IH]; intros ws ready2die;
      [destruct Hrow|].
    cbn [for_each].
    destruct (items row) as [|[c lw] rest] eqn:Hitems.
    + cbn [for_each bind]. destruct Hrow as [Heq|Hin].
      * injection Heq as <- <-. congruence.
      * apply (IH Hin).
    + reflexivity.
Qed.

Lemma averaged_finalize_raises_at_time_zero_witness :
  exists (binary_model : binary string Z LazyWeight.t)
         (model : multiclass string string Z LazyWeight.t),
    fmap snd (BinaryAveragedPerceptron.predict
                (BinaryAveragedPerceptron.__init__ example_source None) ["a"])
    = Ok binary_model
    /\ AveragedPerceptron.update
         (AveragedPerceptron.__init__ example_source "B" None) ["f"] "A" "B" 1
       = Ok model
    /\ BinaryAveragedPerceptron.finalize binary_model = Raise ZeroDivisionError
    /\ AveragedPerceptron.finalize model = Raise ZeroDivisionError.
Proof.
  do 2 eexists. split; [reflexivity|]. split; [reflexivity|].
  eapply (averaged_finalize_raises_at_time_zero _ _ "f");
    [reflexivity|discriminate|reflexivity|left; reflexivity|discriminate].
Defined.

(** ** Training without epochs *)

(** X14: [fit] with no epoch to run only finalizes.  For [epochs <= 0]
    the range of epochs is empty: [fit] logs its first line, calls no
    [fit_one], does not shuffle (the generator is left as it was) and
    returns what [finalize] makes of the model it was given, or raises
    what [finalize] raises.  A negative epoch count is accepted like 0. *)
Theorem fit_without_epochs_only_finalizes
  {T X G P Rng Acc : Type} (src : random_source Rng) (clock : nat -> Q)
  (acc : accuracy_api Acc G P)
  (get_random : T -> Rng) (set_random : T -> Rng -> T)
  (self_fit_one : T -> X -> G -> result (P * T))
  (self_finalize : T -> result T)
  (self : T) (Xs : list X) (Ys : list G) (epochs : Z) (w : world) :
  epochs <= 0 ->
  Classifier.fit src clock acc get_random set_random self_fit_one self_finalize
    self Xs Ys epochs w
  = (self' <- self_finalize self ;; Ok (self', emit w (Info_starting epochs))).
Proof.
  intro Hepochs. unfold Classifier.fit, Classifier.fit_with, Classifier.run_epochs.
  assert (Hnone : py_range 1 (1 + epochs) = []).
  { unfold py_range. replace (Z.to_nat (1 + epochs - 1)) with 0%nat by lia.
    reflexivity. }
  rewrite Hnone. reflexivity.
Qed.

Lemma fit_without_epochs_only_finalizes_witness :
  -1 <= 0
  /\ Perceptron_fit insertion_order example_source example_clock
       (example_accuracy (fun y yhat : string => key_eqb y yhat))
       example_model [["f"]] ["B"] (-1) {| clock_reads := 0; emitted := [] |}
     = (self' <- Perceptron.finalize example_model ;;
        Ok (self', {| clock_reads := 0; emitted := [Info_starting (-1)] |})).
Proof.
  assert (Hepochs : -1 <= 0) by lia.
  split; [exact Hepochs|].
  exact (fit_without_epochs_only_finalizes example_source example_clock
           (example_accuracy (fun y yhat : string => key_eqb y yhat))
           (@random string string Z Z) with_random
           (Perceptron_fit_one insertion_order) Perceptron.finalize
           example_model [["f"]] ["B"] (-1)
           {| clock_reads := 0; emitted := [] |} Hepochs).
Defined.

(** ** Following the pointers of a trellis *)

Section TracebackFacts.
Context {S C : Type} `{Hashable C}.

(** The loop of [_traceback], column by column from the last one. *)
Let walk (columns : list (list (C * TrellisCell.t S C))) (acc : list C * C)
  : result (list C * C) :=
  for_each
    (fun (acc : list C * C) (col : list (C * TrellisCell.t S C)) =>
       let (yielded, state) := acc in
       match assoc state col with
       | Some cell => Ok (yielded ++ [state], TrellisCell.pointer cell)
       | None => Raise KeyError
       end)
    columns acc.

Lemma traceback_snoc (trellis : list (list (C * TrellisCell.t S C)))
  (col : list (C * TrellisCell.t S C)) (state : C) :
  SequencePerceptron._traceback (trellis ++ [col]) state
  = match assoc state col with
    | Some cell =>
        labels <- SequencePerceptron._traceback trellis (TrellisCell.pointer cell) ;;
        Ok (labels ++ [state])
    | None => Raise KeyError
    end.
Proof.
  unfold SequencePerceptron._traceback. rewrite rev_app_distr. cbn [rev app for_each].
  destruct (assoc state col) as [cell|]; [|reflexivity]. cbn [bind].
  change (('(yielded, _) <- walk (rev trellis) ([state], TrellisCell.pointer cell) ;;
           Ok (rev yielded))
          = (labels <- ('(yielded, _) <-
                          walk (rev trellis) ([], TrellisCell.pointer cell) ;;
                        Ok (rev yielded)) ;;
             Ok (labels ++ [state]))).
  assert (Hshift : forall columns (pre acc : list C) (st : C),
             walk columns (pre ++ acc, st)
             = '(yielded, st') <- walk columns (acc, st) ;; Ok (pre ++ yielded, st')).
  { induction columns as [|c columns IH]; intros pre acc st; [reflexivity|].
    unfold walk. cbn [for_each].
    destruct (assoc st c) as [cell0|]; [|reflexivity]. cbn [bind].
    fold (walk columns ((pre ++ acc) ++ [st], TrellisCell.pointer cell0)).
    fold (walk columns (acc ++ [st], TrellisCell.pointer cell0)).
    rewrite <- app_assoc. apply IH. }
  pose proof (Hshift (rev trellis) [state] [] (TrellisCell.pointer cell)) as Hs.
  cbn [app] in Hs. rewrite Hs.
  destruct (walk (rev trellis) ([], TrellisCell.pointer cell)) as [[yielded st']|e];
    [|reflexivity].
  cbn [bind app rev]. reflexivity.
Qed.

Lemma nth_error_snoc_lt {A : Type} (l : list A) (a : A) (i : nat) :
  (i < List.length l)%nat -> nth_error (l ++ [a]) i = nth_error l i.
Proof. intro Hlt. now apply nth_error_app1. Qed.

Lemma nth_error_snoc_eq {A : Type} (l : list A) (a : A) :
  nth_error (l ++ [a]) (List.length l) = Some a.
Proof. rewrite nth_error_app2 by lia. now rewrite Nat.sub_diag. Qed.

Lemma nth_error_snoc_inv {A : Type} (l : list A) (a b : A) (i : nat) :
  nth_error (l ++ [a]) i = Some b ->
  ((i < List.length l)%nat /\ nth_error l i = Some b)
  \/ (i = List.length l /\ b = a).
Proof.
  intro Hi. destruct (Nat.lt_ge_cases i (List.length l)) as [Hlt|Hge].
  - left. split; [exact Hlt|]. now rewrite nth_error_snoc_lt in Hi.
  - right. assert (Hlen : (i < List.length (l ++ [a]))%nat)
      by (apply (proj1 (nth_error_Some (l ++ [a]) i)); rewrite Hi; discriminate).
    rewrite length_app in Hlen. cbn [List.length] in Hlen.
    assert (Heq : i = List.length l) by lia. subst i.
    rewrite nth_error_snoc_eq in Hi. injection Hi as <-. auto.
Qed.

(** X15: [_traceback] follows the pointers.  [_traceback(trellis, state)]
    returns a list of labels exactly when that list has one label per
    column, ends in [state], every label is a state of its column and the
    cell of every label but the first points to the label before it.
    The only exception it raises is [KeyError], when [state] or a pointer
    on the way is not a state of its column; on the empty trellis it
    returns the empty list. *)
Theorem traceback_follows_pointers
  (trellis : list (list (C * TrellisCell.t S C))) (state : C) (labels : list C) :
  (SequencePerceptron._traceback trellis state = Ok labels
   <-> backlinked trellis labels /\ last labels state = state)
  /\ (forall e, SequencePerceptron._traceback trellis state = Raise e ->
                e = KeyError)
  /\ SequencePerceptron._traceback (@nil (list (C * TrellisCell.t S C))) state = Ok [].
Proof.
  assert (Hsound : forall (t : list (list (C * TrellisCell.t S C))) st ls,
             SequencePerceptron._traceback t st = Ok ls ->
             backlinked t ls /\ last ls st = st).
  { induction t as [|col t IH] using rev_ind; intros st ls Hrun.
    - apply Ok_inj in Hrun. subst ls. split; [split|]; try reflexivity.
      intros i c Hi. now destruct i.
    - rewrite traceback_snoc in Hrun.
      destruct (assoc st col) as [cell|] eqn:Hcell; [|discriminate].
      destruct (SequencePerceptron._traceback t (TrellisCell.pointer cell))
        as [before|e] eqn:Hbefore; [|discriminate].
      cbn [bind] in Hrun. apply Ok_inj in Hrun. subst ls.
      destruct (IH _ _ Hbefore) as [[Hlen Hlinks] Hlast].
      split; [split|].
      + rewrite !length_app, Hlen. reflexivity.
      + intros i c Hi. apply nth_error_snoc_inv in Hi.
        destruct Hi as [[Hlt Hi]|[-> ->]].
        * destruct (Hlinks i c Hi) as (label & cell0 & Hlabel & Hkey & Hprev).
          exists label, cell0.
          split; [rewrite nth_error_snoc_lt by lia; exact Hlabel|].
          split; [exact Hkey|].
          intros j ->. rewrite nth_error_snoc_lt by lia. now apply Hprev.
        * exists st, cell.
          split; [rewrite <- Hlen; apply nth_error_snoc_eq|].
          split; [exact Hcell|].
          intros j Hj. rewrite nth_error_snoc_lt by lia.
          destruct before as [|b before _] using rev_ind.
          -- cbn [List.length] in Hlen. lia.
          -- rewrite last_last in Hlast.
             rewrite length_app in Hlen. cbn [List.length] in Hlen.
             assert (Hjlen : j = List.length before) by lia. subst j.
             rewrite nth_error_snoc_eq. now rewrite Hlast.
      + now rewrite last_last. }
  assert (Hcomplete : forall (t : list (list (C * TrellisCell.t S C))) st ls,
             backlinked t ls -> last ls st = st ->
             SequencePerceptron._traceback t st = Ok ls).
  { induction t as [|col t IH] using rev_ind; intros st ls [Hlen Hlinks] Hlast.
    - destruct ls; [reflexivity|discriminate].
    - destruct ls as [|l ls _] using rev_ind;
        [rewrite length_app in Hlen; cbn in Hlen; lia|].
      rewrite last_last in Hlast. subst l.
      rewrite !length_app in Hlen. cbn [List.length] in Hlen.
      assert (Hlen' : List.length ls = List.length t) by lia.
      rewrite traceback_snoc.
      destruct (Hlinks (List.length t) col (nth_error_snoc_eq t col))
        as (label & cell & Hlabel & Hkey & Hprev).
      rewrite <- Hlen', nth_error_snoc_eq in Hlabel.
      injection Hlabel as <-. rewrite Hkey.
      rewrite (IH (TrellisCell.pointer cell) ls); [reflexivity| |].
      + split; [exact Hlen'|]. intros i c Hi.
        assert (Hi' : (i < List.length t)%nat)
          by (apply (proj1 (nth_error_Some t i)); rewrite Hi; discriminate).
        destruct (Hlinks i c) as (label & cell0 & Hlabel & Hkey0 & Hprev0).
        { now rewrite nth_error_snoc_lt. }
        rewrite nth_error_snoc_lt in Hlabel by lia.
        exists label, cell0. split; [exact Hlabel|]. split; [exact Hkey0|].
        intros j ->. specialize (Hprev0 j eq_refl).
        now rewrite nth_error_snoc_lt in Hprev0 by lia.
      + destruct ls as [|l ls _] using rev_ind; [reflexivity|].
        rewrite last_last. rewrite length_app in Hlen'. cbn [List.length] in Hlen'.
        specialize (Hprev (List.length ls) ltac:(lia)).
        rewrite nth_error_snoc_lt in Hprev
          by (rewrite length_app; cbn [List.length]; lia).
        rewrite nth_error_snoc_eq in Hprev. now injection Hprev. }
  assert (Herror : forall (t : list (list (C * TrellisCell.t S C))) st e,
             SequencePerceptron._traceback t st = Raise e -> e = KeyError).
  { induction t as [|col t IH] using rev_ind; intros st e Hrun; [discriminate|].
    rewrite traceback_snoc in Hrun.
    destruct (assoc st col) as [cell|]; [|now injection Hrun as <-].
    destruct (SequencePerceptron._traceback t (TrellisCell.pointer cell))
      as [before|e0] eqn:Hbefore; [discriminate|].
    cbn [bind] in Hrun. injection Hrun as <-. exact (IH _ _ Hbefore). }
  split; [|split].
  - split; [apply Hsound|]. intros [Hlinked Hlast]. now apply Hcomplete.
  - apply Herror.
  - reflexivity.
Qed.

End TracebackFacts.

(** ** Averaging and the course of training *)

Section BinaryAveragedFacts.
Context {F Rng : Type} `{Hashable F}.

Lemma num_ge_int (a b : Z) : num_ge (PyInt a) (PyInt b) = (a >=? b).
Proof.
  unfold num_ge, Qle_bool. cbn. rewrite !Z.mul_1_r.
  now rewrite Z.geb_leb.
Qed.

(** The sum [predict] takes, when every weight reads an integer. *)
Lemma averaged_score_spec (x : list F) :
  forall (self : binary F Rng LazyWeight.t) (g : F -> Z) (acc : Z),
    defaulting (b_weights self) = true ->
    (forall f, LazyWeight.get (peek (b_weights self) f) = PyInt (g f)) ->
    exists self',
      for_each
        (fun (acc : num * binary F Rng LazyWeight.t) feature =>
           let (total, self) := acc in
           '(w, ws) <- getitem (b_weights self) feature ;;
           Ok (num_add total (LazyWeight.get w), b_with_weights self ws))
        x (PyInt acc, self)
      = Ok (PyInt (acc + sum_over g x), self')
      /\ defaulting (b_weights self') = true
      /\ b_time self' = b_time self
      /\ forall f, peek (b_weights self') f = peek (b_weights self) f.
Proof.
  induction x as [|f x IH]; intros self g acc Hdef Hint.
  - exists self. cbn. rewrite Z.add_0_r. auto.
  - destruct (getitem_defaultdict (b_weights self) f Hdef)
      as (ws & Hget & Hdef' & Hpeek).
    cbn [for_each]. rewrite Hget. cbn [bind]. rewrite Hint. cbn [num_add].
    destruct (IH (b_with_weights self ws) g (acc + g f) Hdef')
      as (self' & Hrun & Hdef'' & Htime & Hpeek').
    { intro f0. cbn [b_with_weights b_weights]. rewrite Hpeek. apply Hint. }
    exists self'. rewrite Hrun. cbn [b_with_weights b_weights b_time] in *.
    split; [|split; [exact Hdef''|split; [exact Htime|]]].
    + do 3 f_equal. cbn [sum_over fold_right]. fold (sum_over g x). lia.
    + intro f0. now rewrite Hpeek', Hpeek.
Qed.

(** [update] with a boolean label adds the signed [tau] to the current
    value of a weight once per occurrence of its feature. *)
Lemma averaged_update_spec (x : list F) (y : bool) (tau : Z) :
  forall (self : binary F Rng LazyWeight.t) (g : F -> Z),
    defaulting (b_weights self) = true ->
    (forall f, LazyWeight.get (peek (b_weights self) f) = PyInt (g f)) ->
    exists self',
      BinaryAveragedPerceptron.update self x (PyBool y) tau = Ok self'
      /\ defaulting (b_weights self') = true
      /\ b_time self' = b_time self
      /\ forall f, LazyWeight.get (peek (b_weights self') f)
                   = PyInt (g f + (if y then tau else tau * -1) * occurrences f x).
Proof.
  unfold BinaryAveragedPerceptron.update, BinaryAveragedPerceptron.signed_tau.
  assert (Hsign : (if is_False (PyBool y) then Ok (tau * -1)
                   else if negb (is_True (PyBool y))
                        then Raise (ValueError "y is not boolean")
                        else Ok tau)
                  = Ok (if y then tau else tau * -1)) by (now destruct y).
  rewrite Hsign. cbn [bind]. set (step := if y then tau else tau * -1).
  induction x as [|h x IH]; intros self g Hdef Hint.
  - exists self. repeat split; try assumption. intro f. rewrite Hint.
    unfold occurrences. cbn. f_equal. lia.
  - destruct (getitem_defaultdict (b_weights self) h Hdef)
      as (ws & Hget & Hdef' & Hpeek).
    cbn [for_each]. rewrite Hget. cbn [bind].
    set (self1 := b_with_weights self
                    (setitem ws h
                       (LazyWeight.update (peek (b_weights self) h) (PyInt step)
                          (b_time self)))).
    destruct (IH self1 (fun f => if key_eqb f h then g h + step else g f))
      as (self' & Hrun & Hdef'' & Htime & Hval); [exact Hdef'| |].
    { intro f. subst self1. cbn [b_with_weights b_weights].
      rewrite peek_setitem. destruct (key_eqb_spec f h) as [->|_].
      - unfold LazyWeight.get, LazyWeight.update.
        cbn [LazyWeight.weight LazyWeight._freshen].
        pose proof (Hint h) as Hh. unfold LazyWeight.get in Hh. rewrite Hh.
        reflexivity.
      - rewrite Hpeek. apply Hint. }
    exists self'. split; [exact Hrun|]. split; [exact Hdef''|].
    split; [exact Htime|]. intro f. rewrite Hval.
    unfold occurrences. cbn [filter].
    destruct (key_eqb_spec f h) as [->|_]; cbn [List.length]; f_equal; lia.
Qed.

Lemma binary_averaged_finalize_returns (self : binary F Rng LazyWeight.t) :
  b_time self <> 0 \/ items (b_weights self) = [] ->
  exists self', BinaryAveragedPerceptron.finalize self = Ok self'.
Proof.
  intro Hready. unfold BinaryAveragedPerceptron.finalize.
  assert (Hloop : forall rest (ws : dict F LazyWeight.t),
             b_time self <> 0 \/ rest = [] ->
             exists ws',
               for_each
                 (fun (acc : list F * dict F LazyWeight.t)
                      (item : F * LazyWeight.t) =>
                    let (ready2die, ws) := acc in
                    let (feature, weight) := item in
                    if LazyWeight.eq_float weight 0
                    then Ok (ready2die ++ [feature], ws)
                    else weight <- LazyWeight.average weight (b_time self) ;;
                         Ok (ready2die, setitem ws feature weight))
                 rest ([], ws) = Ok ([], ws')).
  { induction rest as [|[f lw] rest IH]; intros ws Hok.
    - exists ws. reflexivity.
    - destruct Hok as [Hnow|Hnone]; [|discriminate].
      cbn [for_each LazyWeight.eq_float].
      unfold LazyWeight.average at 1, num_truediv. cbn [num_is_zero].
      destruct (Z.eqb_spec (b_time self) 0) as [Hzero|_]; [contradiction|].
      cbn [bind]. apply IH. now left. }
  destruct (Hloop (items (b_weights self)) (b_weights self) Hready) as (ws' & ->).
  cbn [bind for_each]. eexists. reflexivity.
Qed.

(** One training step on an averaged model and on the plain model it
    mirrors. *)
Lemma binary_averaged_fit_one_steps
  (averaged : binary F Rng LazyWeight.t) (plain : binary F Rng Z)
  (x : list F) (y : bool) :
  binary_mirrors averaged plain ->
  exists yhat averaged' plain',
    BinaryAveragedPerceptron.fit_one averaged x (PyBool y) = Ok (yhat, averaged')
    /\ BinaryPerceptron_fit_one plain x (PyBool y) = Ok (yhat, plain')
    /\ binary_mirrors averaged' plain'
    /\ b_time averaged' = b_time averaged + 1.
Proof.
  intros (Hdef & Hdefp & Hint).
  unfold BinaryAveragedPerceptron.fit_one, BinaryPerceptron_fit_one,
    BinaryPerceptron.fit_one, BinaryAveragedPerceptron.predict,
    BinaryPerceptron.predict, BinaryAveragedPerceptron.t.
  destruct (averaged_score_spec x averaged (peek (b_weights plain)) 0 Hdef Hint)
    as (a1 & -> & Hdef1 & Htime1 & Hpeek1).
  destruct (binary_score_value x plain Hdefp) as (p1 & -> & Hdefp1 & Hpeekp1).
  cbn [bind]. rewrite num_ge_int. cbn [Z.add].
  set (yhat := sum_over (peek (b_weights plain)) x >=? 0).
  assert (Hint1 : forall f, LazyWeight.get (peek (b_weights a1) f)
                            = PyInt (peek (b_weights p1) f)).
  { intro f. now rewrite Hpeek1, Hpeekp1. }
  destruct (negb (py_eq (PyBool y) (PyBool yhat))).
  - destruct (averaged_update_spec x y 1 a1 (peek (b_weights p1)) Hdef1 Hint1)
      as (a2 & -> & Hdef2 & Htime2 & Hval2).
    destruct (binary_update_spec x (PyBool y) 1 p1 Hdefp1)
      as (p2 & -> & Hdefp2 & Hvalp2).
    cbn [bind]. do 3 eexists. split; [reflexivity|]. split; [reflexivity|].
    cbn [b_weights b_time]. split; [|lia].
    split; [exact Hdef2|]. split; [exact Hdefp2|].
    intro f. rewrite Hval2, Hvalp2. now destruct y.
  - cbn [bind]. do 3 eexists. split; [reflexivity|]. split; [reflexivity|].
    cbn [b_weights b_time]. split; [|lia].
    split; [exact Hdef1|]. split; [exact Hdefp1|exact Hint1].
Qed.

(** X16: averaging does not change the course of training of the binary
    model.  When the weights of an averaged model read the integers a
    plain model holds, [fit_one] with a boolean label returns on both,
    with the same prediction, the weights of the two models read the
    same afterwards, and the clock of the averaged model has advanced by
    one; the new models start out this way. *)
Theorem binary_averaged_fit_one_mirrors_plain
  (averaged : binary F Rng LazyWeight.t) (plain : binary F Rng Z)
  (x : list F) (y : bool) (src : random_source Rng) (seed : option Z) :
  binary_mirrors averaged plain ->
  (exists yhat averaged' plain',
      BinaryAveragedPerceptron.fit_one averaged x (PyBool y) = Ok (yhat, averaged')
      /\ BinaryPerceptron_fit_one plain x (PyBool y) = Ok (yhat, plain')
      /\ binary_mirrors averaged' plain'
      /\ b_time averaged' = b_time averaged + 1)
  /\ binary_mirrors (BinaryAveragedPerceptron.__init__ src seed)
                    (BinaryPerceptron.__init__ (F := F) src seed).
Proof.
  intro Hmirror. split; [|repeat split].
  now apply binary_averaged_fit_one_steps.
Qed.

(** X17: training a new averaged binary perceptron on boolean labels
    never raises: for every such data set and every number of epochs,
    [fit] on the model the constructor returns runs through all epochs
    and [finalize] and returns, where [fit] of the plain binary model
    always fails in [finalize].  (The generator is used through its
    contract; the accuracy record, the clock and the log are taken to
    return.) *)
Theorem binary_averaged_fit_returns
  {Acc : Type} (src : random_source Rng) (clock : nat -> Q)
  (acc : accuracy_api Acc pyobj bool) (seed : option Z)
  (Xs : list (list F)) (Ys : list pyobj) (epochs : Z) (w : world) :
  shuffle_ok src ->
  Forall boolean Ys ->
  exists self' w',
    BinaryAveragedPerceptron_fit src clock acc
      (BinaryAveragedPerceptron.__init__ src seed) Xs Ys epochs w = Ok (self', w').
Proof.
  intros Hshuffle Hbool.
  unfold BinaryAveragedPerceptron_fit, Classifier.fit.
  set (Inv := fun self : binary F Rng LazyWeight.t =>
                (exists plain : binary F Rng Z, binary_mirrors self plain)
                /\ 0 <= b_time self
                /\ (b_time self = 0 -> items (b_weights self) = [])).
  set (Good := fun instance : list F * pyobj => boolean (snd instance)).
  assert (Hrandom : forall self rng, Inv self -> Inv (b_with_random self rng))
    by (intros self rng Hinv; exact Hinv).
  assert (Hshuffled : forall rng data,
             Forall Good data -> Forall Good (fst (shuffle src rng data))).
  { intros rng data Hgood. apply Forall_forall. intros instance Hin.
    rewrite Forall_forall in Hgood. apply Hgood.
    apply (Permutation_in _ (Hshuffle _ rng data)). exact Hin. }
  assert (Hstep : forall self x y, Inv self -> Good (x, y) ->
             exists yhat self',
               BinaryAveragedPerceptron.fit_one self x y = Ok (yhat, self')
               /\ Inv self').
  { intros self x y ([plain Hmirror] & Htime & _) [b Hb]. cbn [snd] in Hb. subst y.
    destruct (binary_averaged_fit_one_steps self plain x b Hmirror)
      as (yhat & self1 & plain1 & Hrun & _ & Hmirror1 & Htime1).
    exists yhat, self1. split; [exact Hrun|].
    split; [now exists plain1|]. split; lia. }
  assert (Hfinal : forall self, Inv self ->
             exists self', BinaryAveragedPerceptron.finalize self = Ok self' /\ True).
  { intros self (_ & Htime & Hempty).
    destruct (binary_averaged_finalize_returns self) as (self' & Hfin).
    - destruct (Z.eq_dec (b_time self) 0) as [Hzero|Hnz]; [right; auto|now left].
    - exists self'. auto. }
  assert (Hnew : Inv (BinaryAveragedPerceptron.__init__ src seed)).
  { split; [|split; [reflexivity|reflexivity]].
    exists (BinaryPerceptron.__init__ src seed). repeat split. }
  assert (Hdata : Forall Good (combine Xs Ys)).
  { clear -Hbool. revert Ys Hbool.
    induction Xs as [|x Xs IH]; intros [|y Ys] Hbool; cbn [combine];
      try constructor.
    - apply Forall_cons_iff in Hbool. apply Hbool.
    - apply IH. apply Forall_cons_iff in Hbool. apply Hbool. }
  destruct (fit_with_returns src clock (Accuracy acc) (acc_accuracy acc)
              (@b_random F Rng LazyWeight.t) b_with_random
              BinaryAveragedPerceptron.fit_one BinaryAveragedPerceptron.finalize
              (acc_update acc) Inv (fun _ => True) Good
              Hrandom Hshuffled Hstep Hfinal
              (BinaryAveragedPerceptron.__init__ src seed) Xs Ys epochs w
              Hnew Hdata)
    as (self' & w' & Hrun & _).
  exists self', w'. exact Hrun.
Qed.

End BinaryAveragedFacts.

Lemma binary_averaged_fit_one_mirrors_plain_witness :
  let averaged : binary string Z LazyWeight.t :=
    BinaryAveragedPerceptron.__init__ example_source None in
  let plain : binary string Z Z := BinaryPerceptron.__init__ example_source None in
  binary_mirrors averaged plain
  /\ (exists yhat averaged' plain',
         BinaryAveragedPerceptron.fit_one averaged ["a"; "b"] (PyBool false)
         = Ok (yhat, averaged')
         /\ BinaryPerceptron_fit_one plain ["a"; "b"] (PyBool false)
            = Ok (yhat, plain')
         /\ binary_mirrors averaged' plain'
         /\ b_time averaged' = b_time averaged + 1)
  /\ binary_mirrors (BinaryAveragedPerceptron.__init__ example_source (Some 7))
                    (BinaryPerceptron.__init__ (F := string) example_source (Some 7)).
Proof.
  intros averaged plain.
  assert (Hmirror : binary_mirrors averaged plain) by (repeat split).
  split; [exact Hmirror|].
  exact (binary_averaged_fit_one_mirrors_plain averaged plain ["a"; "b"] false
           example_source (Some 7) Hmirror).
Defined.

Lemma binary_averaged_fit_returns_witness :
  shuffle_ok example_source
  /\ Forall boolean [PyBool true; PyBool false]
  /\ exists self' w',
       BinaryAveragedPerceptron_fit example_source example_clock
         (example_accuracy (fun y yhat => py_eq y (PyBool yhat)))
         (BinaryAveragedPerceptron.__init__ example_source None)
         [["a"]; ["b"]] [PyBool true; PyBool false] 2
         {| clock_reads := 0; emitted := [] |} = Ok (self', w').
Proof.
  assert (Hbool : Forall boolean [PyBool true; PyBool false]).
  { repeat constructor; eexists; reflexivity. }
  split; [exact example_source_shuffles|]. split; [exact Hbool|].
  exact (binary_averaged_fit_returns example_source example_clock
           (example_accuracy (fun y yhat => py_eq y (PyBool yhat))) None
           [["a"]; ["b"]] [PyBool true; PyBool false] 2
           {| clock_reads := 0; emitted := [] |} example_source_shuffles Hbool).
Defined.

(** ** Runs in step *)

Lemma bind_rel {A A' B B' : Type} (R : A -> A' -> Prop) (Q : B -> B' -> Prop)
  (r : result A) (r' : result A') (k : A -> result B) (k' : A' -> result B') :
  result_rel R r r' ->
  (forall a a', R a a' -> result_rel Q (k a) (k' a')) ->
  result_rel Q (bind r k) (bind r' k').
Proof.
  destruct r as [a|e], r' as [a'|e']; cbn; try easy.
  intros Ha Hk. now apply Hk.
Qed.

Lemma for_each_rel {A A' S S' : Type} (Q : A -> A' -> Prop) (R : S -> S' -> Prop)
  (body : S -> A -> result S) (body' : S' -> A' -> result S') :
  (forall s s' a a', R s s' -> Q a a' -> result_rel R (body s a) (body' s' a')) ->
  forall l l', Forall2 Q l l' ->
  forall s s', R s s' -> result_rel R (for_each body l s) (for_each body' l' s').
Proof.
  intros Hbody l l' Hall. induction Hall as [|a a' l l' Ha Hall IH]; intros s s' Hs.
  - exact Hs.
  - cbn [for_each]. apply (bind_rel R R); [now apply Hbody|exact IH].
Qed.

Lemma Forall2_same {A : Type} (l : list A) : Forall2 eq l l.
Proof. induction l; constructor; auto. Qed.

Section MirroredFacts.
Context {K V V' : Type} `{Hashable K} `{Factory V} `{Factory V'}.
Variable R : V -> V' -> Prop.
Hypothesis factory_related : R factory factory.

Lemma assoc_mirrored (k : K) (l : list (K * V)) (l' : list (K * V')) :
  Forall2 (fun kv kv' => fst kv = fst kv' /\ R (snd kv) (snd kv')) l l' ->
  match assoc k l, assoc k l' with
  | Some v, Some v' => R v v'
  | None, None => True
  | _, _ => False
  end.
Proof.
  induction 1 as [|[k0 v0] [k0' v0'] l l' [Hk Hv] Hall IH]; [exact I|].
  cbn [fst snd] in Hk, Hv. subst k0'. cbn [assoc].
  destruct (key_eqb k k0); [exact Hv|exact IH].
Qed.

Lemma assoc_set_mirrored (k : K) (v : V) (v' : V')
  (l : list (K * V)) (l' : list (K * V')) :
  R v v' ->
  Forall2 (fun kv kv' => fst kv = fst kv' /\ R (snd kv) (snd kv')) l l' ->
  Forall2 (fun kv kv' => fst kv = fst kv' /\ R (snd kv) (snd kv'))
          (assoc_set k v l) (assoc_set k v' l').
Proof.
  intro Hv. induction 1 as [|[k0 v0] [k0' v0'] l l' [Hk Hv0] Hall IH].
  - constructor; [split; [reflexivity|exact Hv]|constructor].
  - cbn [fst snd] in Hk, Hv0. subst k0'. cbn [assoc_set].
    destruct (key_eqb k k0); constructor; auto.
Qed.

Lemma setitem_mirrored (d : dict K V) (d' : dict K V') (k : K) (v : V) (v' : V') :
  mirrored R d d' -> R v v' -> mirrored R (setitem d k v) (setitem d' k v').
Proof.
  intros [Hdef Hall] Hv. split; [exact Hdef|].
  cbn [setitem items]. now apply assoc_set_mirrored.
Qed.

Lemma getitem_mirrored (d : dict K V) (d' : dict K V') (k : K) :
  mirrored R d d' ->
  result_rel (fun r r' => R (fst r) (fst r') /\ mirrored R (snd r) (snd r'))
             (getitem d k) (getitem d' k).
Proof.
  intros [Hdef Hall]. unfold getitem.
  pose proof (assoc_mirrored k _ _ Hall) as Hk.
  destruct (assoc k (items d)) as [v|], (assoc k (items d')) as [v'|];
    try contradiction.
  - cbn. split; [exact Hk|split; assumption].
  - rewrite <- Hdef. destruct (defaulting d) eqn:Hd; cbn; [|reflexivity].
    split; [exact factory_related|].
    apply setitem_mirrored; [split; [congruence|assumption]|exact factory_related].
Qed.

End MirroredFacts.

Section AveragedInStep.
Context {F C Rng : Type} `{Hashable F} `{Hashable C}.
Variable set_iter : list C -> list C.

Lemma fresh_reads_zero : reads_int (factory : LazyWeight.t) (factory : Z).
Proof. reflexivity. Qed.

Lemma empty_rows_mirrored :
  mirrored reads_int (factory : dict C LazyWeight.t) (factory : dict C Z).
Proof. split; [reflexivity|constructor]. Qed.

Lemma zero_is_int : is_int (factory : num) (factory : Z).
Proof. reflexivity. Qed.

Lemma fromkeys_mirrored (keys : list C) :
  mirrored is_int (fromkeys keys (PyInt 0)) (fromkeys keys 0).
Proof.
  unfold fromkeys.
  assert (Hgen : forall (d : dict C num) (d' : dict C Z),
             mirrored is_int d d' ->
             mirrored is_int (fold_left (fun d k => setitem d k (PyInt 0)) keys d)
                             (fold_left (fun d k => setitem d k 0) keys d')).
  { induction keys as [|k keys IH]; intros d d' Hd; [exact Hd|].
    cbn [fold_left]. apply IH. apply setitem_mirrored; [exact Hd|reflexivity]. }
  apply Hgen. split; [reflexivity|constructor].
Qed.

Lemma with_weights_mirrors (a : multiclass F C Rng LazyWeight.t)
  (p : multiclass F C Rng Z) ws ws' :
  mirrors a p -> mirrored (mirrored reads_int) ws ws' ->
  mirrors (with_weights a ws) (with_weights p ws').
Proof. intros [Hcl _] Hws. split; assumption. Qed.

(** [scores] of the averaged model and of the plain model it mirrors. *)
Lemma scores_in_step (a : multiclass F C Rng LazyWeight.t)
  (p : multiclass F C Rng Z) (x : list F) :
  mirrors a p ->
  result_rel (fun r r' => mirrored is_int (fst r) (fst r')
                          /\ mirrors (snd r) (snd r')
                          /\ time (snd r) = time a)
             (AveragedPerceptron.scores set_iter a x)
             (Perceptron.scores set_iter p x).
Proof.
  intros Hm. unfold AveragedPerceptron.scores, Perceptron.scores.
  apply (for_each_rel eq
           (fun (r : dict C num * multiclass F C Rng LazyWeight.t)
                (r' : dict C Z * multiclass F C Rng Z) =>
              mirrored is_int (fst r) (fst r')
              /\ mirrors (snd r) (snd r') /\ time (snd r) = time a)).
  - intros [t s] [t' s'] f f' (Ht & Hs & Htime) <-. cbn [fst snd] in *.
    apply (bind_rel (fun r r' => mirrored reads_int (fst r) (fst r')
                                 /\ mirrored (mirrored reads_int) (snd r) (snd r'))).
    + apply getitem_mirrored; [exact empty_rows_mirrored|apply Hs].
    + intros [row ws] [row' ws'] [Hrow Hws]. cbn [fst snd] in *.
      apply (bind_rel (mirrored is_int)).
      * apply (for_each_rel
                 (fun (kv : C * LazyWeight.t) (kv' : C * Z) =>
                    fst kv = fst kv' /\ reads_int (snd kv) (snd kv'))
                 (mirrored is_int)); [|apply Hrow|exact Ht].
        intros t0 t0' [c lw] [c' z] Ht0 [Hc Hlw]. cbn [fst snd] in Hc, Hlw.
        subst c'.
        apply (bind_rel (fun r r' => is_int (fst r) (fst r')
                                     /\ mirrored is_int (snd r) (snd r'))).
        -- apply getitem_mirrored; [exact zero_is_int|exact Ht0].
        -- intros [old t1] [old' t1'] [Hold Ht1]. cbn [fst snd] in *.
           cbn [result_rel]. apply setitem_mirrored; [exact Ht1|].
           unfold is_int in *. unfold reads_int in Hlw. rewrite Hold, Hlw.
           reflexivity.
      * intros t1 t1' Ht1. cbn [result_rel fst snd].
        split; [exact Ht1|]. split; [now apply with_weights_mirrors|exact Htime].
  - apply Forall2_same.
  - cbn [fst snd]. destruct Hm as [Hcl Hws]. rewrite Hcl.
    split; [apply fromkeys_mirrored|]. split; [split; assumption|reflexivity].
Qed.

Lemma num_gt_int (a b : Z) : num_gt (PyInt a) (PyInt b) = (a >? b).
Proof.
  unfold num_gt, Qle_bool. cbn. rewrite !Z.mul_1_r.
  rewrite Z.gtb_ltb, Z.ltb_antisym. reflexivity.
Qed.

Lemma max_from_in_step (rest : list (C * num)) (rest' : list (C * Z)) :
  Forall2 (fun kv kv' => fst kv = fst kv' /\ is_int (snd kv) (snd kv')) rest rest' ->
  forall (best : C * num) (best' : C * Z),
    fst best = fst best' -> is_int (snd best) (snd best') ->
    fst (max_from best rest) = fst (max_from best' rest').
Proof.
  induction 1 as [|[c n] [c' z] rest rest' [Hc Hn] Hall IH];
    intros [b bn] [b' bz] Hb Hbn; [exact Hb|].
  cbn [fst snd] in *. subst c' b'. unfold is_int in Hn, Hbn. subst n bn.
  cbn [max_from snd]. unfold s_gt, Scalar_num, Scalar_Z. rewrite num_gt_int.
  destruct (z >? bz); apply IH; reflexivity.
Qed.

Lemma argmax_in_step (t : dict C num) (t' : dict C Z) :
  mirrored is_int t t' ->
  result_rel (fun kv kv' => fst kv = fst kv')
             (max_by_value (items t)) (max_by_value (items t')).
Proof.
  intros [_ Hall]. unfold max_by_value.
  destruct Hall as [|[c n] [c' z] rest rest' [Hc Hn] Hall]; [reflexivity|].
  cbn [result_rel]. now apply max_from_in_step.
Qed.

(** [update] of the averaged model and of the plain model it mirrors. *)
Lemma update_in_step (a : multiclass F C Rng LazyWeight.t)
  (p : multiclass F C Rng Z) (x : list F) (y yhat : C) (tau : Z) :
  mirrors a p ->
  result_rel (fun a' p' => mirrors a' p' /\ time a' = time a)
             (AveragedPerceptron.update a x y yhat tau)
             (Perceptron.update p x y yhat tau).
Proof.
  intro Hm. unfold AveragedPerceptron.update, Perceptron.update.
  apply (for_each_rel eq
           (fun (a' : multiclass F C Rng LazyWeight.t) (p' : multiclass F C Rng Z) =>
              mirrors a' p' /\ time a' = time a));
    [|apply Forall2_same|split; [exact Hm|reflexivity]].
  intros s s' f f' [Hs Htime] <-.
  apply (bind_rel (fun r r' => mirrored reads_int (fst r) (fst r')
                               /\ mirrored (mirrored reads_int) (snd r) (snd r'))).
  - apply getitem_mirrored; [exact empty_rows_mirrored|apply Hs].
  - intros [row ws] [row' ws'] [Hrow Hws]. cbn [fst snd] in *.
    apply (bind_rel (fun r r' => reads_int (fst r) (fst r')
                                 /\ mirrored reads_int (snd r) (snd r'))).
    + apply getitem_mirrored; [exact fresh_reads_zero|exact Hrow].
    + intros [w row1] [w' row1'] [Hw Hrow1]. cbn [fst snd] in *.
      apply (bind_rel (fun r r' => reads_int (fst r) (fst r')
                                   /\ mirrored reads_int (snd r) (snd r'))).
      * apply getitem_mirrored; [exact fresh_reads_zero|].
        apply setitem_mirrored; [exact Hrow1|].
        unfold reads_int, LazyWeight.get, LazyWeight.update in *.
        cbn [LazyWeight.weight LazyWeight._freshen]. rewrite Hw. reflexivity.
      * intros [w2 row2] [w2' row2'] [Hw2 Hrow2]. cbn [fst snd] in *.
        cbn [result_rel]. split; [|exact Htime].
        apply with_weights_mirrors; [exact Hs|].
        apply setitem_mirrored; [exact Hws|].
        apply setitem_mirrored; [exact Hrow2|].
        unfold reads_int, LazyWeight.get, LazyWeight.update in *.
        cbn [LazyWeight.weight LazyWeight._freshen]. rewrite Hw2.
        cbn [num_add]. f_equal; lia.
Qed.

(** One training step on an averaged model and on the plain model it
    mirrors. *)
Lemma fit_one_in_step (a : multiclass F C Rng LazyWeight.t)
  (p : multiclass F C Rng Z) (x : list F) (y : C) :
  mirrors a p ->
  result_rel (fun r r' => fst r = fst r'
                          /\ mirrors (snd r) (snd r')
                          /\ time (snd r) = time a + 1)
             (AveragedPerceptron_fit_one set_iter a x y)
             (Perceptron_fit_one set_iter p x y).
Proof.
  intros [Hcl Hws].
  unfold AveragedPerceptron_fit_one, AveragedPerceptron.fit_one, Perceptron_fit_one,
    Perceptron.fit_one, AveragedPerceptron_predict, Perceptron_predict,
    Perceptron.predict.
  set (a1 := with_classes a (set_add (classes a) y)).
  set (p1 := with_classes p (set_add (classes p) y)).
  assert (Hm1 : mirrors a1 p1).
  { split; [cbn [a1 p1 with_classes classes]; now rewrite Hcl|exact Hws]. }
  pose proof (scores_in_step a1 p1 x Hm1) as Hscores.
  destruct (AveragedPerceptron.scores set_iter a1 x) as [[t a2]|e],
           (Perceptron.scores set_iter p1 x) as [[t' p2]|e'];
    cbn [result_rel fst snd] in Hscores; try contradiction;
    [|cbn; exact Hscores].
  destruct Hscores as (Ht & Hm2 & Htime2). cbn [bind].
  pose proof (argmax_in_step t t' Ht) as Hmax.
  destruct (max_by_value (items t)) as [[yhat v]|e],
           (max_by_value (items t')) as [[yhat' v']|e'];
    cbn [result_rel fst] in Hmax; try contradiction; [|cbn; exact Hmax].
  subst yhat'. cbn [bind].
  destruct (negb (key_eqb y yhat)).
  - pose proof (update_in_step a2 p2 x y yhat 1 Hm2) as Hupd.
    destruct (AveragedPerceptron.update a2 x y yhat 1) as [a3|e],
             (Perceptron.update p2 x y yhat 1) as [p3|e'];
      cbn [result_rel] in Hupd; try contradiction; [|cbn; exact Hupd].
    destruct Hupd as [Hm3 Htime3]. cbn [bind result_rel fst snd with_time time].
    split; [reflexivity|]. split; [|cbn [a1 with_classes time] in *; lia].
    destruct Hm3 as [Hcl3 Hws3]. split; assumption.
  - cbn [bind result_rel fst snd with_time time].
    split; [reflexivity|]. split; [|cbn [a1 with_classes time] in *; lia].
    destruct Hm2 as [Hcl2 Hws2]. split; assumption.
Qed.

End AveragedInStep.

Section AveragedTraining.
Context {F C Rng : Type} `{Hashable F} `{Hashable C}.

Lemma averaged_finalize_returns (self : multiclass F C Rng LazyWeight.t) :
  defaulting (weights self) = true ->
  time self <> 0 \/ items (weights self) = [] ->
  exists self', AveragedPerceptron.finalize self = Ok self'.
Proof.
  intros Hdef Hready. unfold AveragedPerceptron.finalize.
  destruct Hready as [Hnow|Hnone].
  - set (Inv := fun acc : list (F * C) * dict F (dict C LazyWeight.t) =>
                  fst acc = [] /\ defaulting (snd acc) = true).
    destruct (for_each_returns Inv
                (fun (acc : list (F * C) * dict F (dict C LazyWeight.t))
                     (entry : F * dict C LazyWeight.t) =>
                   let (feature, clsweights) := entry in
                   for_each
                     (fun (acc : list (F * C) * dict F (dict C LazyWeight.t))
                          (item : C * LazyWeight.t) =>
                        let (ready2die, ws) := acc in
                        let (cls, weight) := item in
                        if LazyWeight.eq_float weight 0
                        then Ok (ready2die ++ [(feature, cls)], ws)
                        else
                          weight <- LazyWeight.average weight (time self) ;;
                          '(held, ws) <- getitem ws feature ;;
                          Ok (ready2die, setitem ws feature (setitem held cls weight)))
                     (items clsweights) acc))
      with (l := items (weights self)) (s := (@nil (F * C), weights self))
      as ([ready2die ws] & -> & Hnone & _).
    + intros acc [feature clsweights] Hacc.
      apply for_each_returns; [|exact Hacc].
      intros [dead ws] [cls lw] [Hdead Hws]. cbn [fst snd] in Hdead, Hws.
      cbn [LazyWeight.eq_float].
      unfold LazyWeight.average, num_truediv. cbn [num_is_zero].
      destruct (Z.eqb_spec (time self) 0) as [Hzero|_]; [contradiction|].
      cbn [bind]. unfold getitem.
      destruct (assoc feature (items ws)) as [held|].
      * cbn [bind]. eexists. split; [reflexivity|]. split; [exact Hdead|exact Hws].
      * rewrite Hws. cbn [bind]. eexists. split; [reflexivity|].
        split; [exact Hdead|exact Hws].
    + split; [reflexivity|exact Hdef].
    + cbn [fst] in Hnone. subst ready2die. cbn [bind for_each].
      eexists. reflexivity.
  - rewrite Hnone. cbn [for_each bind]. eexists. reflexivity.
Qed.

(** X18: averaging does not change the course of training of the
    multiclass model.  When an averaged model holds the same classes and
    rows as a plain model and its weights read the integers the plain
    model holds, [fit_one] has the same outcome on both: the same
    exception, or the same prediction, with the two models again in step
    and the clock of the averaged model advanced by one.  The new models
    start out in step. *)
Theorem multiclass_averaged_fit_one_mirrors_plain
  (set_iter : list C -> list C)
  (averaged : multiclass F C Rng LazyWeight.t) (plain : multiclass F C Rng Z)
  (x : list F) (y : C) (src : random_source Rng) (default : C) (seed : option Z) :
  mirrors averaged plain ->
  result_rel (fun r r' => fst r = fst r'
                          /\ mirrors (snd r) (snd r')
                          /\ time (snd r) = time averaged + 1)
             (AveragedPerceptron_fit_one set_iter averaged x y)
             (Perceptron_fit_one set_iter plain x y)
  /\ mirrors (AveragedPerceptron.__init__ src default seed)
             (Perceptron.__init__ (F := F) src default seed).
Proof.
  intro Hm. split; [now apply fit_one_in_step|].
  split; [reflexivity|]. split; [reflexivity|constructor].
Qed.

(** X19: training a new averaged multiclass perceptron never raises: for
    every data set, every number of epochs and every admissible
    iteration order of the class set, [fit] on the model the constructor
    returns runs through all epochs and [finalize] and returns.  (The
    accuracy record, the clock and the log are taken to return.) *)
Theorem multiclass_averaged_fit_returns
  {Acc : Type} (set_iter : list C -> list C) (src : random_source Rng)
  (clock : nat -> Q) (acc : accuracy_api Acc C C) (default : C) (seed : option Z)
  (Xs : list (list F)) (Ys : list C) (epochs : Z) (w : world) :
  iter_ok set_iter ->
  exists self' w',
    AveragedPerceptron_fit set_iter src clock acc
      (AveragedPerceptron.__init__ src default seed) Xs Ys epochs w = Ok (self', w').
Proof.
  intro Hiter. unfold AveragedPerceptron_fit, Classifier.fit.
  set (Inv := fun self : multiclass F C Rng LazyWeight.t =>
                (exists plain : multiclass F C Rng Z,
                    mirrors self plain /\ consistent plain)
                /\ 0 <= time self
                /\ (time self = 0 -> items (weights self) = [])).
  assert (Hrandom : forall self rng, Inv self -> Inv (with_random self rng))
    by (intros self rng Hinv; exact Hinv).
  assert (Hshuffled : forall rng (data : list (list F * C)),
             Forall (fun _ => True) data ->
             Forall (fun _ => True) (fst (shuffle src rng data))).
  { intros rng data _. apply Forall_forall. intros instance _. exact I. }
  assert (Hstep : forall self x y, Inv self -> True ->
             exists yhat self',
               AveragedPerceptron_fit_one set_iter self x y = Ok (yhat, self')
               /\ Inv self').
  { intros self x y ((plain & Hm & Hcons) & Htime & _) _.
    pose proof (fit_one_in_step set_iter self plain x y Hm) as Hsame.
    destruct (fit_one_consistent set_iter Hiter x y plain Hcons)
      as (yhat & plain1 & Hplain & Hcons1 & _).
    rewrite Hplain in Hsame.
    destruct (AveragedPerceptron_fit_one set_iter self x y) as [[yhat1 self1]|e];
      cbn [result_rel fst snd] in Hsame; [|contradiction].
    destruct Hsame as (-> & Hm1 & Htime1).
    exists yhat, self1. split; [reflexivity|].
    split; [now exists plain1|]. split; lia. }
  assert (Hfinal : forall self, Inv self ->
             exists self', AveragedPerceptron.finalize self = Ok self' /\ True).
  { intros self ((plain & [_ [Hdef _]] & [[Hdefp _] _]) & Htime & Hempty).
    destruct (averaged_finalize_returns self) as (self' & Hfin).
    - congruence.
    - destruct (Z.eq_dec (time self) 0) as [Hzero|Hnz]; [right; auto|now left].
    - exists self'. auto. }
  assert (Hnew : Inv (AveragedPerceptron.__init__ src default seed)).
  { split; [|split; [reflexivity|reflexivity]].
    exists (Perceptron.__init__ src default seed). split.
    - split; [reflexivity|]. split; [reflexivity|constructor].
    - repeat split; cbn; try discriminate. intros f d c v []. }
  assert (Hdata : Forall (fun _ : list F * C => True) (combine Xs Ys)).
  { apply Forall_forall. intros instance _. exact I. }
  destruct (fit_with_returns src clock (Accuracy acc) (acc_accuracy acc)
              (@random F C Rng LazyWeight.t) with_random
              (AveragedPerceptron_fit_one set_iter) AveragedPerceptron.finalize
              (acc_update acc) Inv (fun _ => True) (fun _ => True)
              Hrandom Hshuffled Hstep Hfinal
              (AveragedPerceptron.__init__ src default seed) Xs Ys epochs w
              Hnew Hdata)
    as (self' & w' & Hrun & _).
  exists self', w'. exact Hrun.
Qed.

End AveragedTraining.

Lemma multiclass_averaged_fit_one_mirrors_plain_witness :
  let averaged : multiclass string string Z LazyWeight.t :=
    AveragedPerceptron.__init__ example_source "B" (Some 0) in
  let plain : multiclass string string Z Z :=
    Perceptron.__init__ example_source "B" (Some 0) in
  mirrors averaged plain
  /\ result_rel (fun r r' => fst r = fst r'
                             /\ mirrors (snd r) (snd r')
                             /\ time (snd r) = time averaged + 1)
                (AveragedPerceptron_fit_one insertion_order averaged ["f"] "A")
                (Perceptron_fit_one insertion_order plain ["f"] "A")
  /\ mirrors (AveragedPerceptron.__init__ example_source "B" None)
             (Perceptron.__init__ (F := string) example_source "B" None).
Proof.
  intros averaged plain.
  assert (Hm : mirrors averaged plain).
  { split; [reflexivity|]. split; [reflexivity|constructor]. }
  split; [exact Hm|].
  exact (multiclass_averaged_fit_one_mirrors_plain insertion_order averaged plain
           ["f"] "A" example_source "B" None Hm).
Defined.

Lemma multiclass_averaged_fit_returns_witness :
  iter_ok (@insertion_order string)
  /\ exists self' w',
       AveragedPerceptron_fit insertion_order example_source example_clock
         (example_accuracy (fun y yhat : string => key_eqb y yhat))
         (AveragedPerceptron.__init__ example_source "B" (Some 0))
         [["f"]; ["g"]] ["A"; "B"] 2 {| clock_reads := 0; emitted := [] |}
       = Ok (self', w').
Proof.
  split; [exact insertion_order_ok|].
  exact (multiclass_averaged_fit_returns insertion_order example_source example_clock
           (example_accuracy (fun y yhat : string => key_eqb y yhat))
           "B" (Some 0) [["f"]; ["g"]] ["A"; "B"] 2
           {| clock_reads := 0; emitted := [] |} insertion_order_ok).
Defined.

(** ** Training a sequence model of order 0 *)

Section SequenceTraining.
Context {F C Rng : Type} `{Hashable F} `{Hashable C}.
Variable set_iter : list C -> list C.
Hypothesis set_iter_ok : iter_ok set_iter.

Lemma set_update_In (ks : list C) :
  forall (s : list C) (c : C), In c (set_update s ks) <-> In c s \/ In c ks.
Proof.
  unfold set_update. induction ks as [|k ks IH]; intros s c; cbn [fold_left In].
  - tauto.
  - rewrite IH, (set_add_In s k c). split.
    + intros [[Hin|Heq]|Hin]; auto.
    + intros [Hin|[Heq|Hin]]; auto.
Qed.

(** Order-0 decoding on a consistent model returns a registered label
    for every token. *)
Lemma markov0_returns (xx : list (list F)) :
  forall (self : multiclass F C Rng Z) (acc : list C),
    consistent self ->
    exists labels self',
      for_each
        (fun (acc : list C * multiclass F C Rng Z) x =>
           let (yyhat, self) := acc in
           '(scores, self) <- Perceptron.scores set_iter self x ;;
           '(yhat, _) <- max_by_value (items scores) ;;
           Ok (yyhat ++ [yhat], self))
        xx (acc, self) = Ok (acc ++ labels, self')
      /\ consistent self'
      /\ classes self' = classes self
      /\ order self' = order self
      /\ List.length labels = List.length xx
      /\ Forall (fun yhat => In yhat (classes self)) labels.
Proof.
  induction xx as [|x xx IH]; intros self acc Hcons.
  - exists [], self. rewrite app_nil_r. cbn.
    split; [reflexivity|]. split; [exact Hcons|]. auto.
  - cbn [for_each].
    destruct (scores_returns set_iter set_iter_ok x self Hcons)
      as (table & self1 & Hscores & Hcons1 & Hcl1 & Hkeys).
    rewrite Hscores. cbn [bind].
    destruct (max_by_value_nonempty (items table)) as ([yhat v] & -> & Hin).
    { destruct Hcons as (_ & Hne & _). intro Hempty.
      destruct (classes self) as [|c0 rest] eqn:Hcls; [easy|].
      assert (Hc0 : In c0 (map fst (items table))) by (apply Hkeys; now left).
      rewrite Hempty in Hc0. destruct Hc0. }
    cbn [bind].
    assert (Horder1 : order self1 = order self).
    { unfold Perceptron.scores in Hscores.
      apply (for_each_preserves
               (fun st : dict C Z * multiclass F C Rng Z => order (snd st)))
        in Hscores; [exact Hscores|].
      intros [t0 s0] f [t1 s1] Hstep. split_runs. subst. reflexivity. }
    destruct (IH self1 (acc ++ [yhat]) Hcons1)
      as (labels & self' & Hrun & Hcons' & Hcl' & Horder' & Hlen & Hall).
    exists (yhat :: labels), self'. unfold Perceptron.t in *.
    rewrite Hrun, <- app_assoc. cbn [app].
    split; [reflexivity|]. split; [exact Hcons'|]. split; [congruence|].
    split; [congruence|]. split; [cbn [List.length]; lia|].
    constructor.
    + apply Hkeys. change yhat with (fst (yhat, v)). now apply in_map.
    + rewrite <- Hcl1. exact Hall.
Qed.

Lemma sequence_fit_one_consistent (self : multiclass F C Rng Z)
  (xx : list (list F)) (yy : list C) :
  consistent self -> order self <= 0 ->
  exists yyhat self',
    SequencePerceptron_fit_one set_iter self xx yy = Ok (yyhat, self')
    /\ consistent self'
    /\ order self' = order self
    /\ classes self' = set_update (classes self) yy
    /\ List.length yyhat = List.length xx.
Proof.
  intros (Htrain & Hnonempty & Hreg) Horder.
  unfold SequencePerceptron_fit_one, SequencePerceptron.fit_one,
    SequencePerceptron.predict_with_transitions.
  set (self1 := with_classes self (set_update (classes self) yy)).
  assert (Hcons1 : consistent self1).
  { repeat split; try apply Htrain.
    - cbn [self1 with_classes classes]. intro Hempty.
      destruct (classes self) as [|c0 rest] eqn:Hcls; [easy|].
      assert (Hin : In c0 (set_update (c0 :: rest) yy))
        by (apply set_update_In; left; now left).
      rewrite Hempty in Hin. destruct Hin.
    - intros f d c w Hin Hcw. cbn [self1 with_classes classes].
      apply set_update_In. left. now apply (Hreg f d c w). }
  change (order self1) with (order self).
  destruct (Z.leb_spec (order self) 0) as [_|Hgt]; [|lia].
  unfold SequencePerceptron._markov0_predict.
  destruct (markov0_returns xx self1 [] Hcons1)
    as (yyhat & self2 & Hdecode & Hcons2 & Hcl2 & Horder2 & Hlen & Hall).
  unfold Perceptron.t in *. rewrite Hdecode.
  cbn [bind app].
  assert (Hloop : forall (rows : list (list F * (C * C)))
                         (s : multiclass F C Rng Z),
             consistent s -> classes s = classes self1 -> order s = order self ->
             Forall (fun row => In (fst (snd row)) (classes self1)
                                /\ In (snd (snd row)) (classes self1)) rows ->
             exists s',
               for_each
                 (fun (s : multiclass F C Rng Z) (row : list F * (C * C)) =>
                    let '(xt, (y, yhat)) := row in
                    if negb (key_eqb y yhat) then Perceptron.update s xt y yhat 1
                    else Ok s)
                 rows s = Ok s'
               /\ consistent s' /\ classes s' = classes self1
               /\ order s' = order self).
  { induction rows as [|[xt [y yhat]] rows IH]; intros s Hs Hcl Hord Hrows.
    - exists s. auto.
    - apply Forall_cons_iff in Hrows. destruct Hrows as [[Hy Hyhat] Hrows].
      cbn [fst snd] in Hy, Hyhat. cbn [for_each].
      destruct (negb (key_eqb y yhat)).
      + destruct (update_consistent xt y yhat 1 s Hs) as (s1 & Hupd & Hs1 & Hcl1);
          [now rewrite Hcl|now rewrite Hcl|].
        rewrite Hupd. cbn [bind].
        apply IH; [exact Hs1|congruence| |exact Hrows].
        unfold Perceptron.update in Hupd.
        apply (for_each_preserves (@order F C Rng Z)) in Hupd; [congruence|].
        intros s0 f s0' Hstep. split_runs. subst. reflexivity.
      + cbn [bind]. now apply IH. }
  destruct (Hloop (combine xx (combine yy yyhat)) self2 Hcons2 Hcl2)
    as (self3 & -> & Hcons3 & Hcl3 & Horder3).
  { exact Horder2. }
  { apply Forall_forall. intros [xt [y yhat]] Hin. cbn [fst snd].
    apply in_combine_r in Hin. split.
    - apply in_combine_l in Hin. cbn [self1 with_classes classes].
      apply set_update_In. now right.
    - apply in_combine_r in Hin. rewrite Forall_forall in Hall. now apply Hall. }
  cbn [bind]. exists yyhat, self3.
  split; [reflexivity|]. split; [exact Hcons3|]. split; [exact Horder3|].
  split; [exact Hcl3|exact Hlen].
Qed.

(** X20: a sequence model of order 0 can be trained.  On a model as the
    constructor and earlier steps leave it, with [order <= 0], the
    sequence [fit_one(xx, yy)] never raises, whatever the lengths of [xx]
    and [yy]: it returns one label per token of [xx], registers every
    label of [yy], and leaves a model on which the next step cannot fail
    either.  [fit] on a new sequence model of order 0 therefore runs
    through all epochs and [finalize] and returns.  (The accuracy record,
    the clock and the log are taken to return.) *)
Theorem sequence_training_returns_with_order_zero
  {Acc : Type} (src : random_source Rng) (clock : nat -> Q)
  (acc : accuracy_api Acc C C)
  (self : multiclass F C Rng Z) (xx : list (list F)) (yy : list C)
  (tfeats : list C -> list F) (default : C) (seed : option Z)
  (XX : list (list (list F))) (YY : list (list C)) (epochs : Z) (w : world) :
  consistent self -> order self <= 0 ->
  (exists yyhat self',
      SequencePerceptron_fit_one set_iter self xx yy = Ok (yyhat, self')
      /\ List.length yyhat = List.length xx
      /\ classes self' = set_update (classes self) yy
      /\ consistent self' /\ order self' = order self)
  /\ exists trained w',
       SequencePerceptron_fit set_iter src clock acc
         (SequencePerceptron.__init__ src tfeats 0 default seed) XX YY epochs w
       = Ok (trained, w').
Proof.
  intros Hcons Horder. split.
  - destruct (sequence_fit_one_consistent self xx yy Hcons Horder)
      as (yyhat & self' & Hrun & Hcons' & Horder' & Hcl & Hlen).
    exists yyhat, self'. auto.
  - unfold SequencePerceptron_fit, SequencePerceptron.fit.
    set (Inv := fun s : multiclass F C Rng Z => consistent s /\ order s <= 0).
    destruct (fit_with_returns src clock (Accuracy acc) (acc_accuracy acc)
                (@random F C Rng Z) with_random
                (SequencePerceptron_fit_one set_iter) Perceptron.finalize
                (fun accuracy (yy0 yyhat0 : list C) =>
                   fold_left (fun a (p : C * C) => acc_update acc a (fst p) (snd p))
                             (combine yy0 yyhat0) accuracy)
                Inv (fun _ => True) (fun _ => True))
      with (self := SequencePerceptron.__init__ (F := F) src tfeats 0 default seed)
           (Xs := XX) (Ys := YY) (epochs := epochs) (w := w)
      as (trained & w' & Hrun & _).
    + intros s rng Hs. destruct s. exact Hs.
    + intros rng data _. apply Forall_forall. intros instance _. exact I.
    + intros s xx0 yy0 [Hs Hord] _.
      destruct (sequence_fit_one_consistent s xx0 yy0 Hs Hord)
        as (yyhat & s' & Hrun & Hs' & Hord' & _).
      exists yyhat, s'. split; [exact Hrun|]. split; [exact Hs'|lia].
    + intros s _. eexists. split; [reflexivity|exact I].
    + split; [|cbn; lia]. repeat split; cbn; try discriminate.
      intros f d c v [].
    + apply Forall_forall. intros instance _. exact I.
    + exists trained, w'. exact Hrun.
Qed.

End SequenceTraining.

Lemma sequence_training_returns_with_order_zero_witness :
  let tagger : multiclass string string Z Z :=
    SequencePerceptron.__init__ example_source (fun _ => []) 0 "B" None in
  let accuracy := example_accuracy (fun y yhat : string => key_eqb y yhat) in
  iter_ok (@insertion_order string)
  /\ consistent tagger /\ order tagger <= 0
  /\ (exists yyhat self',
         SequencePerceptron_fit_one insertion_order tagger [["f"]; ["g"]] ["A"]
         = Ok (yyhat, self')
         /\ List.length yyhat = 2%nat
         /\ classes self' = set_update (classes tagger) ["A"]
         /\ consistent self' /\ order self' = order tagger)
  /\ exists trained w',
       SequencePerceptron_fit insertion_order example_source example_clock accuracy
         (SequencePerceptron.__init__ example_source (fun _ => []) 0 "B" (Some 3))
         [[["f"]; ["g"]]] [["A"; "B"]] 2 {| clock_reads := 0; emitted := [] |}
       = Ok (trained, w').
Proof.
  intros tagger accuracy.
  assert (Hcons : consistent tagger).
  { repeat split; cbn; try discriminate. intros f d c v []. }
  assert (Horder : order tagger <= 0) by (cbn; lia).
  split; [exact insertion_order_ok|]. split; [exact Hcons|]. split; [exact Horder|].
  exact (sequence_training_returns_with_order_zero insertion_order
           insertion_order_ok example_source example_clock accuracy tagger
           [["f"]; ["g"]] ["A"] (fun _ => []) "B" (Some 3)
           [[["f"]; ["g"]]] [["A"; "B"]] 2 {| clock_reads := 0; emitted := [] |}
           Hcons Horder).
Defined.

(** ** Models before and after training *)

Section ColdStart.
Context {F C Rng : Type} `{Hashable F} `{Hashable C}.

Lemma scores_of_no_rows (x : list F) (table : dict C Z) :
  scores_of (defaultdict : dict F (dict C Z)) x table = Ok table.
Proof.
  induction x as [|f x IH]; [reflexivity|].
  rewrite scores_of_cons. cbn. exact IH.
Qed.

Lemma predict_in_step (set_iter : list C -> list C)
  (a : multiclass F C Rng LazyWeight.t) (p : multiclass F C Rng Z) (x : list F) :
  mirrors a p ->
  result_rel (fun r r' => fst r = fst r')
             (AveragedPerceptron_predict set_iter a x)
             (Perceptron_predict set_iter p x).
Proof.
  intro Hm. unfold AveragedPerceptron_predict, Perceptron_predict, Perceptron.predict.
  pose proof (scores_in_step set_iter a p x Hm) as Hscores.
  destruct (AveragedPerceptron.scores set_iter a x) as [[t a1]|e],
           (Perceptron.scores set_iter p x) as [[t' p1]|e'];
    cbn [result_rel fst snd] in Hscores; try contradiction;
    [|cbn; exact Hscores].
  destruct Hscores as (Ht & _). cbn [bind].
  pose proof (argmax_in_step t t' Ht) as Hmax.
  destruct (max_by_value (items t)) as [[yhat v]|e],
           (max_by_value (items t')) as [[yhat' v']|e'];
    cbn [result_rel fst] in Hmax; try contradiction; [|cbn; exact Hmax].
  cbn. exact Hmax.
Qed.

(** X21: what a model predicts before it has learnt anything.  On the
    model the constructor returns, for every feature vector, the binary
    [predict] returns [True] (the sum of no weight is 0, and the test is
    [>= 0]) and the multiclass [predict] returns the default class, in
    the plain and in the averaged variants. *)
Theorem new_models_predict_default
  (set_iter : list C -> list C) (src : random_source Rng) (default : C)
  (seed : option Z) (x : list F) :
  iter_ok set_iter ->
  fmap fst (BinaryPerceptron.predict (BinaryPerceptron.__init__ src seed) x)
  = Ok true
  /\ fmap fst (BinaryAveragedPerceptron.predict
                 (BinaryAveragedPerceptron.__init__ src seed) x) = Ok true
  /\ fmap fst (Perceptron_predict set_iter (Perceptron.__init__ src default seed) x)
     = Ok default
  /\ fmap fst (AveragedPerceptron_predict set_iter
                 (AveragedPerceptron.__init__ src default seed) x) = Ok default.
Proof.
  intro Hiter.
  assert (Hzero : sum_over (fun _ : F => 0) x = 0).
  { induction x as [|f x IH]; [reflexivity|]. cbn [sum_over fold_right].
    exact IH. }
  assert (Hplain : fmap fst (Perceptron_predict set_iter
                               (Perceptron.__init__ src default seed) x)
                   = Ok default).
  { unfold Perceptron_predict, Perceptron.predict.
    pose proof (scores_value set_iter (Perceptron.__init__ (F := F) src default seed) x)
      as Hval.
    cbn [Perceptron.__init__ weights classes] in Hval.
    rewrite scores_of_no_rows in Hval.
    assert (Hone : set_iter [default] = [default]).
    { apply Permutation_length_1_inv, Permutation_sym, Hiter. }
    rewrite Hone in Hval.
    destruct (Perceptron.scores set_iter _ x) as [[table s]|e]; [|discriminate].
    cbn in Hval. apply Ok_inj in Hval. subst table. reflexivity. }
  split; [|split; [|split; [exact Hplain|]]].
  - unfold BinaryPerceptron.predict.
    destruct (binary_score_value x (BinaryPerceptron.__init__ src seed) eq_refl)
      as (s & -> & _).
    cbn [bind fmap fst]. do 2 f_equal.
    change ((sum_over (fun _ : F => 0) x >=? 0) = true). now rewrite Hzero.
  - unfold BinaryAveragedPerceptron.predict, BinaryAveragedPerceptron.t.
    destruct (averaged_score_spec x (BinaryAveragedPerceptron.__init__ src seed)
                (fun _ => 0) 0 eq_refl (fun f => eq_refl))
      as (s & -> & _).
    cbn [bind fmap fst]. rewrite num_ge_int, Hzero. reflexivity.
  - pose proof (predict_in_step set_iter
                  (AveragedPerceptron.__init__ src default seed)
                  (Perceptron.__init__ src default seed) x) as Hsame.
    destruct (Perceptron_predict set_iter (Perceptron.__init__ src default seed) x)
      as [[yhat s]|e]; [|discriminate].
    cbn in Hplain. apply Ok_inj in Hplain. subst yhat.
    destruct (AveragedPerceptron_predict set_iter
                (AveragedPerceptron.__init__ src default seed) x)
      as [[yhat' s']|e'].
    + cbn in Hsame |- *. f_equal. apply Hsame.
      split; [reflexivity|]. split; [reflexivity|constructor].
    + exfalso. apply Hsame. split; [reflexivity|]. split; [reflexivity|constructor].
Qed.

(** X22: the plain multiclass [finalize] can be repeated.  It always
    returns, and a second [finalize] on the model the first one returned
    returns that model again: the rows hold no weight 0 any more, and
    nothing else is touched. *)
Theorem multiclass_finalize_idempotent (self : multiclass F C Rng Z) :
  exists self',
    Perceptron.finalize self = Ok self'
    /\ Perceptron.finalize self' = Ok self'.
Proof.
  eexists. split; [reflexivity|].
  unfold Perceptron.finalize, with_weights.
  cbn [weights classes random time tfeats_fnc order items].
  f_equal. f_equal. f_equal.
  rewrite map_map. apply map_ext. intros [f row].
  cbn [items]. do 2 f_equal.
  induction (items row) as [|[c v] rest IH]; [reflexivity|].
  cbn [filter snd]. destruct (v =? 0) eqn:Hv; cbn [negb]; [exact IH|].
  cbn [filter snd]. rewrite Hv. cbn [negb]. now rewrite IH.
Qed.

End ColdStart.

Lemma new_models_predict_default_witness :
  iter_ok (@reverse_order string)
  /\ fmap fst (BinaryPerceptron.predict
                 (BinaryPerceptron.__init__ example_source None) ["a"; "b"])
     = Ok true
  /\ fmap fst (BinaryAveragedPerceptron.predict
                 (BinaryAveragedPerceptron.__init__ example_source None) ["a"; "b"])
     = Ok true
  /\ fmap fst (Perceptron_predict reverse_order
                 (Perceptron.__init__ example_source "B" None) ["a"; "b"])
     = Ok "B"
  /\ fmap fst (AveragedPerceptron_predict reverse_order
                 (AveragedPerceptron.__init__ example_source "B" None) ["a"; "b"])
     = Ok "B".
Proof.
  split; [exact reverse_order_ok|].
  exact (new_models_predict_default reverse_order example_source "B" None
           ["a"; "b"] reverse_order_ok).
Defined.

(** ** The score of one class, with averaging *)

(** X23: during training the averaged [score] is the plain [score].
    When an averaged model holds the same classes and rows as a plain
    model, each averaged weight reading the integer the plain model
    holds, [score(x, y)] has the same outcome on both, for every class
    [y], registered or not: the same exception, or the same integer,
    with the two models still in step (both have stored the same missing
    entries). *)
Theorem averaged_score_mirrors_plain {F C Rng : Type} `{Hashable F} `{Hashable C}
  (averaged : multiclass F C Rng LazyWeight.t) (plain : multiclass F C Rng Z)
  (x : list F) (y : C) :
  mirrors averaged plain ->
  result_rel (fun r r' => is_int (fst r) (fst r') /\ mirrors (snd r) (snd r'))
             (AveragedPerceptron.score averaged x y)
             (Perceptron.score plain x y).
Proof.
  intro Hm. unfold AveragedPerceptron.score, Perceptron.score.
  apply (for_each_rel eq
           (fun (r : num * multiclass F C Rng LazyWeight.t)
                (r' : Z * multiclass F C Rng Z) =>
              is_int (fst r) (fst r') /\ mirrors (snd r) (snd r')));
    [|apply Forall2_same|split; [reflexivity|exact Hm]].
  intros [total s] [total' s'] f f' [Htotal Hs] <-. cbn [fst snd] in *.
  apply (bind_rel (fun r r' => mirrored reads_int (fst r) (fst r')
                               /\ mirrored (mirrored reads_int) (snd r) (snd r'))).
  - apply getitem_mirrored; [exact empty_rows_mirrored|apply Hs].
  - intros [row ws] [row' ws'] [Hrow Hws]. cbn [fst snd] in *.
    apply (bind_rel (fun r r' => reads_int (fst r) (fst r')
                                 /\ mirrored reads_int (snd r) (snd r'))).
    + apply getitem_mirrored; [exact fresh_reads_zero|exact Hrow].
    + intros [w row1] [w' row1'] [Hw Hrow1]. cbn [fst snd result_rel] in *.
      split.
      * unfold is_int, reads_int in *. rewrite Htotal, Hw. reflexivity.
      * apply with_weights_mirrors; [exact Hs|].
        apply setitem_mirrored; assumption.
Qed.

Lemma averaged_score_mirrors_plain_witness :
  let averaged : multiclass string string Z LazyWeight.t :=
    with_weights
      (with_classes (AveragedPerceptron.__init__ example_source "B" (Some 0))
                    ["B"; "A"])
      {| items :=
           [("f",
             {| items :=
                  [("A", LazyWeight.update LazyWeight.fresh (PyInt 1) 0);
                   ("B", LazyWeight.update LazyWeight.fresh (PyInt (-1)) 0)];
                defaulting := true |})];
         defaulting := true |} in
  mirrors averaged example_model
  /\ result_rel (fun r r' => is_int (fst r) (fst r') /\ mirrors (snd r) (snd r'))
                (AveragedPerceptron.score averaged ["f"; "g"] "A")
                (Perceptron.score example_model ["f"; "g"] "A")
  /\ fmap fst (Perceptron.score example_model ["f"; "g"] "A") = Ok 1.
Proof.
  intro averaged.
  assert (Hm : mirrors averaged example_model).
  { split; [reflexivity|]. split; [reflexivity|].
    repeat constructor. }
  split; [exact Hm|].
  split; [|reflexivity].
  exact (averaged_score_mirrors_plain averaged example_model ["f"; "g"] "A" Hm).
Defined.
